(** * circus/files/datafile.py: the [DataFile] base class

    A shallow embedding of [DataFile]: the constructor, the lazily computed
    properties [N_t] and [template_shift], [get_safety_time], [analyze] and
    [get_snippet], as state-passing functions over an explicit object, of the
    module's [_check_requierements_] and [_display_requierements_], and the
    properties of that code.

    Conventions of the embedding:
    - a Python [float] is an IEEE-754 binary64 number, i.e. Rocq's primitive
      [float]; a Python [int] is a [Z]; a [numpy.int64] is a [Z] with its
      wrap-around written out;
    - an object's [__dict__] is a [gmap string pyval]; class attributes are
      the fields of [Format] and are consulted after the instance dictionary;
    - an instruction that may raise returns [exn + A]; the state (the object,
      the calls the resolver received, what the logger was handed) survives an
      exception, as it does in Python;
    - the configuration resolver [params] is an argument of the constructor
      and is taken as a record of getters; [float] on a string is the
      interpreter's and is a parameter of [get_safety_time]. *)

From Stdlib Require Import ZArith String Ascii List Bool Lia Floats.
From stdpp Require Import base option gmap strings list.

Local Open Scope string_scope.
Local Open Scope Z_scope.
Set Warnings "-inexact-float".

(** ** Python values and exceptions *)

Module Py.

(** The values an attribute of the modelled objects holds. *)
#[warnings="-register-all"]
Inductive pyval : Type :=
| VNone
| VBool (b : bool)
| VInt (z : Z)
| VFloat (f : float)
| VStr (s : string)
| VTuple (l : list pyval).

(** The exceptions the modelled fragment raises.  [SystemExit] is what
    [sys.exit(code)] raises; it is a [BaseException], so [except Exception]
    does not catch it.  [NoSectionError] and [NoOptionError] are the
    configuration resolver's. *)
Inductive exn : Type :=
| SystemExit (code : Z)
| UnboundLocalError (name : string)
| AttributeError (name : string)
| TypeError
| ValueError
| OverflowError
| ZeroDivisionError
| IndexError
| NoSectionError (section : string)
| NoOptionError (section option : string).

Definition is_Exception (e : exn) : bool :=
  match e with SystemExit _ => false | _ => true end.

(** *** Floats *)

(** [int(x)] for a float: truncation toward zero; [nan] and the infinities
    raise. *)
Definition trunc_SF (x : spec_float) : exn + Z :=
  match x with
  | S754_zero _ => inr 0
  | S754_finite s m e =>
      let a := if 0 <=? e then Z.pos m * 2 ^ e else Z.pos m / 2 ^ (- e) in
      inr (if s then - a else a)
  | S754_infinity _ => inl OverflowError
  | S754_nan => inl ValueError
  end.

Definition int_of_float (f : float) : exn + Z := trunc_SF (Prim2SF f).

(** [float(n)] for an int: the nearest double (ties to even); an int too
    large for a double raises. *)
Definition float_of_int (z : Z) : exn + float :=
  match binary_normalize prec emax z 0 false with
  | S754_infinity _ => inl OverflowError
  | x => inr (SF2Prim x)
  end.

(** [round(x)] for a float, one argument: the nearest integer, ties to
    even. *)
Definition round_SF (x : spec_float) : exn + Z :=
  match x with
  | S754_zero _ => inr 0
  | S754_finite s m e =>
      let a :=
        if 0 <=? e then Z.pos m * 2 ^ e
        else
          let d := 2 ^ (- e) in
          let q := Z.pos m / d in
          let r := Z.pos m mod d in
          match 2 * r ?= d with
          | Lt => q
          | Gt => q + 1
          | Eq => if Z.even q then q else q + 1
          end in
      inr (if s then - a else a)
  | S754_infinity _ => inl OverflowError
  | S754_nan => inl ValueError
  end.

Definition round_float (f : float) : exn + Z := round_SF (Prim2SF f).

Definition is_finite (f : float) : bool :=
  match Prim2SF f with
  | S754_zero _ | S754_finite _ _ _ => true
  | _ => false
  end.

(** [math.fmod] (C's [fmod], which is exact): the remainder of [x / y]
    truncated, with the sign of [x]. *)
Definition fmod_SF (x y : spec_float) : spec_float :=
  match x, y with
  | S754_nan, _ | _, S754_nan => S754_nan
  | S754_infinity _, _ => S754_nan
  | _, S754_zero _ => S754_nan
  | S754_zero _, _ => x
  | S754_finite _ _ _, S754_infinity _ => x
  | S754_finite sx mx ex, S754_finite _ my ey =>
      let e := Z.min ex ey in
      let r := (Z.pos mx * 2 ^ (ex - e)) mod (Z.pos my * 2 ^ (ey - e)) in
      binary_normalize prec emax (if sx then - r else r) e sx
  end.

Definition fmod (x y : float) : float := SF2Prim (fmod_SF (Prim2SF x) (Prim2SF y)).

(** C's [floor] on a double. *)
Definition floor_SF (x : spec_float) : spec_float :=
  match x with
  | S754_finite s m e =>
      if 0 <=? e then x
      else
        let d := 2 ^ (- e) in
        binary_normalize prec emax
          (if s then - ((Z.pos m + d - 1) / d) else Z.pos m / d) 0 s
  | _ => x
  end.

Definition floor (x : float) : float := SF2Prim (floor_SF (Prim2SF x)).

(** C's [copysign(0.0, q)]. *)
Definition signed_zero (q : float) : float :=
  match Prim2SF q with
  | S754_zero true | S754_finite true _ _ | S754_infinity true => (-0)%float
  | _ => 0%float
  end.

(** [vx // wx] on floats, as CPython's [float_floor_div] computes it. *)
Definition float_floordiv (vx wx : float) : exn + float :=
  if (wx =? 0)%float then inl ZeroDivisionError
  else
    let rem := fmod vx wx in
    let div := ((vx - rem) / wx)%float in
    let div :=
      if negb (rem =? 0)%float && negb (eqb (wx <? 0)%float (rem <? 0)%float)
      then (div - 1)%float else div in
    if negb (div =? 0)%float then
      let fl := floor div in
      inr (if (0.5 <? div - fl)%float then (fl + 1)%float else fl)
    else inr (signed_zero (vx / wx)%float).

(** *** Integers *)


Definition in_int64 (z : Z) : bool := (- 2 ^ 63 <=? z) && (z <? 2 ^ 63).

Definition int_of_bool (b : bool) : Z := if b then 1 else 0.

(** [numpy.int64(v)]: an int that does not fit raises; a float is truncated.
    Only numbers are converted here (numpy also reads numeric strings). *)
Definition np_int64 (v : pyval) : exn + Z :=
  match v with
  | VInt z => if in_int64 z then inr z else inl OverflowError
  | VBool b => inr (int_of_bool b)
  | VFloat f =>
      match int_of_float f with
      | inr z => if in_int64 z then inr z else inl OverflowError
      | inl e => inl e
      end
  | _ => inl TypeError
  end.

(** *** The operators the class applies to attribute values *)

(** [v * d] for a float [d]. *)
Definition mul_float (v : pyval) (d : float) : exn + float :=
  match v with
  | VFloat r => inr (r * d)%float
  | VInt z =>
      match float_of_int z with inr r => inr (r * d)%float | inl e => inl e end
  | VBool b =>
      match float_of_int (int_of_bool b) with
      | inr r => inr (r * d)%float
      | inl e => inl e
      end
  | _ => inl TypeError
  end.

(** [int((v - 1) // 2)]. *)
Definition half_below (v : pyval) : exn + Z :=
  match v with
  | VInt n => inr ((n - 1) / 2)
  | VBool b => inr ((int_of_bool b - 1) / 2)
  | VFloat f =>
      match float_floordiv (f - 1)%float 2%float with
      | inr q => int_of_float q
      | inl e => inl e
      end
  | _ => inl TypeError
  end.


(** *** The [%] operator on a format string *)

(** A formatted line: the template and the values that filled it. *)
Record message : Type := Formatted { template : string; args : list pyval }.

(** Walks the template; each [%s] consumes one argument and [%%] none.  The
    templates of this file use [%s] only: flags, widths and the other
    conversions are not read, and a [%] followed by any other character is
    refused the way an unknown conversion is. *)
Fixpoint percent_go (t : string) (args : list pyval) : exn + list pyval :=
  match t with
  | EmptyString => inr args
  | String "%" EmptyString => inl ValueError
  | String "%" (String c t') =>
      if Ascii.eqb c "%" then percent_go t' args
      else
        match args with
        | [] => inl TypeError
        | _ :: args' => if Ascii.eqb c "s" then percent_go t' args' else inl ValueError
        end
  | String _ t' => percent_go t' args
  end.

(** [t % (a1, ..., an)]: too few or too many arguments is a [TypeError]. *)
Definition percent (t : string) (args : list pyval) : exn + message :=
  match percent_go t args with
  | inr [] => inr (Formatted t args)
  | inr (_ :: _) => inl TypeError
  | inl e => inl e
  end.

(** *** Strings and paths *)

Definition upper_ascii (a : ascii) : ascii :=
  let n := nat_of_ascii a in
  if (97 <=? n)%nat && (n <=? 122)%nat then ascii_of_nat (n - 32) else a.

(** A string whose characters are all ASCII.  Strings are byte strings here
    (a Python [str] in UTF-8): equality, [splitext] and the search for [.]
    and [/] read the same on both, letter case does not. *)
Definition ascii_only (s : string) : bool :=
  forallb (fun a => (nat_of_ascii a <? 128)%nat) (list_ascii_of_string s).

(** [s.upper()] for an ASCII string [s]: the letters a-z become A-Z.
    Python's [str.upper] follows Unicode; for a string with other characters
    this function is not it, and the statements about the extension check
    take the listed extensions to be [ascii_only]. *)
Fixpoint upper (s : string) : string :=
  match s with
  | EmptyString => EmptyString
  | String a s' => String (upper_ascii a) (upper s')
  end.

Fixpoint rfind_from (c : ascii) (s : string) (i last : Z) : Z :=
  match s with
  | EmptyString => last
  | String a s' => rfind_from c s' (i + 1) (if Ascii.eqb a c then i else last)
  end.

(** [s.rfind(c)]: the last index of [c], or [-1]. *)
Definition rfind (c : ascii) (s : string) : Z := rfind_from c s 0 (-1).

Fixpoint all_dots (s : string) : bool :=
  match s with
  | EmptyString => true
  | String a s' => Ascii.eqb a "." && all_dots s'
  end.

(** [os.path.splitext(p)] (posixpath): the extension starts at the last dot
    of the last path component, unless only dots precede it there. *)
Definition splitext (p : string) : string * string :=
  let sepIndex := rfind "/" p in
  let dotIndex := rfind "." p in
  if (sepIndex <? dotIndex)
     && negb (all_dots (substring (Z.to_nat (sepIndex + 1))
                                  (Z.to_nat (dotIndex - (sepIndex + 1))) p))
  then (substring 0 (Z.to_nat dotIndex) p,
        substring (Z.to_nat dotIndex) (String.length p - Z.to_nat dotIndex) p)
  else (p, EmptyString).

End Py.
Export Py.

(** ** The object, the process and the monad *)

(** The configuration resolver ([params]): typed getters that return a value
    or raise.  It is an argument of the constructor. *)
Record Params : Type := {
  get : string -> string -> exn + string;
  getint : string -> string -> exn + Z;
  getfloat : string -> string -> exn + float
}.

(** One invocation of the resolver. *)
Inductive call : Type :=
| Get (section key : string)
| GetInt (section key : string)
| GetFloat (section key : string).

(** The class attributes of a format: those [DataFile] declares, and whatever
    else a format's class adds ([_others]). *)
Record Format : Type := {
  _description : string;
  _extension : option (list string);
  _parallel_write : bool;
  _is_writable : bool;
  _requiered_fields : list (string * (string * pyval));
  _shape : Z * Z;
  _max_offset : Z;
  _others : gmap string pyval
}.

(** The class as [DataFile] itself declares it. *)
Definition DataFile_class : Format := {|
  _description := "mydatafile";
  _extension := Some [".myextension"];
  _parallel_write := false;
  _is_writable := false;
  _requiered_fields := [];
  _shape := (0, 0);
  _max_offset := 0;
  _others := ∅
|}.

(** An instance: its class, the three attributes bound to the constructor's
    named parameters, and the rest of its [__dict__]. *)
Record DataFile : Type := {
  cls : Format;
  file_name : string;
  is_empty : bool;
  params : Params;
  __dict__ : gmap string pyval
}.

(** What reached the logger. *)
Inductive event : Type :=
| Error (lines : list message)
| Log (lines : list message) (level : string).

(** The object together with what is observable around it: the rank of the
    process ([comm.rank], of [circus.shared.mpi]), the calls the resolver has
    received and what the logger was handed. *)
Record State : Type := {
  self : DataFile;
  rank : Z;
  calls : list call;
  out : list event
}.

Definition M (A : Type) : Type := State -> (exn + A) * State.

Definition ret {A} (a : A) : M A := fun σ => (inr a, σ).

Definition raise {A} (e : exn) : M A := fun σ => (inl e, σ).

Definition lift {A} (r : exn + A) : M A := fun σ => (r, σ).

Definition bind {A B} (c : M A) (k : A -> M B) : M B :=
  fun σ =>
    match c σ with
    | (inr a, σ') => k a σ'
    | (inl e, σ') => (inl e, σ')
    end.

Notation "'do' x <- c ; k" := (bind c (fun x => k))
  (at level 10, x name, c at level 100, k at level 200).

(** [try: c  except Exception: h]. *)
Definition try_except {A} (c h : M A) : M A :=
  fun σ =>
    match c σ with
    | (inl e, σ') => if is_Exception e then h σ' else (inl e, σ')
    | r => r
    end.

Definition when (b : bool) (c : M unit) : M unit := if b then c else ret tt.

(** Reading a local variable that may not have been assigned yet. *)
Definition local {A} (name : string) (v : option A) : M A :=
  match v with
  | Some a => ret a
  | None => raise (UnboundLocalError name)
  end.

Definition sys_exit {A} (code : Z) : M A := raise (SystemExit code).

(** *** Attributes *)

Definition with_dict (f : gmap string pyval -> gmap string pyval) (σ : State) : State :=
  {| self := {| cls := cls (self σ); file_name := file_name (self σ);
                is_empty := is_empty (self σ); params := params (self σ);
                __dict__ := f (__dict__ (self σ)) |};
     rank := rank σ; calls := calls σ; out := out σ |}.

Definition with_call (c : call) (σ : State) : State :=
  {| self := self σ; rank := rank σ; calls := (calls σ ++ [c])%list; out := out σ |}.

Definition with_event (ev : event) (σ : State) : State :=
  {| self := self σ; rank := rank σ; calls := calls σ; out := (out σ ++ [ev])%list |}.

Definition seq_of_strings (l : list string) : pyval := VTuple (VStr <$> l).

(** The class namespace of a format. *)
Definition class_dict (c : Format) : gmap string pyval :=
  <["_description" := VStr (_description c)]>
  (<["_extension" := from_option seq_of_strings VNone (_extension c)]>
  (<["_parallel_write" := VBool (_parallel_write c)]>
  (<["_is_writable" := VBool (_is_writable c)]>
  (<["_requiered_fields" :=
       VTuple ((fun kv => VTuple [VStr kv.1; VTuple [VStr kv.2.1; kv.2.2]])
               <$> _requiered_fields c)]>
  (<["_shape" := VTuple [VInt (_shape c).1; VInt (_shape c).2]]>
  (<["_max_offset" := VInt (_max_offset c)]> (_others c))))))).

(** The names [DataFile] declares as read-only properties. *)
Definition properties : list string :=
  ["N_t"; "dist_peaks"; "template_shift"; "shape"; "max_offset"; "is_master"].

(** Attribute lookup for a data attribute: the instance dictionary, then
    the class.  The name is not a property, and not [file_name], [is_empty]
    or [params], which lines 89-91 bind and which are the fields of
    [DataFile] here; methods are not in these dictionaries. *)
Definition lookup_attr (o : DataFile) (name : string) : option pyval :=
  match __dict__ o !! name with
  | Some v => Some v
  | None => class_dict (cls o) !! name
  end.

(** [self.name]. *)
Definition getattr (name : string) : M pyval :=
  fun σ =>
    match lookup_attr (self σ) name with
    | Some v => (inr v, σ)
    | None => (inl (AttributeError name), σ)
    end.

(** [hasattr(self, name)], for a name that is not a property. *)
Definition hasattr (name : string) : M bool :=
  fun σ => (inr (bool_decide (is_Some (lookup_attr (self σ) name))), σ).

(** [self.name = v] for an ordinary attribute. *)
Definition assign (name : string) (v : pyval) : M unit :=
  fun σ => (inr tt, with_dict <[name := v]> σ).

(** The names no keyword can assign: the properties, which have no setter;
    [__class__] and [__dict__], which take a class and a dictionary only (no
    [pyval] is one); [__weakref__], which is not writable. *)
Definition unassignable : list string :=
  (properties ++ ["__class__"; "__dict__"; "__weakref__"])%list.

(** [object.__setattr__(self, name, v)], the method the class inherits. *)
Definition object_setattr (name : string) (v : pyval) : M unit :=
  if bool_decide (name ∈ properties) then raise (AttributeError name)
  else if bool_decide (name ∈ ["__class__"; "__dict__"]) then raise TypeError
  else if bool_decide (name = "__weakref__") then raise (AttributeError name)
  else assign name v.

(** [self.__setattr__(name, v)].  The method is looked up like any
    attribute, so a value stored under the name [__setattr__] (by a keyword,
    or as a class attribute) shadows it, and no [pyval] can be called. *)
Definition __setattr__ (name : string) (v : pyval) : M unit :=
  fun σ =>
    match lookup_attr (self σ) "__setattr__" with
    | Some _ => (inl TypeError, σ)
    | None => object_setattr name v σ
    end.

Arguments __setattr__ : simpl never.

(** [self.is_master]. *)
Definition is_master : M bool := fun σ => (inr (rank σ =? 0), σ).

(** *** The collaborators *)

Definition params_get (section key : string) : M string :=
  fun σ => (get (params (self σ)) section key, with_call (Get section key) σ).

Definition params_getint (section key : string) : M Z :=
  fun σ => (getint (params (self σ)) section key, with_call (GetInt section key) σ).

Definition params_getfloat (section key : string) : M float :=
  fun σ => (getfloat (params (self σ)) section key, with_call (GetFloat section key) σ).

(** Modelled from the spec: [circus.shared.messages.print_error] is not among
    the sources; the spec names it a diagnostic printer, so it hands its lines to
    the logger and returns. *)
Definition print_error (lines : list message) : M unit :=
  fun σ => (inr tt, with_event (Error lines) σ).

(** Modelled from the spec: [circus.shared.messages.print_and_log] is not
    among the sources; as a logger it records its lines with their level and
    returns. *)
Definition print_and_log (lines : list message) (level : string) : M unit :=
  fun σ => (inr tt, with_event (Log lines level) σ).

(** ** The class *)

(** The literal [requiered_values] of [__init__], in the order it lists its
    keys: attribute, then section, option and type. *)
Definition requiered_values : list (string * (string * string * string)) :=
  [("rate", ("data", "sampling_rate", "float"));
   ("N_e", ("data", "N_e", "int"));
   ("N_tot", ("data", "N_total", "int"))].

(** [for key, value in kwargs.items(): self.__setattr__(key, value)]. *)
Fixpoint set_kwargs (kwargs : list (string * pyval)) : M unit :=
  match kwargs with
  | [] => ret tt
  | (key, value) :: rest => do _ <- __setattr__ key value ; set_kwargs rest
  end.

(** The body of the loop over [requiered_values]; [to_be_set] is a local of
    the constructor and is carried from one round to the next. *)
Definition resolve (key : string) (value : string * string * string)
    (to_be_set : option pyval) : M (option pyval) :=
  let '(section, option, type) := value in
  do present <- hasattr key ;
  if negb present then
    do to_be_set <-
      (if String.eqb type "int" then
         do n <- params_getint section option ;
         do z <- lift (np_int64 (VInt n)) ;
         ret (Some (VInt z))
       else ret to_be_set) ;
    do to_be_set <-
      (if String.eqb type "float" then
         do f <- params_getfloat section option ;
         ret (Some (VFloat f))
       else ret to_be_set) ;
    do v <- local "to_be_set" to_be_set ;
    do _ <- __setattr__ key v ;
    do master <- is_master ;
    do _ <- when master
      (do line <- lift (percent "%s is read from the params with a value of %s"
                             [VStr key; v]) ;
       print_and_log [line] "debug") ;
    ret to_be_set
  else
    do master <- is_master ;
    do _ <- when master
      (do line <- lift (percent "%s is infered from the data file with a value of %s"
                             [VStr key; seq_of_strings [section; option; type]]) ;
       print_and_log [line] "debug") ;
    ret to_be_set.

Fixpoint resolve_all (l : list (string * (string * string * string)))
    (to_be_set : option pyval) : M unit :=
  match l with
  | [] => ret tt
  | (key, value) :: rest =>
      do to_be_set <- resolve key value to_be_set ;
      resolve_all rest to_be_set
  end.

(** [_get_info_]: [pass]. *)
Definition _get_info_ : M unit := ret tt.

(** [self._get_info_()]: the method, unless a value is stored under its name
    (by a keyword, or as a class attribute), which cannot be called. *)
Definition self_get_info_ : M unit :=
  fun σ =>
    match lookup_attr (self σ) "_get_info_" with
    | Some _ => (inl TypeError, σ)
    | None => _get_info_ σ
    end.

Arguments self_get_info_ : simpl never.

(** The text of the diagnostic for an empty file of a format that cannot be
    written. *)
Definition empty_not_writable : string :=
  "The file %s is empty and non writable...".

(** [__init__], lines 93-96.  [extension] is a local of [__init__] that only
    the [splitext] line (98) assigns, so it is unbound here. *)
Definition check_writable : M unit :=
  fun σ =>
  let c := cls (self σ) in
  (let extension : option string := None in
   when (is_empty (self σ) && negb (_is_writable c))
     (do master <- is_master ;
      do _ <- when master
        (do ext <- local "extension" extension ;
         do line <- lift (percent empty_not_writable
                                  [VStr ext; VStr (_description c)]) ;
         print_error [line]) ;
      sys_exit 0)) σ.

(** [__init__], lines 98-104. *)
Definition check_extension : M unit :=
  fun σ =>
  let c := cls (self σ) in
  (let '(f_next, extension) := splitext (file_name (self σ)) in
   match _extension c with
   | Some exts =>
       when (negb (bool_decide (extension ∈ (exts ++ (upper <$> exts))%list)))
         (do master <- is_master ;
          do _ <- when master
            (do line <- lift (percent "The extension %s is not valid for a %s file"
                                   [VStr extension; VStr (_description c)]) ;
             print_error [line]) ;
          sys_exit 0)
   | None => ret tt
   end) σ.

(** [__init__], lines 127-135: the caches are reset, the creation is logged
    and a file that is not empty is inspected. *)
Definition finish_init : M unit :=
  fun σ =>
  (do _ <- assign "_N_t" VNone ;
   do _ <- assign "_dist_peaks" VNone ;
   do _ <- assign "_template_shift" VNone ;
   do _ <- assign "_safety_time" VNone ;
   do master <- is_master ;
   do _ <- when master
     (do description <- getattr "_description" ;
      do line <- lift (percent "The datafile %s with type %s has been created"
                            [VStr (file_name (self σ)); description]) ;
      print_and_log [line] "debug") ;
   when (negb (is_empty (self σ))) self_get_info_) σ.

(** [__init__], lines 106-135. *)
Definition init_attributes (kwargs : list (string * pyval)) : M unit :=
  do _ <- set_kwargs kwargs ;
  do _ <- resolve_all requiered_values None ;
  finish_init.

(** The body of [__init__] from line 93 on; lines 89-91 bind
    [self.file_name], [self.is_empty] and [self.params]. *)
Definition init_body (kwargs : list (string * pyval)) : M unit :=
  do _ <- check_writable ;
  do _ <- check_extension ;
  init_attributes kwargs.

(** The parameters of [__init__] other than [**kwargs]; a keyword of one of
    these names collides with the parameter. *)
Definition named_parameters : list string :=
  ["self"; "file_name"; "params"; "is_empty"].

(** A fresh instance of the class [c] with lines 89-91 done, in a process of
    the given rank that has not called the resolver or the logger yet. *)
Definition fresh (c : Format) (file_name : string) (params : Params)
    (is_empty : bool) (rank : Z) : State :=
  {| self := {| cls := c; file_name := file_name; is_empty := is_empty;
                params := params; __dict__ := ∅ |};
     rank := rank; calls := []; out := [] |}.

(** What the caller of a constructor gets: the instance if the body
    returned, the exception otherwise; the logs either way. *)
Definition constructed (r : (exn + unit) * State)
  : (exn + DataFile) * (list call * list event) :=
  match r with
  | (inr _, σ') => (inr (self σ'), (calls σ', out σ'))
  | (inl e, σ') => (inl e, (calls σ', out σ'))
  end.

(** [DataFile(file_name, params, is_empty, **kwargs)] for the class [c], run
    by the process of rank [rank]. *)
Definition __init__ (c : Format) (file_name : string) (params : Params)
    (is_empty : bool) (kwargs : list (string * pyval))
    (rank : Z) : (exn + DataFile) * (list call * list event) :=
  if bool_decide (Exists (fun kv => kv.1 ∈ named_parameters) kwargs)
  then (inl TypeError, ([], []))
  else constructed (init_body kwargs (fresh c file_name params is_empty rank)).

(** The duration of the window in ms: the detection section first, the data
    section if that lookup raises. *)
Definition window_duration : M float :=
  try_except (params_getfloat "detection" "N_t") (params_getfloat "data" "N_t").

(** [numpy.mod(n, 2)] for a Python int [n]: NumPy takes the operands as
    [int64] and refuses an [n] that does not fit (NumPy 2, as for [analyze]);
    the result has the sign of the divisor, as [Z.modulo] has. *)
Definition np_mod2 (n : Z) : exn + Z :=
  if in_int64 n then inr (n mod 2) else inl OverflowError.

(** The property [N_t].  The closing [return self.N_t] re-enters the
    property with [_N_t] set, i.e. it takes the first branch. *)
Definition N_t : M pyval :=
  do cached <- getattr "_N_t" ;
  match cached with
  | VNone =>
      do d <- window_duration ;
      do _ <- assign "_N_t" (VFloat d) ;
      do rate <- getattr "rate" ;
      do d <- getattr "_N_t" ;
      do x <- lift (match d with
                 | VFloat d =>
                     match mul_float rate d with
                     | inr x => inr (x * 1e-3)%float
                     | inl e => inl e
                     end
                 | _ => inl TypeError
                 end) ;
      do n <- lift (int_of_float x) ;
      do _ <- assign "_N_t" (VInt n) ;
      do parity <- lift (np_mod2 n) ;
      do _ <- when (parity =? 0) (assign "_N_t" (VInt (n + 1))) ;
      getattr "_N_t"
  | v => ret v
  end.

(** The property [dist_peaks]. *)
Definition dist_peaks : M pyval := N_t.

(** The property [template_shift]. *)
Definition template_shift : M pyval :=
  do cached <- getattr "_template_shift" ;
  match cached with
  | VNone =>
      do n <- N_t ;
      do h <- lift (half_below n) ;
      ret (VInt h)
  | v => ret v
  end.

(** The property [shape]. *)
Definition shape : M pyval := getattr "_shape".

(** The property [max_offset]. *)
Definition max_offset : M pyval := getattr "_max_offset".




Section Builtins.

(** [float(s)] on a string is the interpreter's; the class is read relative
    to it. *)
Variable float_of_str : string -> exn + float.

Definition get_safety_time (key : string) : M float :=
  do safety_time <- params_get key "safety_time" ;
  if String.eqb safety_time "auto" then
    do N_t <- window_duration ;
    lift (float_floordiv N_t 3)
  else lift (float_of_str safety_time).

End Builtins.

(** *** Chunk access *)

(** [get_data] is what a format implements; [Array] is what it returns. *)
Class Backend (Array : Type) : Type := {
  get_data : Z -> option Z -> Z * Z -> option (list Z) -> M Array
}.

(** [DataFile.get_data] itself: [pass], i.e. it returns [None]. *)
Definition DataFile_get_data : Backend pyval :=
  {| get_data := fun _ _ _ _ => ret VNone |}.

(** [get_snippet]; [self.get_data] is the format's. *)
Definition get_snippet `{Backend Array} (time length : Z)
    (nodes : option (list Z)) : M Array :=
  get_data 0 (Some length) (time, time) nodes.

(** Not negative: a zero, a finite number or an infinity with the sign bit
    clear, or [nan]. *)
Definition SF_nonneg (x : spec_float) : Prop :=
  match x with
  | S754_zero s | S754_finite s _ _ | S754_infinity s => s = false
  | S754_nan => True
  end.

(** ** Reading the cached properties repeatedly *)

Inductive access : Type := Get_N_t | Get_template_shift.

Definition read (a : access) : M pyval :=
  match a with
  | Get_N_t => N_t
  | Get_template_shift => template_shift
  end.

(** The accesses of [l], one after the other: what each returned or raised,
    and the state they leave. *)
Fixpoint reads (l : list access) (σ : State) : list (exn + pyval) * State :=
  match l with
  | [] => ([], σ)
  | a :: l' =>
      let '(r, σ') := read a σ in
      let '(rs, σ'') := reads l' σ' in
      (r :: rs, σ'')
  end.

(** ** The resolution of the required fields, stated on its own *)

(** The instance dictionary after [kwargs] has been copied into it. *)
Definition update_all (kwargs : list (string * pyval)) (d : gmap string pyval)
  : gmap string pyval :=
  foldl (fun d kv => <[kv.1 := kv.2]> d) d kwargs.

(** What [key] is already set to when the loop over [requiered_values]
    starts: the keyword argument of that name, else the class attribute. *)
Definition preset (c : Format) (kwargs : list (string * pyval)) (key : string)
  : option pyval :=
  match update_all kwargs ∅ !! key with
  | Some v => Some v
  | None => class_dict c !! key
  end.

(** The typed lookup of one entry of [requiered_values]: [getint] narrowed
    to [numpy.int64], or [getfloat]; there is no default. *)
Definition typed_lookup (p : Params) (value : string * string * string)
  : exn + pyval :=
  let '(section, option, type) := value in
  if String.eqb type "int" then
    match getint p section option with
    | inr n => match np_int64 (VInt n) with
               | inr z => inr (VInt z)
               | inl e => inl e
               end
    | inl e => inl e
    end
  else
    match getfloat p section option with
    | inr f => inr (VFloat f)
    | inl e => inl e
    end.

(** The resolver call that lookup makes. *)
Definition typed_call (value : string * string * string) : call :=
  let '(section, option, type) := value in
  if String.eqb type "int" then GetInt section option
  else GetFloat section option.

(** The calls the loop makes on the object [o]: one per key [o] lacks. *)
Definition lookups (o : DataFile) (l : list (string * (string * string * string)))
  : list call :=
  flat_map (fun kv => match lookup_attr o kv.1 with
                      | Some _ => []
                      | None => [typed_call kv.2]
                      end) l.

(** A line that only rank 0 logs. *)
Definition note (ev : event) (σ : State) : State :=
  if rank σ =? 0 then with_event ev σ else σ.

(** ** The specification's wording, for comparison *)

(** The sample count as the specification words it:
    [round(rate * duration_ms / 1000)]. *)
Definition rounded_samples (rate duration_ms : float) : exn + Z :=
  round_float (rate * duration_ms / 1000)%float.

(** "equals either the rounded value or that value incremented by one, the
    increment occurring only when the rounded value is even". *)
Definition is_rounded_window (rate duration_ms : float) (result : exn + pyval) : Prop :=
  exists r, rounded_samples rate duration_ms = inr r
            /\ (result = inr (VInt r)
                \/ (result = inr (VInt (r + 1)) /\ Z.even r = true)).

Definition lower_ascii (a : ascii) : ascii :=
  let n := nat_of_ascii a in
  if (65 <=? n)%nat && (n <=? 90)%nat then ascii_of_nat (n + 32) else a.

Fixpoint lower (s : string) : string :=
  match s with
  | EmptyString => EmptyString
  | String a s' => String (lower_ascii a) (lower s')
  end.

(** Membership "under case-insensitive comparison", as the specification
    words the extension check. *)
Definition member_ignoring_case (extension : string) (allowed : list string) : bool :=
  bool_decide (lower extension ∈ lower <$> allowed).

(** ** Instances used in the examples *)

Fixpoint table_lookup {A} (t : list (string * string * A)) (section key : string)
  : exn + A :=
  match t with
  | [] => inl (NoOptionError section key)
  | (s, k, v) :: t' =>
      if String.eqb s section && String.eqb k key then inr v
      else table_lookup t' section key
  end.

(** A resolver over literal tables; a key that is not listed raises. *)
Definition table_params (strings : list (string * string * string))
    (ints : list (string * string * Z)) (floats : list (string * string * float))
  : Params :=
  {| get := table_lookup strings;
     getint := table_lookup ints;
     getfloat := table_lookup floats |}.

Definition digit_of (a : ascii) : option Z :=
  let n := nat_of_ascii a in
  if (48 <=? n)%nat && (n <=? 57)%nat then Some (Z.of_nat n - 48) else None.

(** The digits [s] starts with: their value on top of [acc], how many there
    are, and what follows them. *)
Fixpoint read_digits (s : string) (acc count : Z) : Z * Z * string :=
  match s with
  | EmptyString => (acc, count, s)
  | String a s' =>
      match digit_of a with
      | Some d => read_digits s' (10 * acc + d) (count + 1)
      | None => (acc, count, s)
      end
  end.

Definition ratio (n d : Z) : exn + float :=
  match float_of_int n, float_of_int d with
  | inr a, inr b => inr (a / b)%float
  | inl e, _ | _, inl e => inl e
  end.

(** A reader of unsigned plain decimals ("3", "0.5"); it stands in for
    [float] in the examples, which pass it such strings only. *)
Definition plain_decimal (s : string) : exn + float :=
  let '(i, ni, rest) := read_digits s 0 0 in
  match rest with
  | EmptyString => if 0 <? ni then ratio i 1 else inl ValueError
  | String "." rest' =>
      let '(f, nf, rest'') := read_digits rest' i 0 in
      match rest'' with
      | EmptyString => if 0 <? ni + nf then ratio f (10 ^ nf) else inl ValueError
      | _ => inl ValueError
      end
  | _ => inl ValueError
  end.

(** A writable format with one extension. *)
Definition raw_binary : Format := {|
  _description := "raw_binary";
  _extension := Some [".dat"];
  _parallel_write := true;
  _is_writable := true;
  _requiered_fields := [("data_dtype", ("string", VNone));
                        ("data_offset", ("int", VInt 0))];
  _shape := (0, 0);
  _max_offset := 0;
  _others := ∅
|}.

(** A 20 kHz recording with a 1 ms window. *)
Definition params_20kHz : Params :=
  table_params
    [("detection", "safety_time", "auto"); ("clustering", "safety_time", "0.5")]
    [("data", "N_e", 4); ("data", "N_total", 5); ("data", "chunk_size", 300)]
    [("data", "sampling_rate", 20000%float); ("detection", "N_t", 1%float)].

(** The same recording with a 1.08 ms window, given in the data section. *)
Definition params_20kHz_108 : Params :=
  table_params []
    [("data", "N_e", 4); ("data", "N_total", 5)]
    [("data", "sampling_rate", 20000%float); ("data", "N_t", 1.08%float)].

Definition shape_1000x5 : list (string * pyval) :=
  [("_shape", VTuple [VInt 1000; VInt 5])].

(** The instance [DataFile("rec/data.dat", params, False, _shape=(1000, 5))]
    leaves behind. *)
Definition handle_of (params : Params) : DataFile := {|
  cls := raw_binary;
  file_name := "rec/data.dat";
  is_empty := false;
  params := params;
  __dict__ :=
    <["_shape" := VTuple [VInt 1000; VInt 5]]>
    (<["rate" := VFloat 20000]>
    (<["N_e" := VInt 4]>
    (<["N_tot" := VInt 5]>
    (<["_N_t" := VNone]>
    (<["_dist_peaks" := VNone]>
    (<["_template_shift" := VNone]>
    (<["_safety_time" := VNone]> ∅)))))))
|}.

(** A process that holds [o] and has not called the resolver yet. *)
Definition at_rank (rank : Z) (o : DataFile) : State :=
  {| self := o; rank := rank; calls := []; out := [] |}.

(** ** The requirement check of a format *)

(** The resolver as [_check_requierements_] uses it: the getters of [Params]
    and [getboolean]. *)
Record FullParams : Type := {
  getters : Params;
  getboolean : string -> string -> exn + bool
}.

(** The declared fields of a format, as [_requiered_fields] holds them: each
    name with its type and its default ([None] when there is none), in the
    order the dictionary lists them. *)
Abbreviation Fields := (list (string * (string * pyval))).

(** The right operand of [%]: a tuple gives its elements, any other value is
    the single argument.  A [VTuple] is a tuple here. *)
Definition operand (v : pyval) : list pyval :=
  match v with
  | VTuple l => l
  | _ => [v]
  end.

(** [a + b] for two formatted strings: the same text as the two templates in
    a row filled with the two lists of values in a row. *)
Definition msg_app (a b : message) : message :=
  Formatted (template a ++ template b) (args a ++ args b)%list.

(** One round of the loop of [_display_requierements_]: [mystring]. *)
Definition field_line (key : string) (values : string * pyval) : exn + message :=
  match percent "-- %s -- of type %s" [VStr key; VStr values.1] with
  | inr mystring =>
      match values.2 with
      | VNone => inr (msg_app mystring (Formatted " [** mandatory **]" []))
      | default =>
          match percent " [default is %s]" (operand default) with
          | inr suffix => inr (msg_app mystring suffix)
          | inl e => inl e
          end
      end
  | inl e => inl e
  end.

Fixpoint field_lines (fields : Fields) : exn + list message :=
  match fields with
  | [] => inr []
  | (key, values) :: rest =>
      match field_line key values with
      | inr line =>
          match field_lines rest with
          | inr lines => inr (line :: lines)
          | inl e => inl e
          end
      | inl e => inl e
      end
  end.

(** [_display_requierements_]: the lines are built first, then handed to
    [print_and_log] at level [info] in one call; what is returned here is
    that call, or the exception building a line raised. *)
Definition _display_requierements_ (description : string) (params : FullParams)
    (fields : Fields) : exn + event :=
  match percent "The parameters for %s file format are:"
                (operand (VStr (upper description))) with
  | inr header =>
      match field_lines fields with
      | inr lines => inr (Log (header :: Formatted EmptyString [] :: lines) "info")
      | inl e => inl e
      end
  | inl e => inl e
  end.

(** The branch of [_check_requierements_] taken for a field without default:
    the getter its type selects, applied to the [data] section; [None] when
    the type is none of the four, in which case nothing is assigned. *)
Definition typed_get (params : FullParams) (value key : string)
  : option (exn + pyval) :=
  if String.eqb value "int" then
    Some (match getint (getters params) "data" key with
          | inr n => inr (VInt n) | inl e => inl e end)
  else if String.eqb value "string" then
    Some (match get (getters params) "data" key with
          | inr s => inr (VStr s) | inl e => inl e end)
  else if String.eqb value "float" then
    Some (match getfloat (getters params) "data" key with
          | inr f => inr (VFloat f) | inl e => inl e end)
  else if String.eqb value "bool" then
    Some (match getboolean params "data" key with
          | inr b => inr (VBool b) | inl e => inl e end)
  else None.

(** The loop of [_check_requierements_] over the fields [rest] still to
    visit; [fields] is the whole dictionary, which the report displays.
    The result is what the caller gets, with what was printed. *)
Fixpoint check_loop (description : string) (fields rest : Fields)
    (params : FullParams) (kwargs : gmap string pyval)
  : (exn + gmap string pyval) * list event :=
  match rest with
  | [] => (inr kwargs, [])
  | (key, (value, default)) :: rest' =>
      if bool_decide (is_Some (kwargs !! key))
      then check_loop description fields rest' params kwargs
      else
        match (match default with
               | VNone => typed_get params value key
               | _ => Some (inr default)
               end) with
        | None => check_loop description fields rest' params kwargs
        | Some (inr v) => check_loop description fields rest' params (<[key := v]> kwargs)
        | Some (inl e) =>
            if is_Exception e then
              match _display_requierements_ description params fields with
              | inr shown =>
                  match percent "%s must be specified as type %s in the [data] section!"
                                [VStr key; VStr value] with
                  | inr line => (inl (SystemExit 0), [shown; Error [line]])
                  | inl e' => (inl e', [shown])
                  end
              | inl e' => (inl e', [])
              end
            else (inl e, [])
        end
  end.

(** [_check_requierements_(description, fields, params, **kwargs)]. *)
Definition _check_requierements_ (description : string) (fields : Fields)
    (params : FullParams) (kwargs : gmap string pyval)
  : (exn + gmap string pyval) * list event :=
  check_loop description fields fields params kwargs.

(** The four type names [_check_requierements_] knows. *)
Definition known_types : list string := ["int"; "string"; "float"; "bool"].

(** A resolver over literal tables with [getboolean], for the examples. *)
Definition table_full_params (strings : list (string * string * string))
    (ints : list (string * string * Z)) (floats : list (string * string * float))
    (bools : list (string * string * bool)) : FullParams :=
  {| getters := table_params strings ints floats;
     getboolean := table_lookup bools |}.

(** The fields of a raw binary format, one of them with a misspelt type. *)
Definition raw_fields : Fields :=
  [("data_dtype", ("string", VNone));
   ("data_offset", ("int", VInt 0));
   ("gain", ("float", VFloat 1));
   ("nb_channels", ("integer", VNone))].

Definition params_raw : FullParams :=
  table_full_params [("data", "data_dtype", "int16")] [("data", "nb_channels", 4)]
                    [] [].

(** The keywords a caller passes for a header of 16 bytes, and what the
    check makes of the raw fields for a given offset. *)
Definition offset_16 : gmap string pyval := <["data_offset" := VInt 16]> ∅.

Definition raw_checked (offset : Z) : gmap string pyval :=
  <["data_dtype" := VStr "int16"]>
  (<["gain" := VFloat 1]> (<["data_offset" := VInt offset]> ∅)).

(** ** The constructor across the ranks *)

(** A computation that hands nothing to the logger on a rank other than 0. *)
Definition quiet {A} (c : M A) : Prop :=
  forall σ, rank σ ≠ 0 -> out (c σ).2 = out σ /\ rank (c σ).2 = rank σ.

(** Two processes that hold the same object and asked the resolver the same
    questions; their ranks and their logs may differ. *)
Definition same_object (σ σ' : State) : Prop :=
  self σ = self σ' /\ calls σ = calls σ'.

(** A computation whose result, object and resolver calls do not depend on
    the rank or on what was logged. *)
Definition rank_blind {A} (c : M A) : Prop :=
  forall σ σ', same_object σ σ' ->
    (c σ).1 = (c σ').1 /\ same_object (c σ).2 (c σ').2.

(** A computation that returns and touches neither the object nor the
    resolver. *)
Definition only_logs (c : M unit) : Prop :=
  forall σ, (c σ).1 = inr tt /\ same_object (c σ).2 σ.

(** Two objects of the same class that were bound to the same file name,
    emptiness flag and resolver (lines 89-91). *)
Definition same_fields (o o' : DataFile) : Prop :=
  cls o' = cls o /\ file_name o' = file_name o
  /\ is_empty o' = is_empty o /\ params o' = params o.

(** A computation that leaves those four as they are and writes to no entry
    of the instance dictionary outside [names]. *)
Definition changes_only {A} (names : list string) (c : M A) : Prop :=
  forall σ, same_fields (self σ) (self (c σ).2)
            /\ forall k, k ∉ names ->
                  __dict__ (self (c σ).2) !! k = __dict__ (self σ) !! k.

(** The entries of the instance dictionary the constructor writes besides
    the keywords: the required fields and the four caches. *)
Definition set_by_init : list string :=
  ["rate"; "N_e"; "N_tot"; "_N_t"; "_dist_peaks"; "_template_shift"; "_safety_time"].

(** The debug line of the loop over [requiered_values] for the entry [kv],
    given what the attribute was set to when the loop started ([was]) and the
    object [o] the constructor returned. *)
Definition logged_for (was : option pyval) (o : DataFile)
    (kv : string * (string * string * string)) (ev : event) : Prop :=
  match was with
  | Some _ =>
      ev = Log [Formatted "%s is infered from the data file with a value of %s"
                  [VStr kv.1; seq_of_strings [kv.2.1.1; kv.2.1.2; kv.2.2]]] "debug"
  | None =>
      exists v, lookup_attr o kv.1 = Some v
                /\ ev = Log [Formatted "%s is read from the params with a value of %s"
                               [VStr kv.1; v]] "debug"
  end.

(** The line that closes a construction on rank 0. *)
Definition created (file_name : string) (description : pyval) : event :=
  Log [Formatted "The datafile %s with type %s has been created"
         [VStr file_name; description]] "debug".

(** ** Proof helpers *)

(** Splits a membership in [requiered_values] into its three entries. *)
Ltac required_cases H :=
  apply list_elem_of_In in H; cbn in H;
  destruct H as [[= <- <-]|[[= <- <-]|[[= <- <-]|[]]]].

(** Closes [x ∉ l] for a literal [x] and a literal list [l]. *)
Ltac not_listed := apply (proj1 (bool_decide_eq_false _)); vm_compute; reflexivity.

Example int_of_float_ex :
  int_of_float 21.6%float = inr 21 /\ int_of_float (-2.5)%float = inr (-2)
  /\ int_of_float 0.75%float = inr 0 /\ int_of_float infinity = inl OverflowError
  /\ int_of_float 1e22%float = inr (10 ^ 22).
Proof. vm_compute. repeat split; reflexivity. Qed.

Example round_float_ex :
  round_float 21.6%float = inr 22 /\ round_float 2.5%float = inr 2
  /\ round_float 3.5%float = inr 4 /\ round_float (-0.4)%float = inr 0.
Proof. vm_compute. repeat split; reflexivity. Qed.

Example float_of_int_ex :
  float_of_int 3 = inr 3%float /\ float_of_int (2 ^ 53 + 1) = inr 9007199254740992%float
  /\ float_of_int (2 ^ 1024) = inl OverflowError.
Proof. vm_compute. repeat split; reflexivity. Qed.

Example float_floordiv_ex :
  float_floordiv 5 3 = inr 1%float /\ float_floordiv 2.5 3 = inr 0%float
  /\ float_floordiv (-1) 3 = inr (-1)%float /\ float_floordiv 6 3 = inr 2%float
  /\ float_floordiv 7.5 (-2) = inr (-4)%float
  /\ float_floordiv 1 0 = inl ZeroDivisionError
  /\ float_floordiv 1e300 3 = inr 3.3333333333333335e+299%float.
Proof. vm_compute. repeat split; reflexivity. Qed.

Example splitext_ex :
  splitext "rec/data.dat" = ("rec/data", ".dat")
  /\ splitext "a.b/c" = ("a.b/c", EmptyString)
  /\ splitext ".bashrc" = (".bashrc", EmptyString)
  /\ splitext "x/..a.tar.GZ" = ("x/..a.tar", ".GZ")
  /\ splitext "noext" = ("noext", EmptyString).
Proof. vm_compute. repeat split; reflexivity. Qed.

Example percent_ex :
  percent "The extension %s is not valid for a %s file" [VStr ".xyz"; VStr "raw"]
  = inr (Formatted "The extension %s is not valid for a %s file" [VStr ".xyz"; VStr "raw"])
  /\ percent "%s and %s" [VInt 1] = inl TypeError
  /\ percent "100%% of %s" [VInt 1] = inr (Formatted "100%% of %s" [VInt 1]).
Proof. vm_compute. repeat split; reflexivity. Qed.

(** ** Arithmetic of [numpy.int64] *)


Lemma in_int64_true (z : Z) : - 2 ^ 63 <= z < 2 ^ 63 -> in_int64 z = true.
Proof.
  intros Hz. unfold in_int64.
  apply andb_true_intro; split; [apply Z.leb_le | apply Z.ltb_lt]; lia.
Qed.


(** ** What the helpers leave untouched *)



(** ** [analyze] *)


Example handle_of_constructed :
  (__init__ raw_binary "rec/data.dat" params_20kHz false shape_1000x5 0).1
  = inr (handle_of params_20kHz)
  /\ (__init__ raw_binary "rec/data.dat" params_20kHz_108 false shape_1000x5 1).1
     = inr (handle_of params_20kHz_108).
Proof. split; vm_compute; reflexivity. Qed.


(** ** Attribute lookup after an assignment *)

Lemma lookup_attr_assign_eq (σ : State) (k : string) (v : pyval) :
  lookup_attr (self (with_dict <[k := v]> σ)) k = Some v.
Proof. unfold lookup_attr. cbn. now rewrite lookup_insert_eq. Qed.

Lemma lookup_attr_assign_ne (σ : State) (k k' : string) (v : pyval) :
  k ≠ k' ->
  lookup_attr (self (with_dict <[k := v]> σ)) k' = lookup_attr (self σ) k'.
Proof. intros Hne. unfold lookup_attr. cbn. now rewrite lookup_insert_ne. Qed.

Lemma with_dict_assign_twice (σ : State) (k : string) (v w : pyval) :
  with_dict <[k := v]> (with_dict <[k := w]> σ) = with_dict <[k := v]> σ.
Proof. unfold with_dict. cbn. now rewrite insert_insert_eq. Qed.

Lemma with_dict_assign_same (σ : State) (k : string) (v : pyval) :
  __dict__ (self σ) !! k = Some v -> with_dict <[k := v]> σ = σ.
Proof.
  intros Hk. unfold with_dict. rewrite insert_id by exact Hk.
  destruct σ as [[] ? ? ?]. reflexivity.
Qed.

(** ** The window duration: detection section, then data section *)

Lemma window_duration_detection (σ : State) (d : float) :
  getfloat (params (self σ)) "detection" "N_t" = inr d ->
  window_duration σ = (inr d, with_call (GetFloat "detection" "N_t") σ).
Proof.
  intros Hd. unfold window_duration, try_except, params_getfloat.
  now rewrite Hd.
Qed.

Lemma window_duration_fallback (σ : State) (e : exn) :
  getfloat (params (self σ)) "detection" "N_t" = inl e ->
  is_Exception e = true ->
  window_duration σ
  = (getfloat (params (self σ)) "data" "N_t",
     with_call (GetFloat "data" "N_t") (with_call (GetFloat "detection" "N_t") σ)).
Proof.
  intros Hd He. unfold window_duration, try_except, params_getfloat.
  rewrite Hd, He. reflexivity.
Qed.

Lemma window_duration_frame (σ σ' : State) (r : exn + float) :
  window_duration σ = (r, σ') ->
  self σ' = self σ /\ rank σ' = rank σ /\ out σ' = out σ
  /\ exists l, l ≠ [] /\ calls σ' = (calls σ ++ l)%list.
Proof.
  unfold window_duration, try_except, params_getfloat.
  destruct (getfloat (params (self σ)) "detection" "N_t") as [e|d].
  - destruct (is_Exception e); intros [= _ <-]; cbn.
    + repeat split. eexists [_; _]. split; [discriminate|].
      now rewrite <- app_assoc.
    + repeat split. eexists [_]. split; [discriminate | reflexivity].
  - intros [= _ <-]; cbn. repeat split.
    eexists [_]. split; [discriminate | reflexivity].
Qed.

(** ** Signs of float products *)

Lemma binary_round_aux_sign (s : bool) (m e : Z) (l : location) :
  match binary_round_aux prec emax s m e l with
  | S754_zero s' | S754_finite s' _ _ | S754_infinity s' => s' = s
  | S754_nan => True
  end.
Proof.
  unfold binary_round_aux.
  destruct (shr_fexp prec emax m e l) as [mrs' e'].
  destruct (shr_fexp prec emax _ e' loc_Exact) as [mrs'' e''].
  destruct (shr_m mrs''); [reflexivity | | exact I].
  destruct (e'' <=? emax - prec); reflexivity.
Qed.

Lemma SFmul_nonneg (x y : spec_float) :
  SF_nonneg x -> SF_nonneg y -> SF_nonneg (SFmul prec emax x y).
Proof.
  destruct x as [sx|sx| |sx mx ex], y as [sy|sy| |sy my ey]; cbn;
    try (intros -> ->; reflexivity); try (intros; exact I).
  intros -> ->. cbn.
  pose proof (binary_round_aux_sign false (Z.pos (mx * my)) (ex + ey) loc_Exact) as H.
  destruct (binary_round_aux prec emax false (Z.pos (mx * my)) (ex + ey) loc_Exact);
    cbn; auto.
Qed.

Lemma mul_nonneg (x y : float) :
  SF_nonneg (Prim2SF x) -> SF_nonneg (Prim2SF y) -> SF_nonneg (Prim2SF (x * y)).
Proof. intros Hx Hy. rewrite mul_spec. now apply SFmul_nonneg. Qed.

Lemma positive_nonneg (x : float) : (0 <? x)%float = true -> SF_nonneg (Prim2SF x).
Proof.
  rewrite ltb_spec. unfold SFltb.
  change (Prim2SF 0) with (S754_zero false).
  destruct (Prim2SF x) as [s|s| |s m e]; cbn; try discriminate;
    destruct s; try discriminate; reflexivity.
Qed.

Lemma trunc_SF_nonneg (x : spec_float) (t : Z) :
  SF_nonneg x -> trunc_SF x = inr t -> 0 <= t.
Proof.
  destruct x as [s|s| |s m e]; cbn; try discriminate.
  - intros _ [= <-]. lia.
  - intros -> [= <-]. destruct (0 <=? e) eqn:He.
    + apply Z.leb_le in He. apply Z.mul_nonneg_nonneg; [lia|].
      apply Z.pow_nonneg. lia.
    + apply Z.div_pos; [lia|]. apply Z.pow_pos_nonneg; lia.
Qed.

Lemma finite_truncates (x : float) :
  is_finite x = true -> exists t, int_of_float x = inr t.
Proof.
  unfold is_finite, int_of_float.
  destruct (Prim2SF x); cbn; try discriminate; eauto.
Qed.

(** ** The property [N_t] *)

Lemma N_t_cached (σ : State) (v : pyval) :
  lookup_attr (self σ) "_N_t" = Some v -> v ≠ VNone -> N_t σ = (inr v, σ).
Proof.
  intros Hc Hv. unfold N_t, bind, getattr. rewrite Hc.
  destruct v; try reflexivity. now elim Hv.
Qed.

(** The first access: the duration is resolved, converted with the rate the
    object holds, truncated by [int] and made odd. *)
Lemma N_t_fresh (σ σ1 : State) (rate : pyval) (d x : float) (t : Z) :
  lookup_attr (self σ) "_N_t" = Some VNone ->
  window_duration σ = (inr d, σ1) ->
  lookup_attr (self σ) "rate" = Some rate ->
  mul_float rate d = inr x ->
  int_of_float (x * 1e-3) = inr t ->
  - 2 ^ 63 <= t < 2 ^ 63 ->
  let n := if t mod 2 =? 0 then t + 1 else t in
  N_t σ = (inr (VInt n), with_dict <["_N_t" := VInt n]> σ1).
Proof.
  intros Hc Hwd Hrate Hmul Hint Ht n.
  destruct (window_duration_frame _ _ _ Hwd) as (Hself & _).
  unfold N_t, bind, getattr. rewrite Hc, Hwd.
  unfold assign at 1.
  rewrite lookup_attr_assign_ne by discriminate.
  rewrite Hself, Hrate.
  rewrite lookup_attr_assign_eq.
  unfold lift at 1. rewrite Hmul.
  unfold lift at 1. rewrite Hint.
  unfold assign at 1. rewrite with_dict_assign_twice.
  unfold lift at 1, np_mod2. rewrite (in_int64_true t Ht).
  subst n. destruct (t mod 2 =? 0); cbn [when].
  - unfold assign. rewrite with_dict_assign_twice.
    now rewrite lookup_attr_assign_eq.
  - unfold ret. now rewrite lookup_attr_assign_eq.
Qed.

(** The first access when the truncated product does not fit [int64]: the
    parity test raises, after the truncated value was stored. *)
Lemma N_t_overflow (σ σ1 : State) (rate : pyval) (d x : float) (t : Z) :
  lookup_attr (self σ) "_N_t" = Some VNone ->
  window_duration σ = (inr d, σ1) ->
  lookup_attr (self σ) "rate" = Some rate ->
  mul_float rate d = inr x ->
  int_of_float (x * 1e-3) = inr t ->
  2 ^ 63 <= t ->
  N_t σ = (inl OverflowError, with_dict <["_N_t" := VInt t]> σ1).
Proof.
  intros Hc Hwd Hrate Hmul Hint Ht.
  destruct (window_duration_frame _ _ _ Hwd) as (Hself & _).
  unfold N_t, bind, getattr. rewrite Hc, Hwd.
  unfold assign at 1.
  rewrite lookup_attr_assign_ne by discriminate.
  rewrite Hself, Hrate.
  rewrite lookup_attr_assign_eq.
  unfold lift at 1. rewrite Hmul.
  unfold lift at 1. rewrite Hint.
  unfold assign at 1. rewrite with_dict_assign_twice.
  unfold lift at 1, np_mod2.
  assert (Hout : in_int64 t = false).
  { unfold in_int64. apply andb_false_intro2. apply Z.ltb_ge. exact Ht. }
  rewrite Hout. reflexivity.
Qed.

Lemma digits2_pos_bound (m : positive) : Z.pos m < 2 ^ Z.pos (digits2_pos m).
Proof.
  induction m as [m IH|m IH|]; cbn [digits2_pos]; [| |reflexivity].
  - rewrite Pos2Z.inj_succ, Z.pow_succ_r by lia. lia.
  - rewrite Pos2Z.inj_succ, Z.pow_succ_r by lia. lia.
Qed.

(** A double of 2^63 or more is an even integer. *)
Lemma large_truncation_even (x : float) (t : Z) :
  int_of_float x = inr t -> 2 ^ 63 <= t -> Z.even t = true.
Proof.
  unfold int_of_float. pose proof (Prim2SF_valid x) as Hvalid.
  destruct (Prim2SF x) as [s|s| |s m e]; cbn [trunc_SF]; try discriminate.
  - intros [= <-]. lia.
  - intros [= <-] Ht. cbn in Hvalid. unfold bounded, canonical_mantissa in Hvalid.
    apply andb_prop in Hvalid as [Hcan _]. apply Z.eqb_eq in Hcan.
    unfold fexp in Hcan.
    pose proof (digits2_pos_bound m) as Hm.
    assert (Hdigits : Z.pos (digits2_pos m) <= 53) by (unfold prec in Hcan; lia).
    assert (Hm53 : Z.pos m < 2 ^ 53).
    { eapply Z.lt_le_trans; [exact Hm|]. apply Z.pow_le_mono_r; lia. }
    destruct s.
    + destruct (0 <=? e) eqn:He.
      * apply Z.leb_le in He. pose proof (Z.pow_nonneg 2 e ltac:(lia)). nia.
      * pose proof (Z.div_pos (Z.pos m) (2 ^ (- e)) ltac:(lia)
                      ltac:(apply Z.pow_pos_nonneg; lia)). lia.
    + destruct (0 <=? e) eqn:He.
      * apply Z.leb_le in He.
        assert (He1 : 1 <= e).
        { destruct (Z.eq_dec e 0) as [->|]; [|lia]. cbn in Ht. lia. }
        replace e with (Z.succ (e - 1)) by lia. rewrite Z.pow_succ_r by lia.
        rewrite Z.mul_assoc, (Z.mul_comm (Z.pos m) 2), <- Z.mul_assoc.
        rewrite Z.even_mul. reflexivity.
      * apply Z.leb_gt in He.
        pose proof (Z.div_le_upper_bound (Z.pos m) (2 ^ (- e)) (Z.pos m)
                      ltac:(apply Z.pow_pos_nonneg; lia)) as Hd.
        assert (Hp : 1 <= 2 ^ (- e)) by (apply Z.lt_pred_le, Z.pow_pos_nonneg; lia).
        specialize (Hd ltac:(nia)). lia.
Qed.

(** Whatever a successful access returned is what the object now caches, and
    no other attribute changed. *)
Lemma N_t_resolves (σ σ1 : State) (v : pyval) :
  N_t σ = (inr v, σ1) ->
  lookup_attr (self σ1) "_N_t" = Some v /\ v ≠ VNone
  /\ forall k, k ≠ "_N_t" -> lookup_attr (self σ1) k = lookup_attr (self σ) k.
Proof.
  unfold N_t, bind, getattr.
  destruct (lookup_attr (self σ) "_N_t") as [c|] eqn:Hc; [|discriminate].
  destruct c; try (intros [= <- <-]; repeat split; [exact Hc | discriminate]).
  destruct (window_duration σ) as [[e|d] σa] eqn:Hwd; [discriminate|].
  destruct (window_duration_frame _ _ _ Hwd) as (Hself & _).
  unfold assign at 1.
  rewrite lookup_attr_assign_ne by discriminate.
  destruct (lookup_attr (self σa) "rate") as [rate|]; [|discriminate].
  rewrite lookup_attr_assign_eq.
  unfold lift at 1.
  destruct (mul_float rate d) as [e|x]; [discriminate|].
  unfold lift at 1.
  destruct (int_of_float (x * 1e-3)) as [e|t]; [discriminate|].
  unfold assign at 1. rewrite with_dict_assign_twice.
  unfold lift at 1, np_mod2. destruct (in_int64 t); [|discriminate].
  destruct (t mod 2 =? 0); cbn [when].
  - unfold assign. rewrite with_dict_assign_twice.
    rewrite lookup_attr_assign_eq. intros [= <- <-].
    rewrite lookup_attr_assign_eq. repeat split; [discriminate|].
    intros k Hk. rewrite lookup_attr_assign_ne by congruence. now rewrite Hself.
  - unfold ret. rewrite lookup_attr_assign_eq. intros [= <- <-].
    rewrite lookup_attr_assign_eq. repeat split; [discriminate|].
    intros k Hk. rewrite lookup_attr_assign_ne by congruence. now rewrite Hself.
Qed.

Lemma odd_up (t : Z) :
  0 <= t ->
  let n := if t mod 2 =? 0 then t + 1 else t in
  Z.odd n = true /\ 0 < n /\ (n = t \/ n = t + 1) /\ (n = t + 1 <-> Z.even t = true).
Proof.
  intros Ht n. subst n.
  pose proof (Zmod_odd t) as Ho. pose proof (Zmod_even t) as He.
  destruct (t mod 2 =? 0) eqn:Hm.
  - apply Z.eqb_eq in Hm. rewrite Hm in He.
    assert (Heven : Z.even t = true) by (destruct (Z.even t); [reflexivity | discriminate]).
    split; [|split; [lia | split; [now right | tauto]]].
    replace (t + 1) with (Z.succ t) by lia. now rewrite Z.odd_succ.
  - apply Z.eqb_neq in Hm.
    assert (Hodd : Z.odd t = true) by (destruct (Z.odd t); [reflexivity | contradiction]).
    assert (Heven : Z.even t = false).
    { destruct (Z.even t); [contradiction | reflexivity]. }
    assert (t <> 0) by (intros ->; apply Hm; reflexivity).
    split; [exact Hodd | split; [lia | split; [now left|]]].
    rewrite Heven. split; [lia | discriminate].
Qed.

(** C2, as the code has it.  For a rate [r > 0] held by the object and a
    window duration [d > 0] resolved from the configuration whose product
    [r * d * 1e-3] does not overflow, let [t = int(r * d * 1e-3)], the
    product truncated toward zero (not rounded).  When [t < 2^63] the first
    access of [N_t] returns an odd, positive integer [n]; [n] is [t] or
    [t + 1], and it is [t + 1] exactly when [t] is even; the value is stored
    in [_N_t].  When [t >= 2^63] the parity test ([numpy.mod]) raises
    [OverflowError]: the access fails with [t] already stored, and the next
    access returns [t], which is even. *)
Theorem N_t_odd_truncation (σ σ1 : State) (r d : float) :
  lookup_attr (self σ) "_N_t" = Some VNone ->
  lookup_attr (self σ) "rate" = Some (VFloat r) ->
  window_duration σ = (inr d, σ1) ->
  (0 <? r)%float = true ->
  (0 <? d)%float = true ->
  is_finite (r * d * 1e-3) = true ->
  exists t,
    int_of_float (r * d * 1e-3) = inr t
    /\ 0 <= t
    /\ if t <? 2 ^ 63 then
         exists n,
           N_t σ = (inr (VInt n), with_dict <["_N_t" := VInt n]> σ1)
           /\ Z.odd n = true /\ 0 < n
           /\ (n = t \/ n = t + 1)
           /\ (n = t + 1 <-> Z.even t = true)
       else
         N_t σ = (inl OverflowError, with_dict <["_N_t" := VInt t]> σ1)
         /\ N_t (with_dict <["_N_t" := VInt t]> σ1)
            = (inr (VInt t), with_dict <["_N_t" := VInt t]> σ1)
         /\ Z.even t = true.
Proof.
  intros Hc Hrate Hwd Hr Hd Hfin.
  destruct (finite_truncates _ Hfin) as [t Ht].
  assert (Hpos : 0 <= t).
  { apply (trunc_SF_nonneg (Prim2SF (r * d * 1e-3))); [|exact Ht].
    apply mul_nonneg; [apply mul_nonneg; now apply positive_nonneg|].
    apply positive_nonneg. reflexivity. }
  exists t. split; [exact Ht|]. split; [exact Hpos|].
  destruct (t <? 2 ^ 63) eqn:Hfit.
  - apply Z.ltb_lt in Hfit.
    exists (if t mod 2 =? 0 then t + 1 else t). split.
    + apply (N_t_fresh σ σ1 (VFloat r) d (r * d)%float t); auto. lia.
    + apply odd_up. exact Hpos.
  - apply Z.ltb_ge in Hfit. split; [|split].
    + apply (N_t_overflow σ σ1 (VFloat r) d (r * d)%float t); auto.
    + apply N_t_cached; [apply lookup_attr_assign_eq | discriminate].
    + exact (large_truncation_even _ t Ht Hfit).
Qed.

(** The witness of [N_t_odd_truncation]: 20 kHz and 1 ms give 20 samples,
    made odd: 21. *)
Lemma N_t_odd_truncation_witness :
  exists n,
    int_of_float (20000 * 1 * 1e-3) = inr 20
    /\ N_t (at_rank 0 (handle_of params_20kHz))
       = (inr (VInt n),
          with_dict <["_N_t" := VInt n]>
            (with_call (GetFloat "detection" "N_t")
               (at_rank 0 (handle_of params_20kHz))))
    /\ Z.odd n = true /\ 0 < n
    /\ (n = 20 \/ n = 21)
    /\ (n = 21 <-> Z.even 20 = true).
Proof.
  destruct (N_t_odd_truncation (at_rank 0 (handle_of params_20kHz)) _ 20000 1
              eq_refl eq_refl eq_refl eq_refl eq_refl eq_refl)
    as (t & Ht & _ & Hcase).
  vm_compute in Ht. injection Ht as <-.
  destruct Hcase as (n & HN & Hodd & Hpos & Hn & Heven).
  exists n. split; [reflexivity|]. auto.
Defined.

(** At a rate of 1e22 Hz and a window of 1 ms the truncated product is
    10^19, which no [int64] holds: the access raises, and the next one
    returns the even 10^19, half of which (less one) is the shift. *)
Example N_t_overflow_example :
  let σ := with_dict <["rate" := VFloat 1e22]> (at_rank 0 (handle_of params_20kHz)) in
  int_of_float (1e22 * 1 * 1e-3) = inr (10 ^ 19)
  /\ (N_t σ).1 = inl OverflowError
  /\ (N_t (N_t σ).2).1 = inr (VInt (10 ^ 19))
  /\ (template_shift (N_t σ).2).1 = inr (VInt 4999999999999999999).
Proof. vm_compute. repeat split; reflexivity. Qed.

Example N_t_spec_example :
  (N_t (at_rank 0 (handle_of params_20kHz))).1 = inr (VInt 21)
  /\ (template_shift (at_rank 0 (handle_of params_20kHz))).1 = inr (VInt 10).
Proof. vm_compute. split; reflexivity. Qed.

(** C2 as stated fails: at 20 kHz with a 1.08 ms window the product is 21.6;
    the code truncates it to 21, which is odd and is returned, while the
    rounded value is 22 and its parity correction 23. *)
Lemma N_t_is_not_rounded :
  lookup_attr (handle_of params_20kHz_108) "rate" = Some (VFloat 20000)
  /\ (window_duration (at_rank 0 (handle_of params_20kHz_108))).1 = inr 1.08%float
  /\ (0 <? 20000)%float = true /\ (0 <? 1.08)%float = true
  /\ is_finite (20000 * 1.08 * 1e-3) = true
  /\ (N_t (at_rank 0 (handle_of params_20kHz_108))).1 = inr (VInt 21)
  /\ rounded_samples 20000 1.08 = inr 22
  /\ ~ is_rounded_window 20000 1.08
         (N_t (at_rank 0 (handle_of params_20kHz_108))).1.
Proof.
  assert (Hn : (N_t (at_rank 0 (handle_of params_20kHz_108))).1 = inr (VInt 21))
    by (vm_compute; reflexivity).
  assert (Hr : rounded_samples 20000 1.08 = inr 22) by (vm_compute; reflexivity).
  repeat split; try (vm_compute; reflexivity).
  intros (r & Hr' & H). rewrite Hr in Hr'. injection Hr' as <-.
  rewrite Hn in H. destruct H as [H | [H _]]; discriminate H.
Qed.

(** ** The property [template_shift] *)

(** C3. On a handle whose [_template_shift] was left unset ([None], as the
    constructor leaves it) and whose window length has been computed as [n],
    [template_shift] is [(n - 1) // 2], whether it is read before (it then
    triggers the computation) or after. *)
Theorem template_shift_half (σ σ1 : State) (n : Z) :
  lookup_attr (self σ) "_template_shift" = Some VNone ->
  N_t σ = (inr (VInt n), σ1) ->
  template_shift σ = (inr (VInt ((n - 1) / 2)), σ1)
  /\ template_shift σ1 = (inr (VInt ((n - 1) / 2)), σ1).
Proof.
  intros Hts HN.
  destruct (N_t_resolves _ _ _ HN) as (Hc & Hv & Hframe).
  split.
  - unfold template_shift, bind, getattr. rewrite Hts, HN. reflexivity.
  - unfold template_shift, bind, getattr.
    rewrite (Hframe "_template_shift") by discriminate.
    rewrite Hts, (N_t_cached σ1 (VInt n) Hc Hv). reflexivity.
Qed.

(** The witness of [template_shift_half]: a window of 21 samples is shifted by
    10. *)
Lemma template_shift_half_witness :
  template_shift (at_rank 0 (handle_of params_20kHz))
  = (inr (VInt 10),
     with_dict <["_N_t" := VInt 21]>
       (with_call (GetFloat "detection" "N_t") (at_rank 0 (handle_of params_20kHz)))).
Proof.
  exact (proj1 (template_shift_half (at_rank 0 (handle_of params_20kHz)) _ 21
                  eq_refl eq_refl)).
Defined.

(** ** Caching *)

Lemma template_shift_fixed (σ : State) (v : pyval) :
  lookup_attr (self σ) "_N_t" = Some v -> v ≠ VNone ->
  (template_shift σ).2 = σ.
Proof.
  intros Hc Hv. unfold template_shift, bind, getattr.
  destruct (lookup_attr (self σ) "_template_shift") as [c|]; [|reflexivity].
  destruct c; try reflexivity.
  rewrite (N_t_cached σ v Hc Hv). unfold lift.
  destruct (half_below v); reflexivity.
Qed.

(** Once [_N_t] holds a value, a read returns and changes nothing. *)
Lemma read_fixed (σ : State) (v : pyval) (b : access) :
  lookup_attr (self σ) "_N_t" = Some v -> v ≠ VNone ->
  read b σ = ((read b σ).1, σ).
Proof.
  intros Hc Hv. destruct b; cbn [read].
  - now rewrite (N_t_cached σ v Hc Hv).
  - pose proof (template_shift_fixed σ v Hc Hv) as H.
    destruct (template_shift σ) as [r σ']. cbn in *. now subst.
Qed.

Lemma reads_fixed (σ : State) (v : pyval) (l : list access) :
  lookup_attr (self σ) "_N_t" = Some v -> v ≠ VNone ->
  reads l σ = ((fun b => (read b σ).1) <$> l, σ).
Proof.
  intros Hc Hv. induction l as [|b l IH]; [reflexivity|].
  cbn [reads fmap list_fmap]. rewrite (read_fixed σ v b Hc Hv), IH.
  reflexivity.
Qed.

(** A read that returned returns the same again, and changes nothing then. *)
Lemma read_stable (a : access) (σ σ1 : State) (v : pyval) :
  read a σ = (inr v, σ1) -> read a σ1 = (inr v, σ1).
Proof.
  destruct a; cbn [read].
  - intros HN. destruct (N_t_resolves _ _ _ HN) as (Hc & Hv & _).
    now apply N_t_cached.
  - unfold template_shift, bind, getattr.
    destruct (lookup_attr (self σ) "_template_shift") as [c|] eqn:Hts; [|discriminate].
    destruct c; try (intros [= <- <-]; now rewrite Hts).
    destruct (N_t σ) as [[e|n] σa] eqn:HN; [discriminate|].
    unfold lift. destruct (half_below n) as [e|h] eqn:Hh; [discriminate|].
    intros [= <- <-].
    destruct (N_t_resolves _ _ _ HN) as (Hc & Hv & Hframe).
    rewrite (Hframe "_template_shift") by discriminate.
    rewrite Hts, (N_t_cached σa n Hc Hv), Hh. reflexivity.
Qed.

(** C4. Once an access of [N_t] or [template_shift] has returned [v] and left
    the state [σ1], repeating that access any number of times returns [v]
    each time and leaves [σ1] as it is; and once [N_t] has been resolved, any
    sequence of accesses of the two properties leaves the state, hence the
    resolver's call log, as it is: the resolver is not invoked again, every
    read of [N_t] returns [v] and every read of [template_shift] returns the
    same result. *)
Theorem cached_reads (a : access) (σ σ1 : State) (v : pyval) :
  read a σ = (inr v, σ1) ->
  (forall k : nat, reads (repeat a k) σ1 = (repeat (inr v) k, σ1))
  /\ (a = Get_N_t ->
      forall l : list access,
        reads l σ1
        = ((fun b => match b with
                     | Get_N_t => inr v
                     | Get_template_shift => (template_shift σ1).1
                     end) <$> l, σ1)
        /\ calls (reads l σ1).2 = calls σ1).
Proof.
  intros Hread. pose proof (read_stable _ _ _ _ Hread) as Hagain.
  split.
  - induction k as [|k IH]; [reflexivity|].
    cbn [repeat reads]. rewrite Hagain, IH. reflexivity.
  - intros ->. cbn [read] in *.
    destruct (N_t_resolves _ _ _ Hread) as (Hc & Hv & _).
    intros l. rewrite (reads_fixed σ1 v l Hc Hv). split; [|reflexivity].
    f_equal. apply list_fmap_ext. intros _ [] _; cbn [read]; [|reflexivity].
    rewrite Hagain. reflexivity.
Qed.

(** The witness of [cached_reads]: the first access of [N_t] asks the
    resolver once; five further reads leave that log as it is. *)
Lemma cached_reads_witness :
  let σ1 := (N_t (at_rank 0 (handle_of params_20kHz))).2 in
  calls σ1 = [GetFloat "detection" "N_t"]
  /\ reads [Get_N_t; Get_template_shift; Get_N_t; Get_template_shift; Get_N_t] σ1
     = ([inr (VInt 21); inr (VInt 10); inr (VInt 21); inr (VInt 10); inr (VInt 21)], σ1).
Proof.
  split; [reflexivity|].
  exact (proj1 (proj2 (cached_reads Get_N_t (at_rank 0 (handle_of params_20kHz)) _
                         (VInt 21) eq_refl) eq_refl
                  [Get_N_t; Get_template_shift; Get_N_t; Get_template_shift; Get_N_t])).
Defined.

(** ** The constructor: the two checks *)

Lemma init_unfold (c : Format) (file_name : string) (params : Params)
    (is_empty : bool) (kwargs : list (string * pyval)) (rank : Z) :
  Forall (fun kv => kv.1 ∉ named_parameters) kwargs ->
  __init__ c file_name params is_empty kwargs rank
  = constructed (init_body kwargs (fresh c file_name params is_empty rank)).
Proof.
  intros Hkw. unfold __init__. case_bool_decide as Hex; [|reflexivity].
  exfalso. apply Forall_Exists_neg in Hkw. now apply Hkw.
Qed.

Lemma check_writable_passes (σ : State) :
  is_empty (self σ) && negb (_is_writable (cls (self σ))) = false ->
  check_writable σ = (inr tt, σ).
Proof. intros H. unfold check_writable. now rewrite H. Qed.

(** On rank 0 the diagnostic is built first, and building it raises. *)
Lemma check_writable_master (σ : State) :
  is_empty (self σ) && negb (_is_writable (cls (self σ))) = true ->
  rank σ = 0 ->
  check_writable σ = (inl (UnboundLocalError "extension"), σ).
Proof.
  intros H Hrank. unfold check_writable. rewrite H. cbn [when].
  unfold bind, is_master. rewrite Hrank. reflexivity.
Qed.

(** On the other ranks nothing is printed and the process exits. *)
Lemma check_writable_worker (σ : State) :
  is_empty (self σ) && negb (_is_writable (cls (self σ))) = true ->
  rank σ ≠ 0 ->
  check_writable σ = (inl (SystemExit 0), σ).
Proof.
  intros H Hrank. unfold check_writable. rewrite H. cbn [when].
  unfold bind, is_master. apply Z.eqb_neq in Hrank. rewrite Hrank. reflexivity.
Qed.

(** An empty file of a format that cannot be written is never constructed,
    whatever the rank. *)
Lemma empty_non_writable_never_constructed (c : Format) (file_name : string)
    (params : Params) (kwargs : list (string * pyval)) (rank : Z) :
  _is_writable c = false ->
  exists e, (__init__ c file_name params true kwargs rank).1 = inl e.
Proof.
  intros Hw. unfold __init__. case_bool_decide; [now eexists|].
  unfold init_body, bind.
  destruct (Z.eq_dec rank 0) as [->|Hrank].
  - rewrite check_writable_master; cbn; [now eexists | now rewrite Hw | reflexivity].
  - rewrite check_writable_worker; cbn; [now eexists | now rewrite Hw | exact Hrank].
Qed.

Lemma empty_non_writable_on_worker (c : Format) (file_name : string)
    (params : Params) (kwargs : list (string * pyval)) (rank : Z) :
  _is_writable c = false ->
  Forall (fun kv => kv.1 ∉ named_parameters) kwargs ->
  rank ≠ 0 ->
  __init__ c file_name params true kwargs rank = (inl (SystemExit 0), ([], [])).
Proof.
  intros Hw Hkw Hrank. rewrite init_unfold by exact Hkw.
  unfold init_body, bind.
  rewrite check_writable_worker; cbn; [reflexivity | now rewrite Hw | exact Hrank].
Qed.

(** C5 at its failing input.  On rank 0, constructing the base format (which
    is not writable) with [is_empty = True] raises [UnboundLocalError]: the
    construction fails, but neither with the exit the branch was written to
    reach nor after any diagnostic. *)
Lemma empty_non_writable_master_crash (params : Params) :
  _is_writable DataFile_class = false
  /\ __init__ DataFile_class "recording.myextension" params true [] 0
     = (inl (UnboundLocalError "extension"), ([], []))
  /\ __init__ DataFile_class "recording.myextension" params true [] 1
     = (inl (SystemExit 0), ([], [])).
Proof. repeat split. Qed.

(** C10. When a format that is not writable is constructed with
    [is_empty = True] on rank 0, the branch that reports the error raises
    before it reaches [sys.exit]: the constructor ends with
    [UnboundLocalError] for [extension], a local that is assigned further
    down only, and nothing was handed to the logger.  Moreover the message
    could not be built with [extension] bound either: the template has one
    [%s] and is given two values, which is a [TypeError]. *)
Theorem empty_non_writable_report_raises (c : Format) (file_name : string)
    (params : Params) (kwargs : list (string * pyval)) :
  _is_writable c = false ->
  Forall (fun kv => kv.1 ∉ named_parameters) kwargs ->
  __init__ c file_name params true kwargs 0
  = (inl (UnboundLocalError "extension"), ([], []))
  /\ (forall extension : string,
        percent empty_not_writable [VStr extension; VStr (_description c)]
        = inl TypeError).
Proof.
  intros Hw Hkw. split.
  - rewrite init_unfold by exact Hkw. unfold init_body, bind.
    rewrite check_writable_master; cbn; [reflexivity | now rewrite Hw | reflexivity].
  - intros extension. reflexivity.
Qed.

(** The witness of [empty_non_writable_report_raises]: the base class. *)
Lemma empty_non_writable_report_raises_witness :
  __init__ DataFile_class "recording.myextension" params_20kHz true [] 0
  = (inl (UnboundLocalError "extension"), ([], []))
  /\ (forall extension : string,
        percent empty_not_writable [VStr extension; VStr "mydatafile"] = inl TypeError).
Proof.
  apply (empty_non_writable_report_raises DataFile_class "recording.myextension"
           params_20kHz []).
  - reflexivity.
  - constructor.
Defined.

Lemma extension_message (extension description : string) :
  percent "The extension %s is not valid for a %s file"
          [VStr extension; VStr description]
  = inr (Formatted "The extension %s is not valid for a %s file"
                   [VStr extension; VStr description]).
Proof. reflexivity. Qed.

Lemma check_extension_unchecked (σ : State) :
  _extension (cls (self σ)) = None -> check_extension σ = (inr tt, σ).
Proof.
  intros H. unfold check_extension.
  destruct (splitext (file_name (self σ))) as [f_next extension].
  now rewrite H.
Qed.

Lemma check_extension_accepts (σ : State) (exts : list string) :
  _extension (cls (self σ)) = Some exts ->
  (splitext (file_name (self σ))).2 ∈ (exts ++ (upper <$> exts))%list ->
  check_extension σ = (inr tt, σ).
Proof.
  intros H Hin. unfold check_extension.
  destruct (splitext (file_name (self σ))) as [f_next extension].
  rewrite H. cbn in Hin. rewrite bool_decide_eq_true_2 by exact Hin. reflexivity.
Qed.

Lemma check_extension_rejects (σ : State) (exts : list string) :
  _extension (cls (self σ)) = Some exts ->
  (splitext (file_name (self σ))).2 ∉ (exts ++ (upper <$> exts))%list ->
  check_extension σ
  = (inl (SystemExit 0),
     if rank σ =? 0
     then with_event
            (Error [Formatted "The extension %s is not valid for a %s file"
                      [VStr (splitext (file_name (self σ))).2;
                       VStr (_description (cls (self σ)))]]) σ
     else σ).
Proof.
  intros H Hin. unfold check_extension.
  destruct (splitext (file_name (self σ))) as [f_next extension].
  rewrite H. cbn in Hin |- *. rewrite bool_decide_eq_false_2 by exact Hin.
  cbn [negb when]. unfold bind, is_master.
  destruct (rank σ =? 0); reflexivity.
Qed.

(** C6, as the code has it.  When the first check passes: with
    [_extension = None] no extension is checked and the construction goes on
    to the attributes; otherwise, for listed extensions that are ASCII, the
    construction goes on exactly when the file's extension is, character for
    character, one of the listed extensions or the upper-case form of one,
    and else it ends in [sys.exit(0)] before the resolver is asked anything,
    after the diagnostic on rank 0. *)
Theorem extension_check (c : Format) (file_name : string) (params : Params)
    (is_empty : bool) (kwargs : list (string * pyval)) (rank : Z) :
  is_empty && negb (_is_writable c) = false ->
  Forall (fun kv => kv.1 ∉ named_parameters) kwargs ->
  let extension := (splitext file_name).2 in
  let goes_on :=
    __init__ c file_name params is_empty kwargs rank
    = constructed (init_attributes kwargs (fresh c file_name params is_empty rank)) in
  match _extension c with
  | None => goes_on
  | Some exts =>
      Forall (fun e => ascii_only e = true) exts ->
      (extension ∈ exts \/ extension ∈ (upper <$> exts) -> goes_on)
      /\ ((extension ∉ exts) /\ (extension ∉ (upper <$> exts)) ->
          __init__ c file_name params is_empty kwargs rank
          = (inl (SystemExit 0),
             ([], if rank =? 0
                  then [Error [Formatted "The extension %s is not valid for a %s file"
                                 [VStr extension; VStr (_description c)]]]
                  else [])))
  end.
Proof.
  intros Hw Hkw extension goes_on. subst goes_on.
  rewrite init_unfold by exact Hkw. unfold init_body, bind.
  rewrite check_writable_passes by exact Hw.
  destruct (_extension c) as [exts|] eqn:Hext.
  - intros _. split.
    + intros Hin. rewrite (check_extension_accepts (fresh c file_name params is_empty rank) exts Hext); [reflexivity|].
      apply elem_of_app. exact Hin.
    + intros [Hn1 Hn2]. rewrite (check_extension_rejects (fresh c file_name params is_empty rank) exts Hext).
      * cbn. destruct (rank =? 0); reflexivity.
      * intros Hin. apply elem_of_app in Hin. tauto.
  - rewrite (check_extension_unchecked (fresh c file_name params is_empty rank) Hext).
    reflexivity.
Qed.

(** The witness of [extension_check]: for the format listing [.dat], the
    file [rec/data.DAT] goes on, [rec/data.Dat] exits. *)
Lemma extension_check_witness :
  __init__ raw_binary "rec/data.DAT" params_20kHz false [] 1
  = constructed (init_attributes [] (fresh raw_binary "rec/data.DAT" params_20kHz false 1))
  /\ __init__ raw_binary "rec/data.Dat" params_20kHz false [] 1
     = (inl (SystemExit 0), ([], [])).
Proof.
  split.
  - apply (proj1 (extension_check raw_binary "rec/data.DAT" params_20kHz false [] 1
                    eq_refl ltac:(constructor) ltac:(repeat constructor))).
    right. vm_compute. apply list_elem_of_here.
  - apply (proj2 (extension_check raw_binary "rec/data.Dat" params_20kHz false [] 1
                    eq_refl ltac:(constructor) ltac:(repeat constructor))).
    split; vm_compute; intros H; apply list_elem_of_singleton in H; discriminate H.
Defined.

(** C6 as stated fails: [.Dat] differs from the listed [.dat] in letter case
    only, and the construction is refused. *)
Lemma mixed_case_extension_refused :
  _extension raw_binary = Some [".dat"]
  /\ (splitext "rec/data.Dat").2 = ".Dat"
  /\ member_ignoring_case ".Dat" [".dat"] = true
  /\ __init__ raw_binary "rec/data.Dat" params_20kHz false [] 0
     = (inl (SystemExit 0),
        ([], [Error [Formatted "The extension %s is not valid for a %s file"
                       [VStr ".Dat"; VStr "raw_binary"]]])).
Proof. repeat split. Qed.

(** ** The constructor: keyword arguments and required fields *)

Lemma with_dict_id (σ : State) : with_dict (fun d => d) σ = σ.
Proof. destruct σ as [[] ? ? ?]. reflexivity. Qed.

Lemma lookup_attr_None (o : DataFile) (k : string) :
  lookup_attr o k = None <-> __dict__ o !! k = None /\ class_dict (cls o) !! k = None.
Proof.
  unfold lookup_attr. destruct (__dict__ o !! k).
  - split; [discriminate | intros [H _]; discriminate H].
  - split; [intros H; split; [reflexivity | exact H] | intros [_ H]; exact H].
Qed.

Lemma update_all_None (kwargs : list (string * pyval)) (d : gmap string pyval)
    (k : string) :
  update_all kwargs d !! k = None -> (k ∉ kwargs.*1) /\ d !! k = None.
Proof.
  revert d. induction kwargs as [|[k0 v0] rest IH]; intros d; cbn.
  - intros H. split; [apply not_elem_of_nil | exact H].
  - intros H. apply IH in H as [Hrest Hd].
    apply lookup_insert_None in Hd as [Hd Hne]. cbn in Hne.
    split; [|exact Hd]. apply not_elem_of_cons. split; [congruence | exact Hrest].
Qed.

Lemma object_setattr_ordinary (key : string) (v : pyval) :
  key ∉ unassignable -> object_setattr key v = assign key v.
Proof.
  intros H. unfold object_setattr, unassignable in *.
  rewrite elem_of_app in H.
  rewrite bool_decide_eq_false_2 by tauto.
  rewrite bool_decide_eq_false_2.
  - rewrite bool_decide_eq_false_2; [reflexivity|].
    intros ->. apply H. right. repeat constructor.
  - intros Hin. apply H. right.
    apply elem_of_cons in Hin as [->|Hin]; [apply list_elem_of_here|].
    apply list_elem_of_singleton in Hin as ->. repeat constructor.
Qed.

(** [self.__setattr__(key, v)] for a name that can be assigned: it is stored,
    unless the method is shadowed. *)
Lemma setattr_spec (key : string) (v : pyval) (σ : State) :
  key ∉ unassignable ->
  __setattr__ key v σ
  = match lookup_attr (self σ) "__setattr__" with
    | Some _ => (inl TypeError, σ)
    | None => (inr tt, with_dict <[key := v]> σ)
    end.
Proof.
  intros H. unfold __setattr__. now rewrite (object_setattr_ordinary key v H).
Qed.

Lemma setattr_ordinary (key : string) (v : pyval) (σ : State) :
  key ∉ unassignable ->
  lookup_attr (self σ) "__setattr__" = None ->
  __setattr__ key v σ = assign key v σ.
Proof. intros H Hs. rewrite (setattr_spec key v σ H), Hs. reflexivity. Qed.

Lemma set_kwargs_spec (kwargs : list (string * pyval)) (σ : State) :
  Forall (fun kv => kv.1 ∉ unassignable) kwargs ->
  "__setattr__" ∉ kwargs.*1 ->
  lookup_attr (self σ) "__setattr__" = None ->
  set_kwargs kwargs σ = (inr tt, with_dict (update_all kwargs) σ).
Proof.
  intros Hkw. revert σ.
  induction Hkw as [|[k v] rest Hk _ IH]; intros σ Hkeys Hs.
  - cbn. unfold ret. now rewrite <- (with_dict_id σ) at 1.
  - cbn in Hkeys. apply not_elem_of_cons in Hkeys as [Hne Hkeys].
    cbn [set_kwargs]. unfold bind.
    rewrite (setattr_ordinary k v σ Hk Hs). unfold assign.
    rewrite IH; [reflexivity | exact Hkeys |].
    rewrite lookup_attr_assign_ne by congruence. exact Hs.
Qed.

Lemma note_frame (ev : event) (σ : State) :
  self (note ev σ) = self σ /\ rank (note ev σ) = rank σ
  /\ calls (note ev σ) = calls σ.
Proof. unfold note. destruct (rank σ =? 0); repeat split. Qed.

Lemma class_dict_description (c : Format) :
  class_dict c !! "_description" = Some (VStr (_description c)).
Proof. unfold class_dict. apply lookup_insert_eq. Qed.

Lemma required_assignable (key : string) (value : string * string * string) :
  (key, value) ∈ requiered_values ->
  (key ∉ unassignable) /\ key ≠ "__setattr__" /\ key ≠ "_get_info_".
Proof.
  intros Hin. required_cases Hin; (split; [not_listed | split; discriminate]).
Qed.

(** One round of the loop, for an entry of [requiered_values]. *)
Lemma resolve_spec (key : string) (value : string * string * string)
    (to_be_set : option pyval) (σ : State) :
  (key, value) ∈ requiered_values ->
  resolve key value to_be_set σ
  = match lookup_attr (self σ) key with
    | Some _ =>
        (inr to_be_set,
         note (Log [Formatted "%s is infered from the data file with a value of %s"
                      [VStr key; seq_of_strings [value.1.1; value.1.2; value.2]]]
                   "debug") σ)
    | None =>
        match typed_lookup (params (self σ)) value with
        | inr v =>
            match lookup_attr (self σ) "__setattr__" with
            | Some _ => (inl TypeError, with_call (typed_call value) σ)
            | None =>
                (inr (Some v),
                 note (Log [Formatted "%s is read from the params with a value of %s"
                              [VStr key; v]] "debug")
                      (with_dict <[key := v]> (with_call (typed_call value) σ)))
            end
        | inl e => (inl e, with_call (typed_call value) σ)
        end
    end.
Proof.
  intros Hin. destruct (required_assignable key value Hin) as [Hord _].
  required_cases Hin;
    unfold resolve, bind, hasattr, typed_lookup, typed_call, note;
    (destruct (lookup_attr (self σ) _) as [v0|]; cbn;
     [ unfold is_master, bind; cbn; destruct (rank σ =? 0); reflexivity |]).
  - unfold params_getfloat.
    destruct (getfloat (params (self σ)) "data" "sampling_rate") as [e|f]; cbn;
      [reflexivity|].
    rewrite (setattr_spec _ _ _ Hord). cbn [self with_call].
    destruct (lookup_attr (self σ) "__setattr__"); [reflexivity|]. cbn.
    destruct (rank σ =? 0); reflexivity.
  - unfold params_getint.
    destruct (getint (params (self σ)) "data" "N_e") as [e|n]; cbn; [reflexivity|].
    unfold lift. destruct (in_int64 n); cbn; [|reflexivity].
    rewrite (setattr_spec _ _ _ Hord). cbn [self with_call].
    destruct (lookup_attr (self σ) "__setattr__"); [reflexivity|]. cbn.
    destruct (rank σ =? 0); reflexivity.
  - unfold params_getint.
    destruct (getint (params (self σ)) "data" "N_total") as [e|n]; cbn; [reflexivity|].
    unfold lift. destruct (in_int64 n); cbn; [|reflexivity].
    rewrite (setattr_spec _ _ _ Hord). cbn [self with_call].
    destruct (lookup_attr (self σ) "__setattr__"); [reflexivity|]. cbn.
    destruct (rank σ =? 0); reflexivity.
Qed.

Lemma lookups_ext (o o' : DataFile) (l : list (string * (string * string * string))) :
  (forall kv, kv ∈ l -> lookup_attr o' kv.1 = lookup_attr o kv.1) ->
  lookups o' l = lookups o l.
Proof.
  induction l as [|kv l IH]; intros H; [reflexivity|].
  cbn [lookups flat_map]. rewrite (H kv) by apply list_elem_of_here.
  f_equal. apply IH. intros kv' Hkv'. apply H. now apply list_elem_of_further.
Qed.

(** The loop over a duplicate-free part of [requiered_values]: which
    attributes it sets, which resolver calls it makes, and when it raises. *)
Lemma resolve_all_spec (l : list (string * (string * string * string))) :
  (forall kv, kv ∈ l -> kv ∈ requiered_values) ->
  NoDup l.*1 ->
  forall (to_be_set : option pyval) (σ : State),
    let r := resolve_all l to_be_set σ in
    rank r.2 = rank σ
    /\ (forall k, k ∉ l.*1 -> lookup_attr (self r.2) k = lookup_attr (self σ) k)
    /\ (forall c, c ∈ calls r.2 -> c ∈ calls σ \/ c ∈ lookups (self σ) l)
    /\ match r.1 with
       | inr _ =>
           calls r.2 = (calls σ ++ lookups (self σ) l)%list
           /\ forall key value, (key, value) ∈ l ->
                match lookup_attr (self σ) key with
                | Some v => lookup_attr (self r.2) key = Some v
                | None => exists v, typed_lookup (params (self σ)) value = inr v
                                    /\ lookup_attr (self r.2) key = Some v
                end
       | inl e =>
           exists key value, (key, value) ∈ l
                             /\ lookup_attr (self σ) key = None
                             /\ (typed_lookup (params (self σ)) value = inl e
                                 \/ (e = TypeError
                                     /\ lookup_attr (self σ) "__setattr__" ≠ None))
       end.
Proof.
  induction l as [|[key value] l IH]; intros Hsub Hnd to_be_set σ.
  - cbn. repeat split; auto.
    + now rewrite app_nil_r.
    + intros key value H. inversion H.
  - assert (Hin : (key, value) ∈ requiered_values) by (apply Hsub, list_elem_of_here).
    destruct (required_assignable key value Hin) as (_ & Hnot_setattr & _).
    assert (Hsub' : forall kv, kv ∈ l -> kv ∈ requiered_values)
      by (intros kv Hkv; apply Hsub; now apply list_elem_of_further).
    cbn in Hnd. apply NoDup_cons in Hnd as [Hkey Hnd].
    specialize (IH Hsub' Hnd).
    cbn [resolve_all]. unfold bind. rewrite (resolve_spec key value to_be_set σ Hin).
    cbn [lookups flat_map fst snd].
    destruct (lookup_attr (self σ) key) as [v0|] eqn:Hlk.
    + (* already set: nothing is looked up *)
      match goal with |- context [resolve_all l to_be_set (note ?ev σ)] =>
        specialize (IH to_be_set (note ev σ));
        destruct (note_frame ev σ) as (Hs & Hr & Hc);
        set (σa := note ev σ) in *
      end.
      cbn zeta in IH. destruct IH as (IHr & IHf & IHc & IHm).
      rewrite Hs in *. rewrite Hr in IHr. rewrite Hc in *.
      fold (lookups (self σ) l).
      cbn [app]. repeat split.
      * exact IHr.
      * intros k Hk. apply IHf. intros Hk'. apply Hk. cbn. now apply list_elem_of_further.
      * exact IHc.
      * destruct (resolve_all l to_be_set σa).1 as [e|u].
        -- destruct IHm as (key' & value' & H1 & H2 & H3).
           exists key', value'. split; [now apply list_elem_of_further | auto].
        -- destruct IHm as [IHcalls IHm]. split; [exact IHcalls|].
           intros key' value' H. apply elem_of_cons in H as [[= -> ->]|H].
           ++ rewrite Hlk. rewrite IHf by exact Hkey. exact Hlk.
           ++ now apply IHm.
    + destruct (typed_lookup (params (self σ)) value) as [e|v] eqn:Htl.
      * (* the lookup raises *)
        cbn. repeat split; auto.
        -- intros c Hc. apply elem_of_app in Hc as [Hc|Hc]; [now left|].
           right. apply list_elem_of_singleton in Hc as ->. apply list_elem_of_here.
        -- exists key, value. split; [apply list_elem_of_here | auto].
      * destruct (lookup_attr (self σ) "__setattr__") as [shadow|] eqn:Hshadow.
        { (* the method is shadowed: the call raises *)
          cbn. repeat split; auto.
          - intros c Hc. apply elem_of_app in Hc as [Hc|Hc]; [now left|].
            right. apply list_elem_of_singleton in Hc as ->. apply list_elem_of_here.
          - exists key, value. split; [apply list_elem_of_here|].
            split; [exact Hlk|]. right. split; [reflexivity | congruence]. }
        (* the lookup returns: the attribute is set *)
        match goal with |- context [resolve_all l (Some v) (note ?ev ?σ0)] =>
          specialize (IH (Some v) (note ev σ0));
          destruct (note_frame ev σ0) as (Hs & Hr & Hc);
          set (σa := note ev σ0) in *
        end.
        cbn zeta in IH. destruct IH as (IHr & IHf & IHc & IHm).
        assert (Hother : forall k, k ≠ key ->
                  lookup_attr (self σa) k = lookup_attr (self σ) k).
        { intros k Hk. rewrite Hs. rewrite lookup_attr_assign_ne by congruence.
          reflexivity. }
        assert (Hlks : lookups (self σa) l = lookups (self σ) l).
        { apply lookups_ext. intros kv Hkv. apply Hother. intros Heq.
          apply Hkey. rewrite <- Heq. apply list_elem_of_fmap. now exists kv. }
        assert (Hpar : params (self σa) = params (self σ)) by now rewrite Hs.
        rewrite Hlks in *. rewrite Hpar in *.
        cbn in Hr, Hc. rewrite Hr in IHr. rewrite Hc in *.
        fold (lookups (self σ) l).
        repeat split.
        -- exact IHr.
        -- intros k Hk. rewrite IHf.
           ++ apply Hother. intros ->. apply Hk. cbn. apply list_elem_of_here.
           ++ intros Hk'. apply Hk. cbn. now apply list_elem_of_further.
        -- intros c Hcin. apply IHc in Hcin as [Hcin|Hcin].
           ++ apply elem_of_app in Hcin as [Hcin|Hcin]; [now left|].
              right. apply list_elem_of_singleton in Hcin as ->. apply list_elem_of_here.
           ++ right. now apply list_elem_of_further.
        -- destruct (resolve_all l (Some v) σa).1 as [e|u].
           ++ destruct IHm as (key' & value' & H1 & H2 & H3).
              exists key', value'. split; [now apply list_elem_of_further|].
              split.
              { rewrite <- H2. symmetry. apply Hother.
                intros ->. apply Hkey. apply list_elem_of_fmap.
                now exists (key, value'). }
              destruct H3 as [H3|[H3 H4]]; [now left|]. exfalso. apply H4.
              rewrite (Hother "__setattr__") by congruence. exact Hshadow.
           ++ destruct IHm as [IHcalls IHm]. split.
              ** rewrite IHcalls. rewrite <- app_assoc. reflexivity.
              ** intros key' value' H. apply elem_of_cons in H as [[= -> ->]|H].
                 --- rewrite Hlk. exists v. split; [exact Htl|].
                     rewrite IHf by exact Hkey. rewrite Hs.
                     apply lookup_attr_assign_eq.
                 --- specialize (IHm key' value' H).
                     rewrite Hother in IHm; [exact IHm|].
                     intros ->. apply Hkey. apply list_elem_of_fmap.
                     now exists (key, value').
Qed.

Lemma requiered_values_NoDup : NoDup requiered_values.*1.
Proof. apply (bool_decide_unpack _). vm_compute. reflexivity. Qed.

(** The last part of the constructor resets the four caches and asks the
    resolver nothing; it raises only in the call of [_get_info_], when the
    file is not empty and the method is shadowed. *)
Lemma finish_init_spec (σ : State) :
  exists r σ',
    finish_init σ = (r, σ')
    /\ r = (if is_empty (self σ) then inr tt
            else match lookup_attr (self σ) "_get_info_" with
                 | Some _ => inl TypeError
                 | None => inr tt
                 end)
    /\ calls σ' = calls σ
    /\ __dict__ (self σ') !! "_N_t" = Some VNone
    /\ __dict__ (self σ') !! "_template_shift" = Some VNone
    /\ forall k, k ∉ ["_N_t"; "_dist_peaks"; "_template_shift"; "_safety_time"] ->
         lookup_attr (self σ') k = lookup_attr (self σ) k.
Proof.
  unfold finish_init, bind.
  unfold assign at 1 2 3 4. unfold is_master.
  set (σc := with_dict <["_safety_time" := VNone]> _).
  assert (Hframe : forall k, k ∉ ["_N_t"; "_dist_peaks"; "_template_shift"; "_safety_time"] ->
            lookup_attr (self σc) k = lookup_attr (self σ) k).
  { intros k Hk. subst σc.
    repeat (rewrite lookup_attr_assign_ne;
            [|intros <-; apply Hk; repeat constructor]).
    reflexivity. }
  assert (Hcaches : __dict__ (self σc) !! "_N_t" = Some VNone
                    /\ __dict__ (self σc) !! "_template_shift" = Some VNone).
  { subst σc. cbn. split;
      repeat (rewrite lookup_insert_ne by discriminate); now rewrite lookup_insert_eq. }
  assert (Hlog : exists σ', when (rank σc =? 0)
            (do description <- getattr "_description" ;
             do line <- lift (percent "The datafile %s with type %s has been created"
                                      [VStr (file_name (self σ)); description]) ;
             print_and_log [line] "debug") σc = (inr tt, σ')
            /\ self σ' = self σc /\ calls σ' = calls σc).
  { destruct (rank σc =? 0); cbn [when]; [|now exists σc].
    unfold bind, getattr.
    assert (Hd : exists description, lookup_attr (self σc) "_description" = Some description).
    { unfold lookup_attr. destruct (__dict__ (self σc) !! "_description"); [eauto|].
      rewrite class_dict_description. eauto. }
    destruct Hd as [description ->]. cbn. eexists. repeat split. }
  unfold bind in Hlog. destruct Hlog as (σ' & Hlog & Hself & Hcalls).
  rewrite Hlog.
  assert (Hinfo : lookup_attr (self σ') "_get_info_" = lookup_attr (self σ) "_get_info_").
  { rewrite Hself. apply Hframe. not_listed. }
  destruct Hcaches as [H1 H2].
  exists (if is_empty (self σ) then inr tt
          else match lookup_attr (self σ) "_get_info_" with
               | Some _ => inl TypeError
               | None => inr tt
               end), σ'.
  split.
  - destruct (is_empty (self σ)); cbn [negb when]; [reflexivity|].
    unfold self_get_info_. rewrite Hinfo.
    destruct (lookup_attr (self σ) "_get_info_"); reflexivity.
  - rewrite Hself. repeat split; auto.
Qed.

(** After the loop the constructor only resets the four caches and logs. *)
Lemma init_attributes_spec (kwargs : list (string * pyval)) (σ : State) :
  Forall (fun kv => kv.1 ∉ unassignable) kwargs ->
  lookup_attr (self (with_dict (update_all kwargs) σ)) "__setattr__" = None ->
  lookup_attr (self (with_dict (update_all kwargs) σ)) "_get_info_" = None ->
  let r := resolve_all requiered_values None (with_dict (update_all kwargs) σ) in
  match r.1 with
  | inl e => init_attributes kwargs σ = (inl e, r.2)
  | inr _ =>
      exists σ', init_attributes kwargs σ = (inr tt, σ')
                 /\ calls σ' = calls r.2
                 /\ forall k, k ∉ ["_N_t"; "_dist_peaks"; "_template_shift"; "_safety_time"] ->
                      lookup_attr (self σ') k = lookup_attr (self r.2) k
  end.
Proof.
  intros Hkw Hset Hinfo r. unfold init_attributes, bind.
  assert (Hkeys : ("__setattr__" ∉ kwargs.*1)
                  /\ lookup_attr (self σ) "__setattr__" = None).
  { apply lookup_attr_None in Hset as [Hd Hc]. cbn in Hd, Hc.
    apply update_all_None in Hd as [Hk Hd]. split; [exact Hk|].
    apply lookup_attr_None. split; assumption. }
  destruct Hkeys as [Hkeys Hset0].
  rewrite (set_kwargs_spec kwargs σ Hkw Hkeys Hset0). fold r.
  pose proof (resolve_all_spec requiered_values (fun _ Hin => Hin)
                requiered_values_NoDup None (with_dict (update_all kwargs) σ)) as Hspec.
  cbn zeta in Hspec. fold r in Hspec. destruct Hspec as (_ & Hkeep & _).
  destruct r as [[e|u] σr]; cbn [fst snd] in *; [reflexivity|].
  destruct (finish_init_spec σr) as (res & σ' & Hfin & Hres & Hcalls & _ & _ & Hframe).
  rewrite (Hkeep "_get_info_") in Hres by not_listed. rewrite Hinfo in Hres.
  assert (Hok : res = inr tt) by (rewrite Hres; destruct (is_empty (self σr)); reflexivity).
  subst res. rewrite Hok in Hfin. exists σ'. auto.
Qed.

(** A call of [self.__setattr__] stores the value or changes nothing. *)
Lemma setattr_outcome (key : string) (v : pyval) (σ : State) :
  (exists e, __setattr__ key v σ = (inl e, σ))
  \/ __setattr__ key v σ = (inr tt, with_dict <[key := v]> σ).
Proof.
  unfold __setattr__, object_setattr.
  destruct (lookup_attr (self σ) "__setattr__"); [left; eauto|].
  repeat case_bool_decide; try (left; eexists; reflexivity).
  right. reflexivity.
Qed.

Lemma set_kwargs_calls (kwargs : list (string * pyval)) (σ : State) :
  calls (set_kwargs kwargs σ).2 = calls σ.
Proof.
  revert σ. induction kwargs as [|[k v] rest IH]; intros σ; [reflexivity|].
  cbn [set_kwargs]. unfold bind.
  destruct (setattr_outcome k v σ) as [[e ->]| ->]; [reflexivity|].
  now rewrite IH.
Qed.

(** When both checks pass, the constructor is its attribute part. *)
Lemma init_after_checks (c : Format) (file_name : string) (params : Params)
    (is_empty : bool) (kwargs : list (string * pyval)) (rank : Z) :
  is_empty && negb (_is_writable c) = false ->
  match _extension c with
  | None => True
  | Some exts => (splitext file_name).2 ∈ exts \/ (splitext file_name).2 ∈ (upper <$> exts)
  end ->
  Forall (fun kv => kv.1 ∉ named_parameters) kwargs ->
  __init__ c file_name params is_empty kwargs rank
  = constructed (init_attributes kwargs (fresh c file_name params is_empty rank)).
Proof.
  intros Hw Hext Hkw. rewrite init_unfold by exact Hkw. unfold init_body, bind.
  rewrite check_writable_passes by exact Hw.
  destruct (_extension c) as [exts|] eqn:He.
  - rewrite (check_extension_accepts (fresh c file_name params is_empty rank) exts He);
      [reflexivity|].
    apply elem_of_app. exact Hext.
  - rewrite (check_extension_unchecked (fresh c file_name params is_empty rank) He).
    reflexivity.
Qed.

Lemma elem_of_lookups (o : DataFile) (l : list (string * (string * string * string)))
    (c : call) :
  c ∈ lookups o l <->
  exists key value, (key, value) ∈ l /\ lookup_attr o key = None /\ c = typed_call value.
Proof.
  unfold lookups. rewrite list_elem_of_In, in_flat_map. split.
  - intros ([key value] & Hin & Hc). apply list_elem_of_In in Hin. cbn in Hc.
    destruct (lookup_attr o key) eqn:Hlk; [destruct Hc|].
    destruct Hc as [<-|[]]. now exists key, value.
  - intros (key & value & Hin & Hlk & ->). exists (key, value).
    split; [now apply list_elem_of_In|]. cbn. rewrite Hlk. now left.
Qed.

(** Each required field has a resolver call of its own. *)
Lemma typed_call_inj (k1 k2 : string) (v1 v2 : string * string * string) :
  (k1, v1) ∈ requiered_values -> (k2, v2) ∈ requiered_values ->
  typed_call v1 = typed_call v2 -> k1 = k2.
Proof.
  intros H1 H2. required_cases H1; required_cases H2;
    cbn; intros H; try reflexivity; discriminate H.
Qed.

Lemma required_not_cache (key : string) (value : string * string * string) :
  (key, value) ∈ requiered_values ->
  key ∉ ["_N_t"; "_dist_peaks"; "_template_shift"; "_safety_time"].
Proof.
  intros Hin. required_cases Hin; not_listed.
Qed.

(** The constructor computes neither property: an object that has been
    constructed has both caches unset, and, constructed or not, the only
    calls the resolver received are the typed lookups of required fields, so
    none for the window duration. *)
Lemma init_is_lazy (c : Format) (fname : string) (p : Params)
    (empty : bool) (kwargs : list (string * pyval)) (rk : Z) :
  let r := __init__ c fname p empty kwargs rk in
  (forall o, r.1 = inr o ->
             __dict__ o !! "_N_t" = Some VNone
             /\ __dict__ o !! "_template_shift" = Some VNone)
  /\ (forall q, q ∈ r.2.1 ->
        exists key value, (key, value) ∈ requiered_values /\ q = typed_call value)
  /\ (GetFloat "detection" "N_t" ∉ r.2.1) /\ (GetFloat "data" "N_t" ∉ r.2.1).
Proof.
  intros r.
  assert (H : (forall o, r.1 = inr o ->
                 __dict__ o !! "_N_t" = Some VNone
                 /\ __dict__ o !! "_template_shift" = Some VNone)
              /\ (forall q, q ∈ r.2.1 ->
                    exists key value, (key, value) ∈ requiered_values
                                      /\ q = typed_call value)).
  { subst r. unfold __init__. case_bool_decide.
    { split; [discriminate | intros q Hq; inversion Hq]. }
    unfold init_body, bind.
    set (σ0 := fresh c fname p empty rk).
    assert (Hcw : calls (check_writable σ0).2 = []).
    { destruct (is_empty (self σ0) && negb (_is_writable (cls (self σ0)))) eqn:E;
        [destruct (Z.eq_dec (rank σ0) 0) as [E0|E0]|].
      - now rewrite check_writable_master.
      - now rewrite check_writable_worker.
      - now rewrite check_writable_passes. }
    destruct (check_writable σ0) as [[e|u] σa]; cbn [snd] in Hcw.
    { cbn. rewrite Hcw. split; [discriminate | intros q Hq; inversion Hq]. }
    assert (Hce : calls (check_extension σa).2 = []).
    { destruct (_extension (cls (self σa))) as [exts|] eqn:E.
      - destruct (decide ((splitext (file_name (self σa))).2
                          ∈ (exts ++ (upper <$> exts))%list)) as [Hin|Hin].
        + now rewrite (check_extension_accepts σa exts E Hin).
        + rewrite (check_extension_rejects σa exts E Hin). cbn [snd].
          destruct (rank σa =? 0); exact Hcw.
      - now rewrite (check_extension_unchecked σa E). }
    destruct (check_extension σa) as [[e|u'] σb]; cbn [snd] in Hce.
    { cbn. rewrite Hce. split; [discriminate | intros q Hq; inversion Hq]. }
    unfold init_attributes, bind.
    pose proof (set_kwargs_calls kwargs σb) as Hk. rewrite Hce in Hk.
    destruct (set_kwargs kwargs σb) as [[e|u''] σk]; cbn [snd] in Hk.
    { cbn. rewrite Hk. split; [discriminate | intros q Hq; inversion Hq]. }
    pose proof (resolve_all_spec requiered_values (fun _ H => H)
                  requiered_values_NoDup None σk) as Hloop.
    cbn zeta in Hloop. destruct Hloop as (_ & _ & Hcalls & _).
    assert (Hq : forall σ', calls σ' = calls (resolve_all requiered_values None σk).2 ->
              forall q, q ∈ calls σ' ->
                exists key value, (key, value) ∈ requiered_values /\ q = typed_call value).
    { intros σ' Heq q Hq. rewrite Heq in Hq.
      destruct (Hcalls q Hq) as [Hq'|Hq'].
      - rewrite Hk in Hq'. inversion Hq'.
      - apply elem_of_lookups in Hq' as (key & value & Hin & _ & ->). eauto. }
    destruct (resolve_all requiered_values None σk) as [[e|u3] σr]; cbn [snd] in Hq.
    { cbn. split; [discriminate | now apply Hq]. }
    destruct (finish_init_spec σr) as (res & σ' & -> & _ & Hc & HN & Hts & _).
    destruct res as [e|u4]; cbn.
    - split; [discriminate | now apply Hq].
    - split; [now intros o [= <-] | now apply Hq]. }
  destruct H as [H1 H2]. split; [exact H1|]. split; [exact H2|]. split.
  - intros Hq. apply H2 in Hq as (key & value & Hin & Heq).
    required_cases Hin; discriminate Heq.
  - intros Hq. apply H2 in Hq as (key & value & Hin & Heq).
    required_cases Hin; discriminate Heq.
Qed.

(** C7. For each of [rate], [N_e] and [N_tot], in a construction that passes
    the two checks (the listed extensions being ASCII), whose keywords can be
    assigned (none is named like a parameter, a property, [__class__],
    [__dict__] or [__weakref__]) and in which nothing stored under
    [__setattr__] or [_get_info_], by a keyword or by the class, shadows the
    method: if the attribute is already set when the loop starts (by a
    keyword argument, or by the class) the resolver is never asked for it
    and, provided the fields that are not set can be resolved, the
    constructed object holds that value; if it is not set, a typed lookup
    that raises makes the construction fail (there is no default), and when
    the missing fields can all be resolved the object is constructed, holds
    the value of the typed lookup, and the resolver was asked for it. *)
Theorem required_fields_resolution (c : Format) (file_name : string)
    (p : Params) (is_empty : bool) (kwargs : list (string * pyval))
    (rank : Z) (key : string) (value : string * string * string) :
  (key, value) ∈ requiered_values ->
  is_empty && negb (_is_writable c) = false ->
  match _extension c with
  | None => True
  | Some exts =>
      Forall (fun e => ascii_only e = true) exts
      /\ ((splitext file_name).2 ∈ exts \/ (splitext file_name).2 ∈ (upper <$> exts))
  end ->
  Forall (fun kv => (kv.1 ∉ named_parameters) /\ (kv.1 ∉ unassignable)) kwargs ->
  preset c kwargs "__setattr__" = None ->
  preset c kwargs "_get_info_" = None ->
  let r := __init__ c file_name p is_empty kwargs rank in
  let resolvable :=
    forall key' value', (key', value') ∈ requiered_values ->
                        preset c kwargs key' = None ->
                        exists v', typed_lookup p value' = inr v' in
  match preset c kwargs key with
  | Some v =>
      (typed_call value ∉ r.2.1)
      /\ (resolvable -> exists o, r.1 = inr o /\ lookup_attr o key = Some v)
  | None =>
      (forall e, typed_lookup p value = inl e -> exists e', r.1 = inl e')
      /\ (resolvable ->
          exists o v, r.1 = inr o /\ typed_lookup p value = inr v
                      /\ lookup_attr o key = Some v
                      /\ (typed_call value ∈ r.2.1))
  end.
Proof.
  intros Hin Hw Hascii Hkw Hsetattr Hinfo r resolvable.
  assert (Hext : match _extension c with
                 | None => True
                 | Some exts => (splitext file_name).2 ∈ exts
                                \/ (splitext file_name).2 ∈ (upper <$> exts)
                 end)
    by (destruct (_extension c); [exact (proj2 Hascii) | exact I]).
  assert (Hnamed : Forall (fun kv => kv.1 ∉ named_parameters) kwargs)
    by (eapply Forall_impl; [exact Hkw | now intros ? []]).
  assert (Hprop : Forall (fun kv => kv.1 ∉ unassignable) kwargs)
    by (eapply Forall_impl; [exact Hkw | now intros ? []]).
  set (σ0 := fresh c file_name p is_empty rank).
  set (σk := with_dict (update_all kwargs) σ0).
  assert (Hr : r = constructed (init_attributes kwargs σ0))
    by (apply init_after_checks; assumption).
  pose proof (init_attributes_spec kwargs σ0 Hprop Hsetattr Hinfo) as Hinit.
  cbn zeta in Hinit.
  fold σk in Hinit.
  pose proof (resolve_all_spec requiered_values (fun _ H => H)
                requiered_values_NoDup None σk) as Hloop.
  cbn zeta in Hloop. destruct Hloop as (_ & Hframe & Hcalls & Hmatch).
  change (lookup_attr (self σk)) with (preset c kwargs) in *.
  change (params (self σk)) with p in *.
  change (calls σk) with (@nil call) in *.
  (* the calls of the construction are among the lookups of the unset fields *)
  assert (Hlog : forall q, q ∈ r.2.1 -> q ∈ lookups (self σk) requiered_values).
  { intros q Hq. rewrite Hr in Hq.
    destruct (resolve_all requiered_values None σk) as [[e|u] σr]; cbn [fst snd] in *.
    - rewrite Hinit in Hq. cbn in Hq.
      destruct (Hcalls q Hq) as [H|H]; [inversion H | exact H].
    - destruct Hinit as (σ' & Hinit & Hc & _). rewrite Hinit in Hq. cbn in Hq.
      rewrite Hc in Hq. destruct (Hcalls q Hq) as [H|H]; [inversion H | exact H]. }
  (* when the unset fields resolve, the loop returns *)
  assert (Hreturns : resolvable ->
            exists σ', init_attributes kwargs σ0 = (inr tt, σ')
                       /\ calls σ' = lookups (self σk) requiered_values
                       /\ match preset c kwargs key with
                          | Some v => lookup_attr (self σ') key = Some v
                          | None => exists v, typed_lookup p value = inr v
                                              /\ lookup_attr (self σ') key = Some v
                          end).
  { intros Hres.
    destruct (resolve_all requiered_values None σk) as [[e|u] σr]; cbn [fst snd] in *.
    - destruct Hmatch as (key' & value' & Hin' & Hunset & [Hraise|[_ Hshadow]]);
        [|congruence].
      destruct (Hres key' value' Hin' Hunset) as [v' Hv']. congruence.
    - destruct Hinit as (σ' & Hinit & Hc & Hkeep). destruct Hmatch as [Hcs Hm].
      exists σ'. split; [exact Hinit|]. split; [now rewrite Hc, Hcs|].
      specialize (Hm key value Hin).
      rewrite (Hkeep key (required_not_cache key value Hin)). exact Hm. }
  destruct (preset c kwargs key) as [v|] eqn:Hpre.
  - split.
    + intros Hq. apply Hlog, elem_of_lookups in Hq.
      destruct Hq as (key' & value' & Hin' & Hunset & Heq).
      rewrite (typed_call_inj key key' value value' Hin Hin' Heq) in Hpre.
      change (lookup_attr (self σk)) with (preset c kwargs) in Hunset. congruence.
    + intros Hres. destruct (Hreturns Hres) as (σ' & Hinit' & _ & Hv).
      exists (self σ'). rewrite Hr, Hinit'. split; [reflexivity | exact Hv].
  - split.
    + intros e He. rewrite Hr.
      destruct (resolve_all requiered_values None σk) as [[e'|u] σr]; cbn [fst snd] in *.
      * exists e'. now rewrite Hinit.
      * destruct Hmatch as [_ Hm]. specialize (Hm key value Hin).
        rewrite Hpre in Hm. destruct Hm as (v & Hv & _). congruence.
    + intros Hres. destruct (Hreturns Hres) as (σ' & Hinit' & Hcs & v & Hv & Hset).
      exists (self σ'), v. rewrite Hr, Hinit'. cbn [constructed fst snd].
      repeat split; [exact Hv | exact Hset |].
      rewrite Hcs. apply elem_of_lookups. exists key, value. auto.
Qed.

(** The witness of [required_fields_resolution]: [rate] given as a keyword
    is kept and never looked up. *)
Lemma required_fields_resolution_witness :
  let r := __init__ raw_binary "rec/data.dat" params_20kHz false
                    [("rate", VFloat 30000)] 0 in
  (GetFloat "data" "sampling_rate" ∉ r.2.1)
  /\ exists o, r.1 = inr o /\ lookup_attr o "rate" = Some (VFloat 30000).
Proof.
  pose proof (required_fields_resolution raw_binary "rec/data.dat" params_20kHz false
                [("rate", VFloat 30000)] 0 "rate" ("data", "sampling_rate", "float")
                ltac:(apply list_elem_of_here) eq_refl
                ltac:(split; [repeat constructor | left; apply list_elem_of_here])
                ltac:(repeat constructor; not_listed) eq_refl eq_refl) as [H1 H2].
  split; [exact H1|]. apply H2.
  intros key' value' Hin _. required_cases Hin; eexists; reflexivity.
Defined.

Example required_fields_from_configuration :
  (__init__ raw_binary "rec/data.dat" params_20kHz false shape_1000x5 1).2
  = ([GetFloat "data" "sampling_rate"; GetInt "data" "N_e"; GetInt "data" "N_total"],
     [])
  /\ (__init__ raw_binary "rec/data.dat" params_20kHz_108 false
               [("rate", VFloat 30000); ("N_tot", VInt 8)] 1).2
     = ([GetInt "data" "N_e"], [])
  /\ (__init__ raw_binary "rec/data.dat" (table_params [] [] []) false [] 1).1
     = inl (NoOptionError "data" "sampling_rate").
Proof. vm_compute. repeat split; reflexivity. Qed.

(** ** [get_snippet] *)

(** C8. For every format, whatever its [get_data] does, [get_snippet(time,
    length, nodes)] is [get_data(0, chunk_size=length, padding=(time, time),
    nodes=nodes)]: the same result, the same effect on the state. *)
Theorem get_snippet_is_get_data (Array : Type) (B : Backend Array)
    (time length : Z) (nodes : option (list Z)) (σ : State) :
  get_snippet time length nodes σ
  = get_data 0 (Some length) (time, time) nodes σ.
Proof. unfold get_snippet. reflexivity. Qed.

(** ** [get_safety_time] *)

Lemma floordiv_3_returns (d : float) : exists q, float_floordiv d 3 = inr q.
Proof.
  unfold float_floordiv. change (3 =? 0)%float with false. cbn match.
  destruct (negb _ && negb _); destruct (negb _); eauto.
Qed.

(** C9. When the resolver has a [safety_time] for the section [key]:
    [get_safety_time(key)] asks the resolver each time it is called and
    writes nothing to the object; a value other than ["auto"] is returned
    through [float]; for ["auto"] the window duration, read from the
    detection section or, if that raises, from the data section, is
    floor-divided by [3.]. *)
Theorem get_safety_time_spec (float_of_str : string -> exn + float)
    (key value : string) (σ : State) :
  get (params (self σ)) key "safety_time" = inr value ->
  let r := get_safety_time float_of_str key σ in
  self r.2 = self σ
  /\ (exists rest, calls r.2 = (calls σ ++ Get key "safety_time" :: rest)%list)
  /\ (value ≠ "auto" ->
      r = (float_of_str value, with_call (Get key "safety_time") σ))
  /\ (value = "auto" ->
      forall d,
        getfloat (params (self σ)) "detection" "N_t" = inr d
        \/ (exists e, getfloat (params (self σ)) "detection" "N_t" = inl e
                      /\ is_Exception e = true
                      /\ getfloat (params (self σ)) "data" "N_t" = inr d) ->
        exists q, float_floordiv d 3 = inr q /\ r.1 = inr q).
Proof.
  intros Hget r. subst r. unfold get_safety_time, bind, params_get. rewrite Hget.
  destruct (String.eqb_spec value "auto") as [->|Hne].
  - destruct (window_duration (with_call (Get key "safety_time") σ))
      as [[e|d] σ'] eqn:Hwd;
      destruct (window_duration_frame _ _ _ Hwd) as (Hself & _ & _ & l & _ & Hcalls);
      cbn in Hself, Hcalls.
    + cbn [fst snd]. repeat split; [exact Hself | | congruence |].
      * exists l. rewrite Hcalls. now rewrite <- app_assoc.
      * intros _ d Hd. exfalso. destruct Hd as [Hd|(e' & He' & Hexc & Hd)].
        -- rewrite (window_duration_detection (with_call (Get key "safety_time") σ) d Hd) in Hwd. discriminate Hwd.
        -- rewrite (window_duration_fallback (with_call (Get key "safety_time") σ) e' He' Hexc) in Hwd. cbn in Hwd.
           rewrite Hd in Hwd. discriminate Hwd.
    + unfold lift. cbn [fst snd]. repeat split; [exact Hself | | congruence |].
      * exists l. rewrite Hcalls. now rewrite <- app_assoc.
      * intros _ d' Hd.
        assert (d' = d) as ->.
        { destruct Hd as [Hd|(e' & He' & Hexc & Hd)].
          - rewrite (window_duration_detection (with_call (Get key "safety_time") σ) d' Hd) in Hwd. congruence.
          - rewrite (window_duration_fallback (with_call (Get key "safety_time") σ) e' He' Hexc) in Hwd. cbn in Hwd.
            rewrite Hd in Hwd. congruence. }
        destruct (floordiv_3_returns d) as [q Hq]. exists q. now rewrite Hq.
  - unfold lift. cbn [fst snd]. repeat split; try congruence. now exists [].
Qed.

(** The witness of [get_safety_time_spec]: a numeric setting. *)
Lemma get_safety_time_spec_witness :
  get_safety_time plain_decimal "clustering" (at_rank 0 (handle_of params_20kHz))
  = (inr 0.5%float,
     with_call (Get "clustering" "safety_time") (at_rank 0 (handle_of params_20kHz))).
Proof.
  exact (proj1 (proj2 (proj2 (get_safety_time_spec plain_decimal "clustering" "0.5"
                                (at_rank 0 (handle_of params_20kHz)) eq_refl)))
           ltac:(discriminate)).
Defined.

Example get_safety_time_auto :
  (get_safety_time plain_decimal "detection" (at_rank 0 (handle_of params_20kHz))).1
  = inr 0%float
  /\ calls (get_safety_time plain_decimal "detection"
              (at_rank 0 (handle_of params_20kHz))).2
     = [Get "detection" "safety_time"; GetFloat "detection" "N_t"]
  /\ (get_safety_time plain_decimal "detection"
        (at_rank 0 (handle_of params_20kHz_108))).1
     = inl (NoOptionError "detection" "safety_time").
Proof. vm_compute. repeat split; reflexivity. Qed.

(** ** [_check_requierements_] and [_display_requierements_] *)

Lemma field_line_scalar (key : string) (values : string * pyval) :
  (forall l, values.2 ≠ VTuple l) -> exists line, field_line key values = inr line.
Proof.
  intros Hd. destruct values as [ty default]. unfold field_line. cbn in *.
  destruct default; cbn; eauto. now elim (Hd l).
Qed.

(** With no tuple among the defaults the display is built: a heading, an
    empty line and one line per field. *)
Lemma display_scalar (description : string) (params : FullParams) (fields : Fields) :
  Forall (fun f => forall l, f.2.2 ≠ VTuple l) fields ->
  exists lines, _display_requierements_ description params fields = inr (Log lines "info")
                /\ length lines = (2 + length fields)%nat.
Proof.
  intros Hf. unfold _display_requierements_. cbn -[field_lines].
  assert (H : exists ls, field_lines fields = inr ls /\ length ls = length fields).
  { induction Hf as [|[key values] rest Hd _ IH]; [now exists []|].
    cbn [field_lines]. destruct (field_line_scalar key values Hd) as [line ->].
    destruct IH as (ls & -> & Hlen). exists (line :: ls). cbn. now rewrite Hlen. }
  destruct H as (ls & -> & Hlen). eexists. split; [reflexivity|]. cbn. now rewrite Hlen.
Qed.

(** What the loop does when it returns: it only adds keys, it prints
    nothing, and every field with a default or a known type is set. *)
Lemma check_loop_returns (description : string) (fields rest : Fields)
    (params : FullParams) (kwargs res : gmap string pyval) (out : list event) :
  check_loop description fields rest params kwargs = (inr res, out) ->
  out = [] /\ kwargs ⊆ res
  /\ forall key value default, (key, (value, default)) ∈ rest ->
       default ≠ VNone \/ value ∈ known_types -> is_Some (res !! key).
Proof.
  revert kwargs. induction rest as [|[key [value default]] rest IH]; intros kwargs.
  - cbn. intros [= <- <-]. repeat split; auto. intros ? ? ? H. inversion H.
  - cbn [check_loop]. case_bool_decide as Hin.
    + intros Hres. destruct (IH kwargs Hres) as (Hout & Hsub & Hset).
      repeat split; auto. intros k ty d Hk Hwhy.
      apply elem_of_cons in Hk as [[= -> -> ->]|Hk]; [|eauto].
      destruct Hin as [v Hv]. exists v. eapply lookup_weaken; eauto.
    + assert (Hfresh : kwargs !! key = None)
        by (destruct (kwargs !! key) eqn:E; [elim Hin; eauto | reflexivity]).
      assert (Hstore : forall v,
                check_loop description fields rest params (<[key := v]> kwargs)
                = (inr res, out) ->
                out = [] /\ kwargs ⊆ res
                /\ forall k ty d, (k, (ty, d)) ∈ (key, (value, default)) :: rest ->
                     d ≠ VNone \/ ty ∈ known_types -> is_Some (res !! k)).
      { intros v Hres. destruct (IH _ Hres) as (Hout & Hsub & Hset).
        split; [exact Hout|]. split.
        - etransitivity; [|exact Hsub]. now apply insert_subseteq.
        - intros k ty d Hk Hwhy.
          apply elem_of_cons in Hk as [[= -> -> ->]|Hk]; [|eauto].
          exists v. eapply lookup_weaken; [|exact Hsub]. apply lookup_insert_eq. }
      destruct default; try (apply Hstore).
      destruct (typed_get params value key) as [[e|v]|] eqn:Hget.
      * destruct (is_Exception e); [|discriminate].
        destruct (_display_requierements_ _ _ _); [discriminate|].
        destruct (percent _ _); discriminate.
      * apply Hstore.
      * intros Hres. destruct (IH kwargs Hres) as (Hout & Hsub & Hset).
        repeat split; auto. intros k ty d Hk Hwhy.
        apply elem_of_cons in Hk as [[= -> -> ->]|Hk]; [|eauto].
        exfalso. destruct Hwhy as [Hd|Hty]; [now apply Hd|].
        unfold typed_get in Hget. unfold known_types in Hty.
        repeat (apply elem_of_cons in Hty as [->|Hty]; [discriminate Hget|]).
        inversion Hty.
Qed.

(** With distinct field names: what each field ends up as, and that no other
    key is touched. *)
Lemma check_loop_fields (description : string) (fields rest : Fields)
    (params : FullParams) (kwargs res : gmap string pyval) (out : list event) :
  NoDup rest.*1 ->
  check_loop description fields rest params kwargs = (inr res, out) ->
  (forall k, k ∉ rest.*1 -> res !! k = kwargs !! k)
  /\ forall key value default, (key, (value, default)) ∈ rest ->
       kwargs !! key = None ->
       res !! key = match default with
                    | VNone => match typed_get params value key with
                               | Some (inr v) => Some v
                               | _ => None
                               end
                    | _ => Some default
                    end.
Proof.
  revert kwargs. induction rest as [|[key [value default]] rest IH]; intros kwargs Hnd.
  - cbn. intros [= <- <-]. split; auto. intros ? ? ? H. inversion H.
  - cbn in Hnd. apply NoDup_cons in Hnd as [Hkey Hnd].
    cbn [check_loop]. case_bool_decide as Hin.
    + intros Hres. destruct (IH kwargs Hnd Hres) as (Hframe & Hval). split.
      * intros k Hk. apply Hframe. intros Hk'. apply Hk. cbn. now apply list_elem_of_further.
      * intros k ty d Hk Hnone.
        apply elem_of_cons in Hk as [[= -> -> ->]|Hk]; [|eauto].
        exfalso. apply (is_Some_None (A := pyval)). now rewrite <- Hnone.
    + assert (Hstore : forall v,
                check_loop description fields rest params (<[key := v]> kwargs)
                = (inr res, out) ->
                (forall k, k ∉ ((key, (value, default)) :: rest).*1 -> res !! k = kwargs !! k)
                /\ res !! key = Some v
                /\ forall k ty d, (k, (ty, d)) ∈ rest -> kwargs !! k = None ->
                     res !! k = match d with
                                | VNone => match typed_get params ty k with
                                           | Some (inr v) => Some v
                                           | _ => None
                                           end
                                | _ => Some d
                                end).
      { intros v Hres. destruct (IH _ Hnd Hres) as (Hframe & Hval). split; [|split].
        - intros k Hk. rewrite Hframe.
          + apply lookup_insert_ne. intros ->. apply Hk. cbn. apply list_elem_of_here.
          + intros Hk'. apply Hk. cbn. now apply list_elem_of_further.
        - rewrite (Hframe key Hkey). apply lookup_insert_eq.
        - intros k ty d Hk Hnone. apply Hval; [exact Hk|].
          rewrite lookup_insert_ne; [exact Hnone|]. intros ->.
          apply Hkey. apply list_elem_of_fmap. now exists (k, (ty, d)). }
      destruct default eqn:Hd;
        try (intros Hres; destruct (Hstore _ Hres) as (Hframe & Hk & Hval);
             split; [exact Hframe|];
             intros k ty d Hin' Hnone;
             apply elem_of_cons in Hin' as [[= -> -> ->]|Hin']; [exact Hk | eauto]).
      destruct (typed_get params value key) as [[e|v]|] eqn:Hget.
      * destruct (is_Exception e); [|discriminate].
        destruct (_display_requierements_ _ _ _); [discriminate|].
        destruct (percent _ _); discriminate.
      * intros Hres; destruct (Hstore _ Hres) as (Hframe & Hk & Hval).
        split; [exact Hframe|].
        intros k ty d Hin' Hnone.
        apply elem_of_cons in Hin' as [[= -> -> ->]|Hin']; [|eauto].
        now rewrite Hget.
      * intros Hres. destruct (IH kwargs Hnd Hres) as (Hframe & Hval). split.
        -- intros k Hk. apply Hframe. intros Hk'. apply Hk. cbn.
           now apply list_elem_of_further.
        -- intros k ty d Hin' Hnone.
           apply elem_of_cons in Hin' as [[= -> -> ->]|Hin']; [|eauto].
           rewrite Hget. rewrite (Hframe key Hkey).
           destruct (kwargs !! key) eqn:E; [elim Hin; eauto | reflexivity].
Qed.

Lemma check_loop_fails (description : string) (fields rest : Fields)
    (params : FullParams) (kwargs : gmap string pyval) (e : exn) (out : list event) :
  check_loop description fields rest params kwargs = (inl e, out) ->
  exists key value e0,
    (key, (value, VNone)) ∈ rest
    /\ typed_get params value key = Some (inl e0)
    /\ if is_Exception e0 then
         match _display_requierements_ description params fields with
         | inr shown =>
             e = SystemExit 0
             /\ out = [shown;
                       Error [Formatted "%s must be specified as type %s in the [data] section!"
                                [VStr key; VStr value]]]
         | inl e' => e = e' /\ out = []
         end
       else e = e0 /\ out = [].
Proof.
  revert kwargs. induction rest as [|[key [value default]] rest IH]; intros kwargs.
  - cbn. discriminate.
  - assert (Hnext : forall kw,
              check_loop description fields rest params kw = (inl e, out) ->
              exists k ty e0,
                (k, (ty, VNone)) ∈ (key, (value, default)) :: rest
                /\ typed_get params ty k = Some (inl e0)
                /\ if is_Exception e0 then
                     match _display_requierements_ description params fields with
                     | inr shown =>
                         e = SystemExit 0
                         /\ out = [shown;
                                   Error [Formatted "%s must be specified as type %s in the [data] section!"
                                            [VStr k; VStr ty]]]
                     | inl e' => e = e' /\ out = []
                     end
                   else e = e0 /\ out = []).
    { intros kw Hres. destruct (IH kw Hres) as (k & ty & e0 & Hin & Hrest).
      exists k, ty, e0. split; [now apply list_elem_of_further | exact Hrest]. }
    cbn [check_loop]. case_bool_decide; [apply Hnext|].
    destruct default; try apply Hnext.
    destruct (typed_get params value key) as [[e0|v]|] eqn:Hget; try apply Hnext.
    intros Hres. exists key, value, e0.
    split; [apply list_elem_of_here|]. split; [exact Hget|].
    destruct (is_Exception e0).
    + destruct (_display_requierements_ description params fields) as [e'|shown].
      * injection Hres as <- <-. auto.
      * cbn in Hres. injection Hres as <- <-. auto.
    + injection Hres as <- <-. auto.
Qed.

Lemma typed_get_unknown (params : FullParams) (value key : string) :
  value ∉ known_types -> typed_get params value key = None.
Proof.
  intros Hty. unfold typed_get.
  destruct (String.eqb_spec value "int") as [->|_];
    [exfalso; apply Hty; unfold known_types; set_solver|].
  destruct (String.eqb_spec value "string") as [->|_];
    [exfalso; apply Hty; unfold known_types; set_solver|].
  destruct (String.eqb_spec value "float") as [->|_];
    [exfalso; apply Hty; unfold known_types; set_solver|].
  destruct (String.eqb_spec value "bool") as [->|_];
    [exfalso; apply Hty; unfold known_types; set_solver|].
  reflexivity.
Qed.

(** When [_check_requierements_] returns, it printed nothing, every keyword
    it was given is returned as given, and every field that declares a
    default or one of the four known types has a value. *)
Theorem check_requirements_returns (description : string) (fields : Fields)
    (params : FullParams) (kwargs res : gmap string pyval) :
  (_check_requierements_ description fields params kwargs).1 = inr res ->
  (_check_requierements_ description fields params kwargs).2 = []
  /\ kwargs ⊆ res
  /\ forall key value default, (key, (value, default)) ∈ fields ->
       default ≠ VNone \/ value ∈ known_types -> is_Some (res !! key).
Proof.
  unfold _check_requierements_.
  destruct (check_loop description fields fields params kwargs) as [r out] eqn:H.
  cbn. intros ->. exact (check_loop_returns _ _ _ _ _ _ _ H).
Qed.

Lemma check_requirements_returns_witness :
  (_check_requierements_ "raw_binary" raw_fields params_raw offset_16).2 = []
  /\ offset_16 ⊆ raw_checked 16
  /\ is_Some (raw_checked 16 !! "data_dtype").
Proof.
  pose proof (check_requirements_returns "raw_binary" raw_fields params_raw
                offset_16 (raw_checked 16)
                ltac:(vm_compute; reflexivity)) as (H1 & H2 & H3).
  split; [exact H1|]. split; [exact H2|].
  apply (H3 "data_dtype" "string" VNone); [apply list_elem_of_here|].
  right. unfold known_types. set_solver.
Defined.

(** A field that declares a default never reaches the resolver: when every
    field the keywords leave out has a default, the check returns the same
    dictionary for every resolver, prints nothing, and each such field holds
    its default. *)
Theorem check_defaults_shadow_configuration (description : string)
    (fields : Fields) (kwargs : gmap string pyval) :
  NoDup fields.*1 ->
  (forall key value default, (key, (value, default)) ∈ fields ->
                             kwargs !! key = None -> default ≠ VNone) ->
  exists res,
    (forall params, _check_requierements_ description fields params kwargs = (inr res, []))
    /\ forall key value default, (key, (value, default)) ∈ fields ->
                                 kwargs !! key = None -> res !! key = Some default.
Proof.
  intros Hnd Hdef. unfold _check_requierements_.
  assert (Hany : forall rest kw,
            (forall key value default, (key, (value, default)) ∈ rest ->
                                       kw !! key = None -> default ≠ VNone) ->
            exists res, forall params,
              check_loop description fields rest params kw = (inr res, [])).
  { induction rest as [|[key [value default]] rest IH]; intros kw Hd.
    - now exists kw.
    - assert (Hrest : forall k ty d, (k, (ty, d)) ∈ rest -> kw !! k = None -> d ≠ VNone)
        by (intros k ty d Hin; apply (Hd k ty d); now apply list_elem_of_further).
      cbn [check_loop]. case_bool_decide as Hin; [now apply IH|].
      assert (Hnone : kw !! key = None)
        by (destruct (kw !! key) eqn:E; [elim Hin; eauto | reflexivity]).
      pose proof (Hd key value default ltac:(apply list_elem_of_here) Hnone) as Hne.
      destruct default; try (now elim Hne);
        (apply IH; intros k ty d Hk Hnk; apply (Hrest k ty d Hk);
         destruct (decide (key = k)) as [->|Hkk];
         [now rewrite lookup_insert_eq in Hnk | now rewrite lookup_insert_ne in Hnk]). }
  destruct (Hany fields kwargs Hdef) as [res Hres]. exists res. split; [exact Hres|].
  intros key value default Hin Hnone.
  destruct (check_loop_fields description fields fields
              (table_full_params [] [] [] []) kwargs res [] Hnd (Hres _)) as [_ Hval].
  rewrite (Hval key value default Hin Hnone).
  pose proof (Hdef key value default Hin Hnone) as Hne.
  destruct default; try reflexivity. now elim Hne.
Qed.

Lemma check_defaults_shadow_configuration_witness :
  exists res,
    (forall params, _check_requierements_ "raw_binary"
                      [("data_offset", ("int", VInt 0)); ("gain", ("float", VFloat 1))]
                      params (<["gain" := VInt 2]> ∅) = (inr res, []))
    /\ res !! "data_offset" = Some (VInt 0).
Proof.
  destruct (check_defaults_shadow_configuration "raw_binary"
              [("data_offset", ("int", VInt 0)); ("gain", ("float", VFloat 1))]
              (<["gain" := VInt 2]> ∅)) as (res & Hres & Hval).
  - apply (bool_decide_unpack _). vm_compute. reflexivity.
  - intros key value default Hin _. apply list_elem_of_In in Hin. cbn in Hin.
    destruct Hin as [[= <- <- <-]|[[= <- <- <-]|[]]]; discriminate.
  - exists res. split; [exact Hres|].
    apply (Hval "data_offset" "int" (VInt 0)); [apply list_elem_of_here | reflexivity].
Defined.

(** [_check_requierements_] never lets an [Exception] through.  With no tuple
    among the defaults, whatever it raises is not an [Exception]: either what
    a getter raised that [except Exception] does not catch, with nothing
    printed, or [SystemExit(0)] after the list of the format's parameters (two
    lines and one per field, at level [info]) and the error naming a field
    without default and its type. *)
Theorem check_failure_is_exit (description : string) (fields : Fields)
    (params : FullParams) (kwargs : gmap string pyval) (e : exn) :
  Forall (fun f => forall l, f.2.2 ≠ VTuple l) fields ->
  (_check_requierements_ description fields params kwargs).1 = inl e ->
  is_Exception e = false
  /\ ((_check_requierements_ description fields params kwargs).2 = []
      \/ exists key value lines,
           e = SystemExit 0
           /\ (key, (value, VNone)) ∈ fields
           /\ length lines = (2 + length fields)%nat
           /\ (_check_requierements_ description fields params kwargs).2
              = [Log lines "info";
                 Error [Formatted "%s must be specified as type %s in the [data] section!"
                          [VStr key; VStr value]]]).
Proof.
  intros Hscalar. unfold _check_requierements_.
  destruct (check_loop description fields fields params kwargs) as [r out] eqn:H.
  cbn. intros ->.
  destruct (check_loop_fails _ _ _ _ _ _ _ H) as (key & value & e0 & Hin & _ & Hcase).
  destruct (display_scalar description params fields Hscalar) as (lines & Hshow & Hlen).
  rewrite Hshow in Hcase. destruct (is_Exception e0) eqn:He0.
  - destruct Hcase as [-> ->]. split; [reflexivity|]. right.
    exists key, value, lines. auto.
  - destruct Hcase as [-> ->]. auto.
Qed.

Lemma check_failure_is_exit_witness :
  (_check_requierements_ "raw_binary" raw_fields
     (table_full_params [] [] [] []) ∅).1 = inl (SystemExit 0)
  /\ exists key value lines,
       length lines = 6%nat
       /\ (_check_requierements_ "raw_binary" raw_fields
             (table_full_params [] [] [] []) ∅).2
          = [Log lines "info";
             Error [Formatted "%s must be specified as type %s in the [data] section!"
                      [VStr key; VStr value]]].
Proof.
  split; [vm_compute; reflexivity|].
  destruct (check_failure_is_exit "raw_binary" raw_fields
              (table_full_params [] [] [] []) ∅ (SystemExit 0)) as [_ [H|H]].
  - repeat constructor; discriminate.
  - vm_compute. reflexivity.
  - vm_compute in H. discriminate H.
  - destruct H as (key & value & lines & _ & _ & Hlen & Hout).
    exists key, value, lines. split; [exact Hlen | exact Hout].
Defined.

(** A field without default whose type is none of [int], [string], [float],
    [bool] is passed over in silence: the check returns without that key. *)
Theorem check_unknown_type_skipped (description : string) (fields : Fields)
    (params : FullParams) (kwargs res : gmap string pyval) (key value : string) :
  NoDup fields.*1 ->
  (key, (value, VNone)) ∈ fields ->
  value ∉ known_types ->
  kwargs !! key = None ->
  (_check_requierements_ description fields params kwargs).1 = inr res ->
  res !! key = None.
Proof.
  intros Hnd Hin Hty Hnone. unfold _check_requierements_.
  destruct (check_loop description fields fields params kwargs) as [r out] eqn:H.
  cbn. intros ->.
  destruct (check_loop_fields _ _ _ _ _ _ _ Hnd H) as [_ Hval].
  rewrite (Hval key value VNone Hin Hnone). now rewrite typed_get_unknown.
Qed.

Lemma check_unknown_type_skipped_witness : raw_checked 0 !! "nb_channels" = None.
Proof.
  apply (check_unknown_type_skipped "raw_binary" raw_fields params_raw ∅ _
           "nb_channels" "integer").
  - apply (bool_decide_unpack _). vm_compute. reflexivity.
  - unfold raw_fields. set_solver.
  - not_listed.
  - reflexivity.
  - vm_compute. reflexivity.
Defined.

(** ** [N_t]: failures *)

(** A failed resolution is not remembered.  When [_N_t] is unset and the
    window duration is in neither section, [N_t] raises what the data
    section's lookup raised and leaves the object as it was; the next access
    asks the resolver for both keys again. *)
Theorem N_t_failure_is_retried (σ : State) (e1 e2 : exn) :
  lookup_attr (self σ) "_N_t" = Some VNone ->
  getfloat (params (self σ)) "detection" "N_t" = inl e1 ->
  is_Exception e1 = true ->
  getfloat (params (self σ)) "data" "N_t" = inl e2 ->
  let asked σ := with_call (GetFloat "data" "N_t")
                   (with_call (GetFloat "detection" "N_t") σ) in
  N_t σ = (inl e2, asked σ)
  /\ self (asked σ) = self σ
  /\ N_t (asked σ) = (inl e2, asked (asked σ)).
Proof.
  intros Hc H1 He H2 asked.
  assert (Hfail : forall τ, self τ = self σ -> N_t τ = (inl e2, asked τ)).
  { intros τ Hτ. unfold N_t, bind, getattr. rewrite Hτ, Hc.
    rewrite (window_duration_fallback τ e1); [| now rewrite Hτ | exact He].
    now rewrite Hτ, H2. }
  split; [now apply Hfail|]. split; [reflexivity|]. now apply Hfail.
Qed.

Lemma N_t_failure_is_retried_witness :
  let σ := at_rank 0 (handle_of (table_params [] [] [])) in
  N_t σ = (inl (NoOptionError "data" "N_t"),
           with_call (GetFloat "data" "N_t") (with_call (GetFloat "detection" "N_t") σ))
  /\ calls (N_t (N_t σ).2).2
     = [GetFloat "detection" "N_t"; GetFloat "data" "N_t";
        GetFloat "detection" "N_t"; GetFloat "data" "N_t"].
Proof.
  intros σ.
  destruct (N_t_failure_is_retried σ (NoOptionError "detection" "N_t")
              (NoOptionError "data" "N_t") eq_refl eq_refl eq_refl eq_refl)
    as (H1 & _ & H2).
  split; [exact H1|]. rewrite H1. cbn [snd]. rewrite H2. reflexivity.
Defined.

(** A failed conversion is remembered.  When the duration [d] has been
    resolved but [int(self.rate * d * 1e-3)] raises (a rate that is not a
    number, a product that is infinite or [nan]), [N_t] raises that
    exception with [_N_t] already holding [d]; the next access raises
    nothing and returns [d], the duration in ms as a float, as the window
    length, without asking the resolver. *)
Theorem N_t_failed_conversion_is_cached (σ σ1 : State) (rate : pyval)
    (d : float) (e : exn) :
  lookup_attr (self σ) "_N_t" = Some VNone ->
  window_duration σ = (inr d, σ1) ->
  lookup_attr (self σ) "rate" = Some rate ->
  match mul_float rate d with
  | inr x => int_of_float (x * 1e-3)
  | inl e => inl e
  end = inl e ->
  let σ2 := with_dict <["_N_t" := VFloat d]> σ1 in
  N_t σ = (inl e, σ2) /\ N_t σ2 = (inr (VFloat d), σ2).
Proof.
  intros Hc Hwd Hrate Hconv σ2.
  destruct (window_duration_frame _ _ _ Hwd) as (Hself & _).
  split.
  - unfold N_t, bind, getattr. rewrite Hc, Hwd.
    unfold assign at 1.
    rewrite lookup_attr_assign_ne by discriminate.
    rewrite Hself, Hrate. rewrite lookup_attr_assign_eq.
    unfold lift at 1.
    destruct (mul_float rate d) as [e'|x].
    + injection Hconv as ->. reflexivity.
    + unfold lift at 1. rewrite Hconv. reflexivity.
  - apply N_t_cached; [apply lookup_attr_assign_eq | discriminate].
Qed.

Lemma N_t_failed_conversion_is_cached_witness :
  let σ := with_dict <["rate" := VStr "20000"]> (at_rank 0 (handle_of params_20kHz)) in
  (N_t σ).1 = inl TypeError
  /\ (N_t (N_t σ).2).1 = inr (VFloat 1)
  /\ calls (N_t (N_t σ).2).2 = [GetFloat "detection" "N_t"].
Proof.
  intros σ.
  destruct (N_t_failed_conversion_is_cached σ _ (VStr "20000") 1 TypeError
              eq_refl eq_refl eq_refl eq_refl) as [H1 H2].
  rewrite H1. cbn [fst snd]. rewrite H2. repeat split.
Defined.

(** ** The window around its centre *)

Lemma odd_halves (n : Z) : Z.odd n = true -> 2 * ((n - 1) / 2) + 1 = n.
Proof.
  intros Hodd. rewrite (Z.div2_odd n) at 2. rewrite Hodd. cbn [Z.b2z].
  rewrite (Z.div2_odd n) at 1. rewrite Hodd. cbn [Z.b2z].
  replace (2 * Z.div2 n + 1 - 1) with (Z.div2 n * 2) by lia.
  rewrite Z.div_mul by lia. lia.
Qed.

(** The window is symmetric around its centre.  For a rate [r > 0] and a
    duration [d > 0] whose product truncates to some [t < 2^63] (so that the
    parity test of [N_t] does not overflow), and with [_template_shift]
    unset, [template_shift] returns some [h >= 0] and the window length is
    then [2 * h + 1]. *)
Theorem window_is_symmetric (σ σ1 : State) (r d : float) (t : Z) :
  lookup_attr (self σ) "_N_t" = Some VNone ->
  lookup_attr (self σ) "_template_shift" = Some VNone ->
  lookup_attr (self σ) "rate" = Some (VFloat r) ->
  window_duration σ = (inr d, σ1) ->
  (0 <? r)%float = true ->
  (0 <? d)%float = true ->
  int_of_float (r * d * 1e-3) = inr t ->
  t < 2 ^ 63 ->
  exists h σ',
    template_shift σ = (inr (VInt h), σ')
    /\ N_t σ' = (inr (VInt (2 * h + 1)), σ')
    /\ 0 <= h.
Proof.
  intros Hc Hts Hrate Hwd Hr Hd Ht Hfit.
  assert (Hpos : 0 <= t).
  { apply (trunc_SF_nonneg (Prim2SF (r * d * 1e-3))); [|exact Ht].
    apply mul_nonneg; [apply mul_nonneg; now apply positive_nonneg|].
    apply positive_nonneg. reflexivity. }
  pose proof (N_t_fresh σ σ1 (VFloat r) d (r * d)%float t Hc Hwd Hrate eq_refl Ht
                ltac:(lia)) as HN.
  cbn zeta in HN.
  destruct (odd_up t Hpos) as (Hodd & Hn & _).
  set (n := if t mod 2 =? 0 then t + 1 else t) in *.
  destruct (N_t_resolves _ _ _ HN) as (Hcache & Hv & _).
  exists ((n - 1) / 2), (with_dict <["_N_t" := VInt n]> σ1).
  split; [|split].
  - unfold template_shift, bind, getattr. rewrite Hts, HN. reflexivity.
  - rewrite (odd_halves n Hodd). now apply N_t_cached.
  - apply Z.div_pos; lia.
Qed.

Lemma window_is_symmetric_witness :
  exists h σ',
    template_shift (at_rank 0 (handle_of params_20kHz)) = (inr (VInt h), σ')
    /\ N_t σ' = (inr (VInt (2 * h + 1)), σ')
    /\ 0 <= h.
Proof.
  apply (window_is_symmetric (at_rank 0 (handle_of params_20kHz)) _ 20000 1 20
           eq_refl eq_refl eq_refl eq_refl eq_refl eq_refl eq_refl).
  lia.
Defined.

(** ** The constructor on the ranks other than 0 *)

Lemma quiet_ret {A} (a : A) : quiet (ret a).
Proof. intros σ _. split; reflexivity. Qed.

Lemma quiet_raise {A} (e : exn) : quiet (@raise A e).
Proof. intros σ _. split; reflexivity. Qed.

Lemma quiet_lift {A} (r : exn + A) : quiet (lift r).
Proof. intros σ _. split; reflexivity. Qed.

Lemma quiet_bind {A B} (c : M A) (k : A -> M B) :
  quiet c -> (forall a, quiet (k a)) -> quiet (bind c k).
Proof.
  intros Hc Hk σ Hr. unfold bind. destruct (Hc σ Hr) as [Ho Hrk].
  destruct (c σ) as [[e|a] σ1]; cbn [fst snd] in *; [auto|].
  destruct (Hk a σ1) as [Ho' Hrk']; [congruence|]. split; congruence.
Qed.

Lemma quiet_gated {A} (c : M unit) (k : M A) :
  quiet k -> quiet (do master <- is_master ; do _ <- when master c ; k).
Proof.
  intros Hk σ Hr. unfold bind, is_master.
  rewrite (proj2 (Z.eqb_neq _ _) Hr). cbn. now apply Hk.
Qed.

Lemma quiet_assign (name : string) (v : pyval) : quiet (assign name v).
Proof. intros σ _. split; reflexivity. Qed.

Lemma quiet_setattr (name : string) (v : pyval) : quiet (__setattr__ name v).
Proof.
  intros σ Hr. destruct (setattr_outcome name v σ) as [[e ->]| ->];
    split; reflexivity.
Qed.

Lemma quiet_get_info : quiet self_get_info_.
Proof.
  intros σ Hr. unfold self_get_info_.
  destruct (lookup_attr (self σ) "_get_info_"); split; reflexivity.
Qed.

Lemma quiet_hasattr (name : string) : quiet (hasattr name).
Proof. intros σ _. split; reflexivity. Qed.

Lemma quiet_local {A} (name : string) (v : option A) : quiet (local name v).
Proof. destruct v; [apply quiet_ret | apply quiet_raise]. Qed.

Lemma quiet_getint (section key : string) : quiet (params_getint section key).
Proof. intros σ _. split; reflexivity. Qed.

Lemma quiet_getfloat (section key : string) : quiet (params_getfloat section key).
Proof. intros σ _. split; reflexivity. Qed.

Ltac quiet_step :=
  first [ apply quiet_gated | apply quiet_bind; [|intros ?] | apply quiet_ret
        | apply quiet_raise | apply quiet_lift | apply quiet_assign
        | apply quiet_setattr | apply quiet_hasattr | apply quiet_local
        | apply quiet_getint | apply quiet_getfloat
        | match goal with |- quiet (if ?b then _ else _) => destruct b end ].

Lemma quiet_set_kwargs (kwargs : list (string * pyval)) : quiet (set_kwargs kwargs).
Proof.
  induction kwargs as [|[k v] rest IH]; cbn [set_kwargs]; [apply quiet_ret|].
  apply quiet_bind; [apply quiet_setattr | intros _; exact IH].
Qed.

Lemma quiet_resolve (key : string) (value : string * string * string)
    (to_be_set : option pyval) : quiet (resolve key value to_be_set).
Proof.
  destruct value as [[section option] type]. unfold resolve.
  repeat quiet_step.
Qed.

Lemma quiet_resolve_all (l : list (string * (string * string * string)))
    (to_be_set : option pyval) : quiet (resolve_all l to_be_set).
Proof.
  revert to_be_set. induction l as [|[key value] l IH]; intros to_be_set;
    cbn [resolve_all]; [apply quiet_ret|].
  apply quiet_bind; [apply quiet_resolve | intros a; apply IH].
Qed.

Lemma quiet_check_writable : quiet check_writable.
Proof.
  intros σ Hr.
  destruct (is_empty (self σ) && negb (_is_writable (cls (self σ)))) eqn:E.
  - rewrite check_writable_worker by assumption. split; reflexivity.
  - rewrite check_writable_passes by assumption. split; reflexivity.
Qed.

Lemma quiet_check_extension : quiet check_extension.
Proof.
  intros σ Hr. destruct (_extension (cls (self σ))) as [exts|] eqn:E.
  - destruct (decide ((splitext (file_name (self σ))).2
                      ∈ (exts ++ (upper <$> exts))%list)) as [Hin|Hin].
    + rewrite (check_extension_accepts σ exts E Hin). split; reflexivity.
    + rewrite (check_extension_rejects σ exts E Hin).
      rewrite (proj2 (Z.eqb_neq _ _) Hr). split; reflexivity.
  - rewrite (check_extension_unchecked σ E). split; reflexivity.
Qed.

Lemma quiet_finish_init : quiet finish_init.
Proof.
  intros σ Hr. unfold finish_init, bind, assign, is_master. cbn.
  rewrite (proj2 (Z.eqb_neq _ _) Hr). cbn.
  destruct (is_empty (self σ)); cbn; [split; reflexivity|].
  match goal with |- context [self_get_info_ ?τ] =>
    destruct (quiet_get_info τ Hr) as [Ho Hk]
  end.
  split; [exact Ho | exact Hk].
Qed.

Lemma quiet_init_body (kwargs : list (string * pyval)) : quiet (init_body kwargs).
Proof.
  unfold init_body, init_attributes.
  apply quiet_bind; [apply quiet_check_writable | intros _].
  apply quiet_bind; [apply quiet_check_extension | intros _].
  apply quiet_bind; [apply quiet_set_kwargs | intros _].
  apply quiet_bind; [apply quiet_resolve_all | intros _].
  apply quiet_finish_init.
Qed.

(** Only rank 0 speaks.  Whatever the format, the file, the configuration
    and the keywords, and whether the construction returns, exits or raises,
    a constructor run on a rank other than 0 hands nothing to the logger. *)
Theorem workers_log_nothing (c : Format) (fname : string) (p : Params)
    (empty : bool) (kwargs : list (string * pyval)) (rk : Z) :
  rk ≠ 0 -> (__init__ c fname p empty kwargs rk).2.2 = [].
Proof.
  intros Hrk. unfold __init__. case_bool_decide; [reflexivity|].
  destruct (quiet_init_body kwargs (fresh c fname p empty rk) Hrk) as [Ho _].
  unfold constructed.
  destruct (init_body kwargs (fresh c fname p empty rk)) as [[e|u] σ'];
    cbn [fst snd] in *; exact Ho.
Qed.

Lemma workers_log_nothing_witness :
  (__init__ raw_binary "rec/data.dat" params_20kHz false shape_1000x5 3).2.2 = []
  /\ (__init__ raw_binary "rec/data.txt" params_20kHz false shape_1000x5 3).1
     = inl (SystemExit 0)
  /\ (__init__ raw_binary "rec/data.txt" params_20kHz false shape_1000x5 3).2.2 = [].
Proof.
  split; [|split].
  - apply (workers_log_nothing raw_binary "rec/data.dat" params_20kHz false
             shape_1000x5 3). discriminate.
  - vm_compute. reflexivity.
  - apply (workers_log_nothing raw_binary "rec/data.txt" params_20kHz false
             shape_1000x5 3). discriminate.
Defined.

(** ** The constructor gives every rank the same object *)

Lemma same_object_refl (σ : State) : same_object σ σ.
Proof. split; reflexivity. Qed.

Lemma blind_ret {A} (a : A) : rank_blind (ret a).
Proof. intros σ σ' H. split; [reflexivity | exact H]. Qed.

Lemma blind_raise {A} (e : exn) : rank_blind (@raise A e).
Proof. intros σ σ' H. split; [reflexivity | exact H]. Qed.

Lemma blind_lift {A} (r : exn + A) : rank_blind (lift r).
Proof. intros σ σ' H. split; [reflexivity | exact H]. Qed.

Lemma blind_bind {A B} (c : M A) (k : A -> M B) :
  rank_blind c -> (forall a, rank_blind (k a)) -> rank_blind (bind c k).
Proof.
  intros Hc Hk σ σ' H. unfold bind. destruct (Hc σ σ' H) as [H1 H2].
  destruct (c σ) as [[e|a] σ1], (c σ') as [[e'|a'] σ1']; cbn [fst snd] in *;
    try discriminate H1.
  - injection H1 as ->. split; [reflexivity | exact H2].
  - injection H1 as ->. now apply Hk.
Qed.

Lemma blind_gated {A} (c : M unit) (k : M A) :
  only_logs c -> rank_blind k ->
  rank_blind (do master <- is_master ; do _ <- when master c ; k).
Proof.
  intros Hc Hk σ σ' H. unfold bind, is_master.
  assert (Hwhen : forall τ b, exists τ', when b c τ = (inr tt, τ') /\ same_object τ' τ).
  { intros τ [|]; cbn [when].
    - destruct (Hc τ) as [H1 H2]. destruct (c τ) as [r τ']. cbn in H1, H2.
      subst r. now exists τ'.
    - exists τ. split; [reflexivity | apply same_object_refl]. }
  destruct (Hwhen σ (rank σ =? 0)) as (τ & -> & [Hs Hc1]).
  destruct (Hwhen σ' (rank σ' =? 0)) as (τ' & -> & [Hs' Hc1']).
  apply Hk. destruct H as [H1 H2]. split; congruence.
Qed.

Lemma blind_assign (name : string) (v : pyval) : rank_blind (assign name v).
Proof.
  intros σ σ' [Hs Hc]. split; [reflexivity|]. split; cbn; [now rewrite Hs | exact Hc].
Qed.

Lemma blind_setattr (name : string) (v : pyval) : rank_blind (__setattr__ name v).
Proof.
  intros σ σ' H. unfold __setattr__. destruct H as [Hs Hc]. rewrite Hs.
  destruct (lookup_attr (self σ') "__setattr__"); [split; [reflexivity | now split]|].
  unfold object_setattr.
  repeat case_bool_decide;
    first [ apply blind_raise; now split | apply blind_assign; now split ].
Qed.

Lemma blind_get_info : rank_blind self_get_info_.
Proof.
  intros σ σ' H. unfold self_get_info_. destruct H as [Hs Hc]. rewrite Hs.
  destruct (lookup_attr (self σ') "_get_info_"); split; try reflexivity; now split.
Qed.

Lemma blind_hasattr (name : string) : rank_blind (hasattr name).
Proof.
  intros σ σ' H. unfold hasattr. cbn. destruct H as [Hs Hc]. rewrite Hs.
  split; [reflexivity | now split].
Qed.

Lemma blind_local {A} (name : string) (v : option A) : rank_blind (local name v).
Proof. destruct v; [apply blind_ret | apply blind_raise]. Qed.

Lemma blind_getint (section key : string) : rank_blind (params_getint section key).
Proof.
  intros σ σ' [Hs Hc]. unfold params_getint. cbn. rewrite Hs.
  split; [reflexivity|]. split; cbn; [exact Hs | now rewrite Hc].
Qed.

Lemma blind_getfloat (section key : string) : rank_blind (params_getfloat section key).
Proof.
  intros σ σ' [Hs Hc]. unfold params_getfloat. cbn. rewrite Hs.
  split; [reflexivity|]. split; cbn; [exact Hs | now rewrite Hc].
Qed.

Lemma two_values_only_log (t : string) (a b : pyval) (level : string) :
  percent t [a; b] = inr (Formatted t [a; b]) ->
  only_logs (do line <- lift (percent t [a; b]) ; print_and_log [line] level).
Proof. intros H σ. unfold bind, lift. rewrite H. split; [reflexivity | now split]. Qed.

Ltac blind_step :=
  first [ apply blind_gated; [apply two_values_only_log; reflexivity|]
        | apply blind_bind; [|intros ?] | apply blind_ret
        | apply blind_raise | apply blind_lift | apply blind_assign
        | apply blind_setattr | apply blind_hasattr | apply blind_local
        | apply blind_getint | apply blind_getfloat
        | match goal with |- rank_blind (if ?b then _ else _) => destruct b end ].

Lemma blind_set_kwargs (kwargs : list (string * pyval)) : rank_blind (set_kwargs kwargs).
Proof.
  induction kwargs as [|[k v] rest IH]; cbn [set_kwargs]; [apply blind_ret|].
  apply blind_bind; [apply blind_setattr | intros _; exact IH].
Qed.

Lemma blind_resolve (key : string) (value : string * string * string)
    (to_be_set : option pyval) : rank_blind (resolve key value to_be_set).
Proof.
  destruct value as [[section option] type]. unfold resolve.
  repeat blind_step.
Qed.

Lemma blind_resolve_all (l : list (string * (string * string * string)))
    (to_be_set : option pyval) : rank_blind (resolve_all l to_be_set).
Proof.
  revert to_be_set. induction l as [|[key value] l IH]; intros to_be_set;
    cbn [resolve_all]; [apply blind_ret|].
  apply blind_bind; [apply blind_resolve | intros a; apply IH].
Qed.

(** The creation line can always be built: the class has a description. *)
Lemma creation_only_logs (fname : string) :
  only_logs (do description <- getattr "_description" ;
             do line <- lift (percent "The datafile %s with type %s has been created"
                                      [VStr fname; description]) ;
             print_and_log [line] "debug").
Proof.
  intros σ. unfold bind, getattr.
  assert (Hd : exists d, lookup_attr (self σ) "_description" = Some d).
  { unfold lookup_attr. destruct (__dict__ (self σ) !! "_description"); [eauto|].
    rewrite class_dict_description. eauto. }
  destruct Hd as [d ->]. cbn. split; [reflexivity | now split].
Qed.

Lemma blind_finish_body (fname : string) (empty : bool) :
  rank_blind (do _ <- assign "_N_t" VNone ;
              do _ <- assign "_dist_peaks" VNone ;
              do _ <- assign "_template_shift" VNone ;
              do _ <- assign "_safety_time" VNone ;
              do master <- is_master ;
              do _ <- when master
                (do description <- getattr "_description" ;
                 do line <- lift (percent "The datafile %s with type %s has been created"
                                       [VStr fname; description]) ;
                 print_and_log [line] "debug") ;
              when (negb empty) self_get_info_).
Proof.
  do 4 (apply blind_bind; [apply blind_assign | intros _]).
  apply blind_gated; [apply creation_only_logs|].
  destruct empty; [apply blind_ret | apply blind_get_info].
Qed.

Lemma blind_finish_init : rank_blind finish_init.
Proof.
  intros σ σ' H. unfold finish_init. destruct H as [Hs Hc]. rewrite Hs.
  exact (blind_finish_body (file_name (self σ')) (is_empty (self σ')) σ σ'
           (conj Hs Hc)).
Qed.

Lemma blind_init_attributes (kwargs : list (string * pyval)) :
  rank_blind (init_attributes kwargs).
Proof.
  unfold init_attributes.
  apply blind_bind; [apply blind_set_kwargs | intros _].
  apply blind_bind; [apply blind_resolve_all | intros _].
  apply blind_finish_init.
Qed.

Lemma check_extension_blind (c : Format) (fname : string) (p : Params)
    (empty : bool) (rk rk' : Z) :
  (check_extension (fresh c fname p empty rk)).1
  = (check_extension (fresh c fname p empty rk')).1
  /\ same_object (check_extension (fresh c fname p empty rk)).2
                 (check_extension (fresh c fname p empty rk')).2.
Proof.
  destruct (_extension c) as [exts|] eqn:E.
  - destruct (decide ((splitext fname).2 ∈ (exts ++ (upper <$> exts))%list)) as [Hin|Hin].
    + rewrite (check_extension_accepts (fresh c fname p empty rk) exts E Hin).
      rewrite (check_extension_accepts (fresh c fname p empty rk') exts E Hin).
      split; [reflexivity | now split].
    + rewrite (check_extension_rejects (fresh c fname p empty rk) exts E Hin).
      rewrite (check_extension_rejects (fresh c fname p empty rk') exts E Hin).
      cbn. destruct (rk =? 0), (rk' =? 0); split; try reflexivity; now split.
  - rewrite (check_extension_unchecked (fresh c fname p empty rk) E).
    rewrite (check_extension_unchecked (fresh c fname p empty rk') E).
    split; [reflexivity | now split].
Qed.

(** Every rank builds the same object.  Unless the file is empty and the
    format not writable, the outcome of a construction (the object with all
    its attributes, or the exception) and the calls the resolver received, in
    their order, are the same on every rank: the rank decides what is logged
    and nothing else. *)
Theorem construction_is_rank_independent (c : Format) (fname : string)
    (p : Params) (empty : bool) (kwargs : list (string * pyval)) (rk rk' : Z) :
  empty && negb (_is_writable c) = false ->
  (__init__ c fname p empty kwargs rk).1 = (__init__ c fname p empty kwargs rk').1
  /\ (__init__ c fname p empty kwargs rk).2.1
     = (__init__ c fname p empty kwargs rk').2.1.
Proof.
  intros Hw. unfold __init__. case_bool_decide; [split; reflexivity|].
  unfold init_body, bind.
  rewrite (check_writable_passes (fresh c fname p empty rk)) by exact Hw.
  rewrite (check_writable_passes (fresh c fname p empty rk')) by exact Hw.
  destruct (check_extension_blind c fname p empty rk rk') as [H1 H2].
  destruct (check_extension (fresh c fname p empty rk)) as [[e|u] σ1],
           (check_extension (fresh c fname p empty rk')) as [[e'|u'] σ1'];
    cbn [fst snd] in H1, H2; try discriminate H1.
  - injection H1 as ->. destruct H2 as [_ H2]. cbn. now rewrite H2.
  - destruct (blind_init_attributes kwargs σ1 σ1' H2) as [H3 [H4 H5]].
    destruct (init_attributes kwargs σ1) as [[e|v] σ2],
             (init_attributes kwargs σ1') as [[e'|v'] σ2'];
      cbn [fst snd] in H3, H4, H5; try discriminate H3; cbn.
    + injection H3 as ->. now rewrite H5.
    + now rewrite H4, H5.
Qed.

Lemma construction_is_rank_independent_witness :
  (__init__ raw_binary "rec/data.dat" params_20kHz false shape_1000x5 7).1
  = inr (handle_of params_20kHz)
  /\ (__init__ raw_binary "rec/data.dat" params_20kHz false shape_1000x5 7).2.1
     = [GetFloat "data" "sampling_rate"; GetInt "data" "N_e"; GetInt "data" "N_total"].
Proof.
  destruct (construction_is_rank_independent raw_binary "rec/data.dat" params_20kHz
              false shape_1000x5 7 0 eq_refl) as [H1 H2].
  split.
  - rewrite H1. vm_compute. reflexivity.
  - rewrite H2. vm_compute. reflexivity.
Defined.

(** ** What rank 0 logs *)

Lemma set_kwargs_returns (kwargs : list (string * pyval)) (σ σ' : State) (u : unit) :
  set_kwargs kwargs σ = (inr u, σ') -> σ' = with_dict (update_all kwargs) σ.
Proof.
  revert σ. induction kwargs as [|[k v] rest IH]; intros σ.
  - cbn. intros [= _ <-]. now rewrite with_dict_id.
  - cbn [set_kwargs]. unfold bind.
    destruct (setattr_outcome k v σ) as [[e ->]| ->]; [discriminate|].
    intros Hres. now rewrite (IH _ Hres).
Qed.

(** The loop on rank 0: one line per entry, in the order of the entries. *)
Lemma resolve_all_log (l : list (string * (string * string * string)))
    (was : string -> option pyval) :
  (forall kv, kv ∈ l -> kv ∈ requiered_values) ->
  NoDup l.*1 ->
  forall (to_be_set : option pyval) (σ σ' : State) (u : unit),
    rank σ = 0 ->
    (forall kv, kv ∈ l -> lookup_attr (self σ) kv.1 = was kv.1) ->
    resolve_all l to_be_set σ = (inr u, σ') ->
    file_name (self σ') = file_name (self σ)
    /\ exists notes,
         out σ' = (out σ ++ notes)%list
         /\ Forall2 (fun kv ev => kv ∈ requiered_values
                                   /\ logged_for (was kv.1) (self σ') kv ev) l notes.
Proof.
  induction l as [|[key value] l IH]; intros Hsub Hnd to_be_set σ σ' u Hrank Hwas.
  - cbn. intros [= _ <-]. split; [reflexivity|]. exists [].
    split; [now rewrite app_nil_r | constructor].
  - assert (Hin : (key, value) ∈ requiered_values) by (apply Hsub, list_elem_of_here).
    assert (Hsub' : forall kv, kv ∈ l -> kv ∈ requiered_values)
      by (intros kv Hkv; apply Hsub; now apply list_elem_of_further).
    cbn in Hnd. apply NoDup_cons in Hnd as [Hkey Hnd].
    specialize (IH Hsub' Hnd).
    pose proof (Hwas (key, value) ltac:(apply list_elem_of_here)) as Hhead.
    cbn [fst] in Hhead.
    cbn [resolve_all]. unfold bind. rewrite (resolve_spec key value to_be_set σ Hin).
    unfold note. cbn [rank with_dict with_call]. rewrite Hrank. cbn [Z.eqb].
    destruct (lookup_attr (self σ) key) as [v0|] eqn:Hlk.
    + intros Hres.
      match type of Hres with resolve_all _ _ ?τ = _ =>
        assert (Hrank' : rank τ = 0) by exact Hrank;
        assert (Hwas' : forall kv, kv ∈ l -> lookup_attr (self τ) kv.1 = was kv.1)
          by (intros kv Hkv; apply Hwas; now apply list_elem_of_further)
      end.
      destruct (IH _ _ _ _ Hrank' Hwas' Hres) as (Hf & notes & Hout & Hnotes).
      split; [exact Hf|]. eexists (_ :: notes). split.
      * rewrite Hout. cbn [out with_event]. now rewrite <- app_assoc.
      * constructor; [|exact Hnotes]. split; [exact Hin|].
        cbn [fst snd]. rewrite <- Hhead. reflexivity.
    + destruct (typed_lookup (params (self σ)) value) as [e|v] eqn:Htl;
        [discriminate|].
      destruct (lookup_attr (self σ) "__setattr__") as [shadow|]; [discriminate|].
      intros Hres.
      match type of Hres with resolve_all _ _ ?τ = _ =>
        assert (Hrank' : rank τ = 0) by exact Hrank;
        assert (Hwas' : forall kv, kv ∈ l -> lookup_attr (self τ) kv.1 = was kv.1)
      end.
      { intros kv Hkv. rewrite <- (Hwas kv) by now apply list_elem_of_further.
        cbn [self with_event]. rewrite lookup_attr_assign_ne; [reflexivity|].
        intros Heq. apply Hkey. rewrite Heq. apply list_elem_of_fmap. now exists kv. }
      destruct (IH _ _ _ _ Hrank' Hwas' Hres) as (Hf & notes & Hout & Hnotes).
      split; [exact Hf|]. eexists (_ :: notes). split.
      * rewrite Hout. cbn [out with_event with_dict with_call].
        now rewrite <- app_assoc.
      * constructor; [|exact Hnotes]. split; [exact Hin|].
        cbn [fst snd]. rewrite <- Hhead.
        exists v. split; [|reflexivity].
        match type of Hres with resolve_all _ _ ?τ = _ =>
          pose proof (resolve_all_spec l Hsub' Hnd (Some v) τ) as Hspec
        end.
        cbn zeta in Hspec. rewrite Hres in Hspec. cbn [fst snd] in Hspec.
        destruct Hspec as (_ & Hframe & _). cbn [fst snd].
        rewrite (Hframe key Hkey).
        cbn [self with_event]. apply lookup_attr_assign_eq.
Qed.

Lemma get_info_state (b : bool) (σ : State) : (when b self_get_info_ σ).2 = σ.
Proof.
  destruct b; [|reflexivity]. unfold when, self_get_info_.
  destruct (lookup_attr (self σ) "_get_info_"); reflexivity.
Qed.

Lemma finish_init_log (σ : State) :
  rank σ = 0 ->
  exists d r σ',
    finish_init σ = (r, σ')
    /\ lookup_attr (self σ') "_description" = Some d
    /\ out σ' = (out σ ++ [created (file_name (self σ)) d])%list
    /\ forall k, k ∉ ["_N_t"; "_dist_peaks"; "_template_shift"; "_safety_time"] ->
         lookup_attr (self σ') k = lookup_attr (self σ) k.
Proof.
  intros Hrank. unfold finish_init, bind.
  unfold assign at 1 2 3 4. unfold is_master.
  set (σc := with_dict <["_safety_time" := VNone]> _).
  assert (Hframe : forall k, k ∉ ["_N_t"; "_dist_peaks"; "_template_shift"; "_safety_time"] ->
            lookup_attr (self σc) k = lookup_attr (self σ) k).
  { intros k Hk. subst σc.
    repeat (rewrite lookup_attr_assign_ne;
            [|intros <-; apply Hk; repeat constructor]).
    reflexivity. }
  assert (Hd : exists d, lookup_attr (self σc) "_description" = Some d).
  { unfold lookup_attr. destruct (__dict__ (self σc) !! "_description"); [eauto|].
    rewrite class_dict_description. eauto. }
  destruct Hd as [d Hd]. exists d.
  set (tail := when (negb (is_empty (self σ))) self_get_info_).
  assert (Hrc : rank σc = 0) by exact Hrank. rewrite Hrc. cbn [Z.eqb when].
  unfold bind, getattr. rewrite Hd. unfold lift, print_and_log.
  assert (Hline : percent "The datafile %s with type %s has been created"
                          [VStr (file_name (self σ)); d]
                  = inr (Formatted "The datafile %s with type %s has been created"
                                   [VStr (file_name (self σ)); d])) by reflexivity.
  rewrite Hline.
  match goal with |- context [tail ?τ] =>
    pose proof (get_info_state (negb (is_empty (self σ))) τ) as Hstate;
    fold tail in Hstate;
    destruct (tail τ) as [r σ']
  end.
  cbn [snd] in Hstate. subst σ'. eexists r, _. split; [reflexivity|].
  cbn. split; [exact Hd|]. split; [reflexivity | exact Hframe].
Qed.

(** What a construction leaves in the log of rank 0.  A construction that
    returns on rank 0 has logged, at level [debug] and in this order, one line
    for each of [rate], [N_e] and [N_tot], then the creation line with the
    file name and the description, and no error.  The line of a field that
    was read from the configuration carries the value the object now holds;
    the line of a field that was already set (by a keyword or by the class)
    carries not its value but the section, option and type the constructor
    would have looked up. *)
Theorem master_log_of_a_construction (c : Format) (fname : string) (p : Params)
    (empty : bool) (kwargs : list (string * pyval)) (o : DataFile) :
  (__init__ c fname p empty kwargs 0).1 = inr o ->
  exists notes d,
    (__init__ c fname p empty kwargs 0).2.2 = (notes ++ [created fname d])%list
    /\ lookup_attr o "_description" = Some d
    /\ Forall2 (fun kv ev => logged_for (preset c kwargs kv.1) o kv ev)
               requiered_values notes.
Proof.
  unfold __init__. case_bool_decide; [discriminate|].
  unfold init_body, bind.
  set (σ0 := fresh c fname p empty 0).
  destruct (is_empty (self σ0) && negb (_is_writable (cls (self σ0)))) eqn:Ew.
  { rewrite (check_writable_master σ0 Ew eq_refl). discriminate. }
  rewrite (check_writable_passes σ0 Ew).
  assert (Hce : check_extension σ0 = (inr tt, σ0)
                \/ exists σ1, check_extension σ0 = (inl (SystemExit 0), σ1)).
  { destruct (_extension (cls (self σ0))) as [exts|] eqn:E.
    - destruct (decide ((splitext (file_name (self σ0))).2
                        ∈ (exts ++ (upper <$> exts))%list)) as [Hin|Hin].
      + left. apply (check_extension_accepts σ0 exts E Hin).
      + right. rewrite (check_extension_rejects σ0 exts E Hin). eauto.
    - left. apply (check_extension_unchecked σ0 E). }
  destruct Hce as [->|[σ1 ->]]; [|discriminate].
  unfold init_attributes, bind.
  destruct (set_kwargs kwargs σ0) as [[e|u] σk] eqn:Hk; [discriminate|].
  apply set_kwargs_returns in Hk. subst σk.
  destruct (resolve_all requiered_values None (with_dict (update_all kwargs) σ0))
    as [[e|u'] σr] eqn:Hr; [discriminate|].
  pose proof (resolve_all_spec requiered_values (fun _ Hin => Hin)
                requiered_values_NoDup None (with_dict (update_all kwargs) σ0)) as Hspec.
  cbn zeta in Hspec. rewrite Hr in Hspec. cbn [fst snd] in Hspec.
  destruct Hspec as (Hrank & _).
  destruct (resolve_all_log requiered_values (preset c kwargs) (fun _ Hin => Hin)
              requiered_values_NoDup None (with_dict (update_all kwargs) σ0) σr u'
              eq_refl (fun _ _ => eq_refl) Hr)
    as (Hfile & notes & Hout & Hnotes).
  destruct (finish_init_log σr Hrank) as (d & res & σ' & -> & Hd & Hout' & Hframe).
  destruct res as [e|u'']; [discriminate|].
  cbn [constructed fst snd]. intros [= <-].
  exists notes, d. split; [|split].
  - rewrite Hout', Hout, Hfile. reflexivity.
  - exact Hd.
  - eapply Forall2_impl; [exact Hnotes|].
    intros [key value] ev [Hin Hev]. revert Hev. unfold logged_for.
    destruct (preset c kwargs (key, value).1); [auto|].
    intros (v & Hv & ->). exists v. split; [|reflexivity].
    rewrite <- Hv. apply Hframe. apply (required_not_cache key value Hin).
Qed.

Lemma master_log_of_a_construction_witness :
  exists notes d,
    (__init__ raw_binary "rec/data.dat" params_20kHz false
       (("rate", VFloat 20000) :: shape_1000x5) 0).2.2
    = (notes ++ [created "rec/data.dat" d])%list
    /\ lookup_attr (handle_of params_20kHz) "_description" = Some d
    /\ Forall2 (fun kv ev =>
                  logged_for (preset raw_binary (("rate", VFloat 20000) :: shape_1000x5) kv.1)
                             (handle_of params_20kHz) kv ev)
               requiered_values notes.
Proof.
  apply (master_log_of_a_construction raw_binary "rec/data.dat" params_20kHz false
           (("rate", VFloat 20000) :: shape_1000x5) (handle_of params_20kHz)).
  vm_compute. reflexivity.
Defined.

Example master_log_example :
  (__init__ raw_binary "rec/data.dat" params_20kHz false
     (("rate", VFloat 20000) :: shape_1000x5) 0).2.2
  = [Log [Formatted "%s is infered from the data file with a value of %s"
            [VStr "rate"; VTuple [VStr "data"; VStr "sampling_rate"; VStr "float"]]]
         "debug";
     Log [Formatted "%s is read from the params with a value of %s"
            [VStr "N_e"; VInt 4]] "debug";
     Log [Formatted "%s is read from the params with a value of %s"
            [VStr "N_tot"; VInt 5]] "debug";
     created "rec/data.dat" (VStr "raw_binary")].
Proof. vm_compute. reflexivity. Qed.

(** ** Keywords named like a property *)

Lemma set_kwargs_property (pre post : list (string * pyval)) (k : string)
    (v : pyval) (σ : State) :
  Forall (fun kv => kv.1 ∉ unassignable) pre ->
  "__setattr__" ∉ pre.*1 ->
  lookup_attr (self σ) "__setattr__" = None ->
  k ∈ properties ->
  set_kwargs (pre ++ (k, v) :: post) σ
  = (inl (AttributeError k), with_dict (update_all pre) σ).
Proof.
  intros Hpre Hkeys Hs Hk. revert σ Hkeys Hs.
  induction Hpre as [|[k0 v0] rest Hk0 _ IH]; intros σ Hkeys Hs.
  - cbn [app set_kwargs]. unfold bind, __setattr__, object_setattr.
    rewrite Hs. rewrite bool_decide_eq_true_2 by exact Hk. cbn.
    now rewrite with_dict_id.
  - cbn in Hkeys. apply not_elem_of_cons in Hkeys as [Hne Hkeys].
    cbn [app set_kwargs]. unfold bind.
    rewrite (setattr_ordinary k0 v0 σ Hk0 Hs). unfold assign.
    rewrite IH; [reflexivity | exact Hkeys |].
    rewrite lookup_attr_assign_ne by congruence. exact Hs.
Qed.

(** A keyword named like a property stops the construction.  The class
    declares [N_t], [dist_peaks], [template_shift], [shape], [max_offset] and
    [is_master] as properties without a setter, and the constructor copies
    every keyword with [self.__setattr__].  In a construction that passes the
    two checks (the listed extensions being ASCII), take the first keyword
    with such a name: if the keywords before it can be assigned and none of
    them, nor the class, stores a value under [__setattr__], it raises
    [AttributeError] for its name, before the resolver is asked anything and
    before anything is logged, on every rank. *)
Theorem property_keyword_is_refused (c : Format) (fname : string) (p : Params)
    (empty : bool) (pre post : list (string * pyval)) (k : string) (v : pyval)
    (rk : Z) :
  empty && negb (_is_writable c) = false ->
  match _extension c with
  | None => True
  | Some exts =>
      Forall (fun e => ascii_only e = true) exts
      /\ ((splitext fname).2 ∈ exts \/ (splitext fname).2 ∈ (upper <$> exts))
  end ->
  Forall (fun kv => kv.1 ∉ named_parameters) (pre ++ (k, v) :: post) ->
  Forall (fun kv => kv.1 ∉ unassignable) pre ->
  "__setattr__" ∉ pre.*1 ->
  class_dict c !! "__setattr__" = None ->
  k ∈ properties ->
  __init__ c fname p empty (pre ++ (k, v) :: post) rk
  = (inl (AttributeError k), ([], [])).
Proof.
  intros Hw Hascii Hnamed Hpre Hkeys Hclass Hk.
  assert (Hext : match _extension c with
                 | None => True
                 | Some exts => (splitext fname).2 ∈ exts
                                \/ (splitext fname).2 ∈ (upper <$> exts)
                 end)
    by (destruct (_extension c); [exact (proj2 Hascii) | exact I]).
  rewrite (init_after_checks c fname p empty _ rk Hw Hext Hnamed).
  unfold init_attributes, bind.
  rewrite (set_kwargs_property pre post k v _ Hpre Hkeys); [reflexivity | | exact Hk].
  apply lookup_attr_None. split; [reflexivity | exact Hclass].
Qed.

Lemma property_keyword_is_refused_witness :
  __init__ raw_binary "rec/data.dat" params_20kHz false
    [("N_e", VInt 4); ("shape", VTuple [VInt 1000; VInt 5]); ("rate", VFloat 20000)] 0
  = (inl (AttributeError "shape"), ([], [])).
Proof.
  apply (property_keyword_is_refused raw_binary "rec/data.dat" params_20kHz false
           [("N_e", VInt 4)] [("rate", VFloat 20000)] "shape"
           (VTuple [VInt 1000; VInt 5]) 0).
  - reflexivity.
  - split; [repeat constructor|]. left. vm_compute. apply list_elem_of_here.
  - repeat constructor; not_listed.
  - repeat constructor; not_listed.
  - not_listed.
  - reflexivity.
  - unfold properties. set_solver.
Defined.

(** A keyword stored under [__setattr__] is accepted, and the next keyword
    fails on it: the call of [self.__setattr__] then calls that value. *)
Example shadowed_setattr_example :
  (__init__ raw_binary "rec/data.dat" params_20kHz false
     [("__setattr__", VInt 5); ("shape", VTuple [VInt 1000; VInt 5])] 0).1
  = inl TypeError
  /\ (__init__ raw_binary "rec/data.dat" params_20kHz false
        [("_get_info_", VInt 5)] 0).1
     = inl TypeError
  /\ (__init__ raw_binary "rec/data.dat" params_20kHz false
        [("__class__", VInt 5)] 0).1
     = inl TypeError
  /\ (__init__ raw_binary "rec/data.dat" params_20kHz false
        [("__weakref__", VInt 5)] 0).1
     = inl (AttributeError "__weakref__").
Proof. vm_compute. repeat split; reflexivity. Qed.

(** ** [analyze]: the chunks cover the data *)



(** ** A tuple as a default *)

Lemma field_line_error (key : string) (values : string * pyval) (e : exn) :
  field_line key values = inl e -> e = TypeError.
Proof.
  destruct values as [ty default]. unfold field_line. cbn.
  destruct default as [| | | | |l]; cbn; try discriminate.
  destruct l as [|a [|b l]]; cbn; [intros [= <-]; reflexivity | discriminate
                                   | intros [= <-]; reflexivity].
Qed.

Lemma field_line_tuple (key ty : string) (l : list pyval) :
  length l ≠ 1%nat -> field_line key (ty, VTuple l) = inl TypeError.
Proof.
  intros Hl. unfold field_line. cbn.
  destruct l as [|a [|b l]]; cbn; [reflexivity | now elim Hl | reflexivity].
Qed.

Lemma field_lines_tuple (fields : Fields) (key ty : string) (l : list pyval) :
  (key, (ty, VTuple l)) ∈ fields ->
  length l ≠ 1%nat ->
  field_lines fields = inl TypeError.
Proof.
  intros Hin Hl. induction fields as [|[k values] rest IH]; [inversion Hin|].
  cbn [field_lines]. apply elem_of_cons in Hin as [[= <- <-]|Hin].
  - now rewrite field_line_tuple.
  - destruct (field_line k values) as [e|line] eqn:E.
    + now rewrite (field_line_error _ _ _ E).
    + now rewrite IH.
Qed.

(** A default that is a tuple hides the report.  [' [default is %s]' % default]
    takes a tuple as the list of its arguments, so a field whose default is a
    tuple that has not exactly one element makes [_display_requierements_]
    raise [TypeError] instead of listing the parameters.  With such a field
    declared, [_check_requierements_] never prints anything: a lookup that
    fails ends in that [TypeError], raised from inside the handler, and not in
    the message and [sys.exit(0)]. *)
Theorem tuple_default_hides_the_report (description : string) (fields : Fields)
    (params : FullParams) (kwargs : gmap string pyval) (key ty : string)
    (l : list pyval) :
  (key, (ty, VTuple l)) ∈ fields ->
  length l ≠ 1%nat ->
  _display_requierements_ description params fields = inl TypeError
  /\ (_check_requierements_ description fields params kwargs).2 = []
  /\ forall e, (_check_requierements_ description fields params kwargs).1 = inl e ->
               e = TypeError \/ is_Exception e = false.
Proof.
  intros Hin Hl.
  assert (Hshow : _display_requierements_ description params fields = inl TypeError).
  { unfold _display_requierements_. cbn -[field_lines].
    now rewrite (field_lines_tuple fields key ty l Hin Hl). }
  split; [exact Hshow|]. unfold _check_requierements_.
  destruct (check_loop description fields fields params kwargs) as [[e|res] out] eqn:H.
  - destruct (check_loop_fails _ _ _ _ _ _ _ H) as (k & value & e0 & _ & _ & Hcase).
    rewrite Hshow in Hcase. destruct (is_Exception e0) eqn:He0.
    + destruct Hcase as [-> ->]. split; [reflexivity|]. intros e' [= <-]. now left.
    + destruct Hcase as [-> ->]. split; [reflexivity|]. intros e' [= <-]. now right.
  - split; [|discriminate].
    destruct (check_loop_returns _ _ _ _ _ _ _ H) as [Hout _]. exact Hout.
Qed.

Lemma tuple_default_hides_the_report_witness :
  _display_requierements_ "raw_binary" params_raw
    [("data_dtype", ("string", VNone)); ("padding", ("int", VTuple [VInt 0; VInt 0]))]
  = inl TypeError
  /\ _check_requierements_ "raw_binary"
       [("data_dtype", ("string", VNone)); ("padding", ("int", VTuple [VInt 0; VInt 0]))]
       (table_full_params [] [] [] []) ∅
     = (inl TypeError, []).
Proof.
  split.
  - apply (proj1 (tuple_default_hides_the_report "raw_binary"
                    [("data_dtype", ("string", VNone));
                     ("padding", ("int", VTuple [VInt 0; VInt 0]))]
                    params_raw ∅ "padding" "int" [VInt 0; VInt 0]
                    ltac:(set_solver) ltac:(discriminate))).
  - vm_compute. reflexivity.
Defined.

(** ** The attributes of a constructed object *)

Lemma same_fields_refl (o : DataFile) : same_fields o o.
Proof. repeat split. Qed.

Lemma only_ret {A} (names : list string) (a : A) : changes_only names (ret a).
Proof. intros σ. split; [apply same_fields_refl | reflexivity]. Qed.

Lemma only_raise {A} (names : list string) (e : exn) : changes_only names (@raise A e).
Proof. intros σ. split; [apply same_fields_refl | reflexivity]. Qed.

Lemma only_lift {A} (names : list string) (r : exn + A) : changes_only names (lift r).
Proof. intros σ. split; [apply same_fields_refl | reflexivity]. Qed.

Lemma only_bind {A B} (names : list string) (c : M A) (k : A -> M B) :
  changes_only names c -> (forall a, changes_only names (k a)) ->
  changes_only names (bind c k).
Proof.
  intros Hc Hk σ. unfold bind. destruct (Hc σ) as [Hf Hd].
  destruct (c σ) as [[e|a] σ1]; cbn [fst snd] in *; [now split|].
  destruct (Hk a σ1) as [Hf' Hd'].
  destruct Hf as (H1 & H2 & H3 & H4), Hf' as (H1' & H2' & H3' & H4').
  split; [repeat split; congruence|].
  intros k0 Hk0. rewrite (Hd' k0 Hk0). now apply Hd.
Qed.

Lemma only_assign (names : list string) (name : string) (v : pyval) :
  name ∈ names -> changes_only names (assign name v).
Proof.
  intros Hin σ. split; [repeat split|]. intros k Hk. cbn.
  apply lookup_insert_ne. intros ->. now apply Hk.
Qed.

Lemma only_setattr (names : list string) (name : string) (v : pyval) :
  name ∈ names -> changes_only names (__setattr__ name v).
Proof.
  intros Hin σ. destruct (setattr_outcome name v σ) as [[e ->]| ->].
  - split; [apply same_fields_refl | reflexivity].
  - apply (only_assign names name v Hin σ).
Qed.

Lemma only_reads {A} (names : list string) (c : M A) :
  (forall σ, self (c σ).2 = self σ) -> changes_only names c.
Proof.
  intros H σ. rewrite H. split; [apply same_fields_refl | reflexivity].
Qed.

Lemma only_when (names : list string) (b : bool) (c : M unit) :
  changes_only names c -> changes_only names (when b c).
Proof. intros H. destruct b; [exact H | apply only_ret]. Qed.

Lemma only_local {A} (names : list string) (name : string) (v : option A) :
  changes_only names (local name v).
Proof. destruct v; [apply only_ret | apply only_raise]. Qed.

Ltac only_step :=
  first [ apply only_bind; [|intros ?] | apply only_ret | apply only_raise
        | apply only_lift | apply only_when | apply only_local
        | apply only_reads; intros ?; reflexivity
        | match goal with |- changes_only _ (if ?b then _ else _) => destruct b end ].

Lemma only_resolve (key : string) (value : string * string * string)
    (to_be_set : option pyval) :
  (key, value) ∈ requiered_values ->
  changes_only set_by_init (resolve key value to_be_set).
Proof.
  intros Hin.
  assert (Hkey : key ∈ set_by_init)
    by (required_cases Hin; unfold set_by_init; set_solver).
  destruct value as [[section option] type]. unfold resolve.
  repeat first [ apply only_setattr; exact Hkey | only_step ].
Qed.

Lemma only_resolve_all (l : list (string * (string * string * string)))
    (to_be_set : option pyval) :
  (forall kv, kv ∈ l -> kv ∈ requiered_values) ->
  changes_only set_by_init (resolve_all l to_be_set).
Proof.
  revert to_be_set. induction l as [|[key value] l IH]; intros to_be_set Hsub;
    cbn [resolve_all]; [apply only_ret|].
  apply only_bind.
  - apply only_resolve. apply Hsub, list_elem_of_here.
  - intros a. apply IH. intros kv Hkv. apply Hsub. now apply list_elem_of_further.
Qed.

Lemma only_get_info (names : list string) : changes_only names self_get_info_.
Proof.
  intros σ. unfold self_get_info_.
  destruct (lookup_attr (self σ) "_get_info_");
    (split; [apply same_fields_refl | reflexivity]).
Qed.

Lemma only_finish_body (fname : string) (empty : bool) :
  changes_only set_by_init
    (do _ <- assign "_N_t" VNone ;
     do _ <- assign "_dist_peaks" VNone ;
     do _ <- assign "_template_shift" VNone ;
     do _ <- assign "_safety_time" VNone ;
     do master <- is_master ;
     do _ <- when master
       (do description <- getattr "_description" ;
        do line <- lift (percent "The datafile %s with type %s has been created"
                              [VStr fname; description]) ;
        print_and_log [line] "debug") ;
     when (negb empty) self_get_info_).
Proof.
  do 4 (apply only_bind; [apply only_assign; unfold set_by_init; set_solver | intros _]).
  apply only_bind; [apply only_reads; intros ?; reflexivity | intros master].
  apply only_bind; [|intros _; apply only_when, only_get_info].
  apply only_when. apply only_bind; [|intros description].
  - apply only_reads. intros σ. unfold getattr.
    destruct (lookup_attr (self σ) "_description"); reflexivity.
  - apply only_bind; [apply only_lift | intros line].
    apply only_reads. intros σ. reflexivity.
Qed.

Lemma only_finish_init : changes_only set_by_init finish_init.
Proof.
  intros σ. unfold finish_init.
  exact (only_finish_body (file_name (self σ)) (is_empty (self σ)) σ).
Qed.

(** A construction that returns went through the loop and the resets. *)
Lemma construction_returns (c : Format) (fname : string) (p : Params)
    (empty : bool) (kwargs : list (string * pyval)) (rk : Z) (o : DataFile) :
  (__init__ c fname p empty kwargs rk).1 = inr o ->
  exists σr σ',
    resolve_all requiered_values None
      (with_dict (update_all kwargs) (fresh c fname p empty rk)) = (inr tt, σr)
    /\ finish_init σr = (inr tt, σ')
    /\ o = self σ'.
Proof.
  unfold __init__. case_bool_decide; [discriminate|].
  unfold init_body, bind.
  set (σ0 := fresh c fname p empty rk).
  destruct (is_empty (self σ0) && negb (_is_writable (cls (self σ0)))) eqn:Ew.
  { destruct (Z.eq_dec (rank σ0) 0) as [E0|E0].
    - rewrite (check_writable_master σ0 Ew E0). discriminate.
    - rewrite (check_writable_worker σ0 Ew E0). discriminate. }
  rewrite (check_writable_passes σ0 Ew).
  assert (Hce : check_extension σ0 = (inr tt, σ0)
                \/ exists σ1, check_extension σ0 = (inl (SystemExit 0), σ1)).
  { destruct (_extension (cls (self σ0))) as [exts|] eqn:E.
    - destruct (decide ((splitext (file_name (self σ0))).2
                        ∈ (exts ++ (upper <$> exts))%list)) as [Hin|Hin].
      + left. apply (check_extension_accepts σ0 exts E Hin).
      + right. rewrite (check_extension_rejects σ0 exts E Hin). eauto.
    - left. apply (check_extension_unchecked σ0 E). }
  destruct Hce as [->|[σ1 ->]]; [|discriminate].
  unfold init_attributes, bind.
  destruct (set_kwargs kwargs σ0) as [[e|u] σk] eqn:Hk; [discriminate|].
  apply set_kwargs_returns in Hk. subst σk.
  destruct (resolve_all requiered_values None (with_dict (update_all kwargs) σ0))
    as [[e|[]] σr] eqn:Hr; [discriminate|].
  destruct (finish_init_spec σr) as (res & σ' & Hfin & _).
  rewrite Hfin. destruct res as [e|[]]; [discriminate|].
  cbn [constructed fst]. intros [= <-].
  exists σr, σ'. auto.
Qed.

Lemma class_dict_shape (c : Format) :
  class_dict c !! "_shape" = Some (VTuple [VInt (_shape c).1; VInt (_shape c).2]).
Proof.
  unfold class_dict. repeat (rewrite lookup_insert_ne by discriminate).
  apply lookup_insert_eq.
Qed.

Lemma class_dict_max_offset (c : Format) :
  class_dict c !! "_max_offset" = Some (VInt (_max_offset c)).
Proof.
  unfold class_dict. repeat (rewrite lookup_insert_ne by discriminate).
  apply lookup_insert_eq.
Qed.

(** What the constructor leaves on the object.  A constructed object is of
    the class it was built from and is bound to the file name, the emptiness
    flag and the resolver it was given (lines 89-91).  Besides those three,
    its instance dictionary holds the required fields and the four caches,
    and otherwise exactly the keywords, each with the value passed last:
    the constructor writes nothing else.  In particular [shape] and
    [max_offset] return the keywords [_shape] and [_max_offset] if they were
    passed and the class's values if not: [_get_info_] fills nothing in. *)
Theorem attributes_after_construction (c : Format) (fname : string) (p : Params)
    (empty : bool) (kwargs : list (string * pyval)) (rk : Z) (o : DataFile) :
  (__init__ c fname p empty kwargs rk).1 = inr o ->
  (cls o = c /\ file_name o = fname /\ is_empty o = empty /\ params o = p)
  /\ (forall k, k ∉ ["file_name"; "is_empty"; "params"] ->
                k ∉ set_by_init ->
                __dict__ o !! k = update_all kwargs ∅ !! k)
  /\ forall σ, self σ = o ->
       shape σ
       = (inr (default (VTuple [VInt (_shape c).1; VInt (_shape c).2])
                       (update_all kwargs ∅ !! "_shape")), σ)
       /\ max_offset σ
          = (inr (default (VInt (_max_offset c))
                          (update_all kwargs ∅ !! "_max_offset")), σ).
Proof.
  intros Hres.
  destruct (construction_returns _ _ _ _ _ _ _ Hres) as (σr & σ' & Hr & Hfin & ->).
  set (σk := with_dict (update_all kwargs) (fresh c fname p empty rk)) in *.
  destruct (only_resolve_all requiered_values None (fun _ Hin => Hin) σk)
    as [Hf1 Hd1].
  rewrite Hr in Hf1, Hd1. cbn [snd] in Hf1, Hd1.
  destruct (only_finish_init σr) as [Hf2 Hd2].
  rewrite Hfin in Hf2, Hd2. cbn [snd] in Hf2, Hd2.
  destruct Hf1 as (A1 & A2 & A3 & A4), Hf2 as (B1 & B2 & B3 & B4).
  assert (Hdict : forall k, k ∉ set_by_init ->
            __dict__ (self σ') !! k = update_all kwargs ∅ !! k).
  { intros k Hk. rewrite (Hd2 k Hk), (Hd1 k Hk). reflexivity. }
  assert (Hcls : cls (self σ') = c) by (rewrite B1, A1; reflexivity).
  split; [|split].
  - split; [exact Hcls|]. split; [rewrite B2, A2; reflexivity|].
    split; [rewrite B3, A3; reflexivity | rewrite B4, A4; reflexivity].
  - intros k _ Hk. now apply Hdict.
  - intros σ Hσ. unfold shape, max_offset, getattr, lookup_attr.
    rewrite Hσ, Hcls. rewrite !Hdict by not_listed.
    rewrite class_dict_shape, class_dict_max_offset.
    destruct (update_all kwargs ∅ !! "_shape"), (update_all kwargs ∅ !! "_max_offset");
      split; reflexivity.
Qed.

Lemma attributes_after_construction_witness :
  shape (at_rank 2 (handle_of params_20kHz))
  = (inr (VTuple [VInt 1000; VInt 5]), at_rank 2 (handle_of params_20kHz))
  /\ max_offset (at_rank 2 (handle_of params_20kHz))
     = (inr (VInt 0), at_rank 2 (handle_of params_20kHz)).
Proof.
  apply (proj2 (proj2 (attributes_after_construction raw_binary "rec/data.dat"
                         params_20kHz false shape_1000x5 2 (handle_of params_20kHz)
                         ltac:(vm_compute; reflexivity)))).
  reflexivity.
Defined.

(** The witness of [init_is_lazy]: caches passed as keywords are reset. *)
Lemma init_is_lazy_witness :
  __dict__ (handle_of params_20kHz) !! "_N_t" = Some VNone
  /\ __dict__ (handle_of params_20kHz) !! "_template_shift" = Some VNone.
Proof.
  apply (proj1 (init_is_lazy raw_binary "rec/data.dat" params_20kHz false
                  (("_N_t", VInt 99) :: ("_template_shift", VInt 7) :: shape_1000x5) 0)).
  vm_compute. reflexivity.
Defined.
